(** * KPI dashboard (src/app.py): a shallow embedding and its properties

    The script is a linear Streamlit page: an uploaded spreadsheet is read with
    pandas, capped at 10,000 rows, its columns are classified by dtype, and a
    fixed set of metrics, charts and descriptive statistics is rendered.

    Layout of this development:
    - [Python]    exceptions and the outcome of a call that may raise;
    - [Numpy]     binary64 and int64 arithmetic and the numpy reductions the
                  pandas calls rest on (pairwise summation, minimum, maximum,
                  percentiles by linear interpolation);
    - [Pandas]    the table model and the pandas operations the script calls
                  (head, select_dtypes, sum, mean, groupby-sum, nlargest,
                  describe);
    - [Plotly]    the four plotly express calls, as figure descriptions;
    - [Streamlit] the page as a log of rendered elements, the monad of a
                  script run (log plus a possibly raised exception) and the
                  widgets;
    - [App]       the functions and the top-level script of src/app.py;
    - [Observe]   the vocabulary in which the properties are stated;
    - [Examples]  concrete tables and sessions;
    - the properties, one block per claim, after the lemmas they share.

    Numbers are what pandas holds: a cell of an int64 column is an integer and
    sums of integers wrap around at 64 bits; a cell of a float64 column is an
    IEEE 754 binary64 value (Rocq's primitive floats) and every sum, mean,
    variance and percentile is computed in binary64, in the order in which
    numpy and pandas add: numpy's pairwise summation for a column sum,
    compensated summation for the sum of a group, two passes for the
    variance (pandas' own reductions, without the optional bottleneck
    accelerator; numpy 1.25 or later).

    Scope.  Column labels are strings, as a header row of text gives them; a
    header cell that holds a number gives an integer label, which the model
    does not have.  A loaded table has distinct column names (the spreadsheet
    reader renames repeated headers); the properties that need it say so.
    The dtypes are the five a sheet of numbers, text, truth values and dates
    loads to; a column of durations (timedelta64, which select_dtypes counts
    among the numbers) is not modelled.  The keys of a grouping are numbers,
    strings and missing values, which pandas puts in order. *)

From Stdlib Require Import Floats.
From Stdlib Require Import String List ZArith QArith.
From Stdlib Require Import Psatz Permutation Sorted DecimalString OrderedTypeEx.
Import ListNotations.

Local Open Scope string_scope.
Local Open Scope list_scope.

(* ================================================================= *)
(** ** Python values the script relies on *)

Module Python.

(** [str(n)] for an integer. *)
Definition str_of_int (z : Z) : string := NilZero.string_of_int (Z.to_int z).

(** An instance of Python's [Exception]: its class name and [str(e)]. *)
Record Exception : Set := mkException {
  exc_class : string;
  exc_str : string
}.

(** The result of a call that may raise. *)
Inductive Outcome (A : Type) : Type :=
| Ok (a : A)
| Raise (e : Exception).
Arguments Ok {A} a.
Arguments Raise {A} e.

Definition KeyError (label : string) : Exception :=
  mkException "KeyError" ("'" ++ label ++ "'").

Definition TypeError (msg : string) : Exception := mkException "TypeError" msg.

Definition ValueError (msg : string) : Exception := mkException "ValueError" msg.

Definition OverflowError (msg : string) : Exception :=
  mkException "OverflowError" msg.

End Python.

(* ================================================================= *)
(** ** The numpy layer: int64, float64 and the reductions *)

Module Numpy.

(** An int64 result: the integer reduced to the range of 64 signed bits. *)
Definition wrap64 (z : Z) : Z :=
  ((z + 9223372036854775808) mod 18446744073709551616 - 9223372036854775808)%Z.

(** [float(z)]: the binary64 value nearest to the integer, ties to even. *)
Definition float_of_Z (z : Z) : float :=
  SF2Prim (binary_normalize prec emax z 0 false).

(** A binary64 value that is a number: finite or infinite, not NaN.  A
    missing float is the cell [NaN] of the table, never a payload. *)
Record double : Set := mkDouble {
  bits : float;
  bits_number : is_nan bits = false
}.

(** The sum of a list of int64 values, as numpy's integer [add.reduce]. *)
Definition int_sum (l : list Z) : Z := wrap64 (fold_left Z.add l 0%Z).

Local Open Scope float_scope.

(** Elementwise sum of the eight accumulators and the next eight values. *)
Definition add8 (r x : list float) : list float :=
  map (fun p => fst p + snd p) (combine r x).

(** The unrolled loop of numpy's pairwise summation: as long as eight values
    are left, add them to the eight accumulators. *)
Fixpoint unrolled (fuel : nat) (r l : list float) : list float * list float :=
  match fuel with
  | O => (r, l)
  | S fuel' =>
      if (8 <=? length l)%nat
      then unrolled fuel' (add8 r (firstn 8 l)) (skipn 8 l)
      else (r, l)
  end.

(** A block of at least 8 and at most 128 values: eight accumulators over the
    multiples of eight, combined pairwise, then the rest one by one. *)
Definition block_sum (l : list float) : float :=
  let '(r, rest) := unrolled (length l) (firstn 8 l) (skipn 8 l) in
  match r with
  | [r0; r1; r2; r3; r4; r5; r6; r7] =>
      fold_left PrimFloat.add rest (((r0 + r1) + (r2 + r3)) + ((r4 + r5) + (r6 + r7)))
  | _ => fold_left PrimFloat.add l neg_zero
  end.

(** numpy's pairwise summation ([DOUBLE_pairwise_sum]): fewer than 8 values
    are added left to right; up to 128 values go through [block_sum]; a longer
    list is split near its middle, at a multiple of 8, and the sums of the
    two halves are added.  [fuel] bounds the depth of the splitting. *)
Fixpoint pairwise (fuel : nat) (l : list float) : float :=
  let n := length l in
  if (n <? 8)%nat then fold_left PrimFloat.add l neg_zero
  else if (n <=? 128)%nat then block_sum l
  else
    match fuel with
    | O => block_sum l
    | S fuel' =>
        let n2 := (n / 2 - (n / 2) mod 8)%nat in
        pairwise fuel' (firstn n2 l) + pairwise fuel' (skipn n2 l)
    end.

Definition pairwise_sum (l : list float) : float := pairwise (length l) l.

(** The value a float sum starts from: 0.0 for an empty array, -0.0
    otherwise, which leaves every first summand as it is (numpy 1.25 and
    later; an earlier numpy starts from 0.0, which differs in the sign of a
    zero sum only). *)
Definition initial (l : list float) : float :=
  match l with
  | [] => 0
  | _ => neg_zero
  end.

(** [np.add.reduce] over a float64 array: the initial value plus the
    pairwise sum of the whole array. *)
Definition sum (l : list float) : float := initial l + pairwise_sum l.

(** The buffers in which numpy casts an array: 8192 elements each. *)
Definition buffer_size : nat := Z.to_nat 8192.

Fixpoint buffers (fuel : nat) (l : list float) : list (list float) :=
  match l, fuel with
  | [], _ => []
  | _, O => [l]
  | _, S fuel' => firstn buffer_size l :: buffers fuel' (skipn buffer_size l)
  end.

(** [a.sum(dtype=float64)] over an int64 array: the values are cast buffer by
    buffer, and the pairwise sum of each buffer is added to the result. *)
Definition sum_as_float (l : list Z) : float :=
  fold_left (fun acc b => acc + pairwise_sum b)
            (buffers (length l) (map float_of_Z l))
            (initial (map float_of_Z l)).

(** [np.minimum] and [np.maximum] on two numbers.  A tie is between equal
    values, where it does not show, or between the two zeros, where numpy's
    vectorised loops fix no choice; the model keeps the first argument. *)
Definition minimum (a b : float) : float := if a <=? b then a else b.
Definition maximum (a b : float) : float := if b <=? a then a else b.

(** [a.min()] and [a.max()] of an array of numbers; NaN for an empty one, as
    pandas returns it. *)
Definition min (l : list float) : float :=
  match l with
  | [] => nan
  | x :: l' => fold_left minimum l' x
  end.

Definition max (l : list float) : float :=
  match l with
  | [] => nan
  | x :: l' => fold_left maximum l' x
  end.

(** numpy's [_lerp]: the point at fraction [t] between [a] and [b], computed
    from [a] below one half and from [b] from one half on; [diff] is [b - a]
    as the array's dtype subtracts. *)
Definition lerp (a b diff t : float) : float :=
  if 0.5 <=? t then b - diff * (1 - t) else a + diff * t.

Section Percentile.

(** The values of the array, their ascending order and the difference of
    two of them. *)
Context {V : Type} (to_float : V -> float) (sub : V -> V -> float)
        (sorted : list V).

(** [np.percentile(a, 25 * k, method="linear")] for [k] = 1, 2, 3 on a
    non-empty array: the virtual index is [(n - 1) * k / 4]; its integer part
    and the next index select the two neighbours in the sorted array, its
    fractional part (a multiple of one quarter, exact in binary64) is the
    weight.  A virtual index at or above [n - 1] takes the last value for
    both neighbours, with the weight counted from index -1. *)
Definition quartile (k : Z) : float :=
  match sorted with
  | [] => nan
  | x :: _ =>
      let n := Z.of_nat (length sorted) in
      let h := ((n - 1) * k)%Z in
      if (4 * (n - 1) <=? h)%Z then
        let z := last sorted x in
        lerp (to_float z) (to_float z) (sub z z) (float_of_Z h / 4 + 1)
      else
        let a := nth (Z.to_nat (h / 4)) sorted x in
        let b := nth (Z.to_nat (h / 4 + 1)) sorted x in
        lerp (to_float a) (to_float b) (sub b a) (float_of_Z (h mod 4) / 4)
  end.

End Percentile.

End Numpy.

(* ================================================================= *)
(** ** The pandas layer *)

Module Pandas.
Import Python Numpy.

(** Column dtypes a spreadsheet load produces. *)
Inductive dtype : Set :=
| Int64
| Float64
| Object
| Boolean
| Datetime64.

Definition dtype_eqb (a b : dtype) : bool :=
  match a, b with
  | Int64, Int64 | Float64, Float64 | Object, Object
  | Boolean, Boolean | Datetime64, Datetime64 => true
  | _, _ => false
  end.

(** [issubclass(dtype.type, np.number)]: the integer and floating dtypes.
    numpy's bool_ and datetime64 are not subclasses of np.number. *)
Definition np_number (d : dtype) : bool :=
  match d with
  | Int64 | Float64 => true
  | _ => false
  end.

(** The selector ['object']. *)
Definition np_object (d : dtype) : bool :=
  match d with
  | Object => true
  | _ => false
  end.

(** A scalar of a table: an integer, a float that is a number, a string, or
    missing (NaN / None / NaT).  A Boolean cell is the integer 0 or 1 and a
    Datetime64 cell the integer of its timestamp, as numpy stores them. *)
Inductive cell : Set :=
| Int (z : Z)
| Float (x : double)
| Str (s : string)
| NaN.

Definition Series : Set := list cell.

(** A table: the ordered columns (name and dtype) and the ordered rows, each
    row holding one cell per column. *)
Record DataFrame : Set := mkDataFrame {
  schema : list (string * dtype);
  rows : list (list cell)
}.

Definition columns (df : DataFrame) : list string := map fst (schema df).

(** [len(df)]. *)
Definition len (df : DataFrame) : Z := Z.of_nat (length (rows df)).

(** Every row has one cell per column. *)
Definition well_shaped (df : DataFrame) : Prop :=
  Forall (fun r => length r = length (schema df)) (rows df).

(** [l[:n]] for a Python integer [n]: a negative [n] drops the last [-n]. *)
Definition slice_head {A : Type} (n : Z) (l : list A) : list A :=
  if (0 <=? n)%Z then firstn (Z.to_nat n) l
  else firstn (length l - Z.to_nat (- n)) l.

(** [df.head(n)]. *)
Definition head (n : Z) (df : DataFrame) : DataFrame :=
  mkDataFrame (schema df) (slice_head n (rows df)).

(** Keep the entries of [l] whose mask bit is set. *)
Fixpoint mask_filter {A : Type} (m : list bool) (l : list A) : list A :=
  match m, l with
  | b :: m', x :: l' => if b then x :: mask_filter m' l' else mask_filter m' l'
  | _, _ => []
  end.

(** [df.select_dtypes(include=...)]: the sub-table of the columns whose dtype
    the selector accepts, in table order.  Only the dtype is inspected. *)
Definition select_dtypes (include : dtype -> bool) (df : DataFrame) : DataFrame :=
  let m := map (fun c => include (snd c)) (schema df) in
  mkDataFrame (mask_filter m (schema df)) (map (mask_filter m) (rows df)).

(** Position of the first column called [name]. *)
Fixpoint index_of (name : string) (cols : list string) : option nat :=
  match cols with
  | [] => None
  | c :: cols' =>
      if String.eqb name c then Some 0%nat
      else option_map S (index_of name cols')
  end.

Definition column_at (i : nat) (df : DataFrame) : Series :=
  map (fun r => nth i r NaN) (rows df).

(** [df[col]]: the column as a series, a KeyError for an unknown label. *)
Definition getitem (df : DataFrame) (col : string) : Outcome Series :=
  match index_of col (columns df) with
  | Some i => Ok (column_at i df)
  | None => Raise (KeyError col)
  end.

(** [df[col].dtype], where the column exists. *)
Definition dtype_of (df : DataFrame) (col : string) : option dtype :=
  option_map (fun i => nth i (map snd (schema df)) Object)
             (index_of col (columns df)).

(** The dtype the series [df[col]] carries; [df[col]] has raised before the
    dtype of an unknown label is asked for. *)
Definition dtype_at (df : DataFrame) (col : string) : dtype :=
  match dtype_of df col with
  | Some d => d
  | None => Object
  end.

(** *** Reductions of a numeric column *)

(** The result of a reduction: a numpy int64 or a float64 (NaN included). *)
Inductive scalar : Set :=
| SInt (z : Z)
| SFloat (f : float).

(** The values of an int64 array. *)
Definition ints (s : Series) : list Z :=
  flat_map (fun c => match c with Int z => [z] | _ => [] end) s.

(** An int64 array: every cell is an integer (a column with a missing value
    or a fraction is a float64 array). *)
Definition is_int_array (s : Series) : bool :=
  forallb (fun c => match c with Int _ => true | _ => false end) s.

(** The float64 a cell of a numeric array holds; [None] for a missing one. *)
Definition as_float (c : cell) : option float :=
  match c with
  | Int z => Some (float_of_Z z)
  | Float x => Some (bits x)
  | _ => None
  end.

(** The non-missing values of a series (pandas' skipna=True). *)
Definition dropna (s : Series) : list float :=
  flat_map (fun c => match as_float c with Some f => [f] | None => [] end) s.

(** The array a skipna reduction adds up: the values, with [fill] in the
    place of every missing one. *)
Definition fillna (fill : float) (s : Series) : list float :=
  map (fun c => match as_float c with Some f => f | None => fill end) s.

(** [s.count()]. *)
Definition count (s : Series) : Z := Z.of_nat (length (dropna s)).

(** The column holds text. *)
Definition has_text (s : Series) : bool :=
  existsb (fun c => match c with Str _ => true | _ => false end) s.

(** [float(v)] for a Python number; an int beyond the range of binary64
    raises. *)
Definition py_float (v : scalar) : Outcome float :=
  match v with
  | SInt z =>
      if is_infinity (float_of_Z z)
      then Raise (OverflowError "int too large to convert to float")
      else Ok (float_of_Z z)
  | SFloat f => Ok f
  end.

(** [a + b] for two Python numbers: exact on two ints, in binary64 as soon
    as one of them is a float. *)
Definition py_add (a b : scalar) : Outcome scalar :=
  match a, b with
  | SInt x, SInt y => Ok (SInt (x + y))
  | _, _ =>
      match py_float a, py_float b with
      | Ok x, Ok y => Ok (SFloat (x + y))
      | Raise e, _ => Raise e
      | _, Raise e => Raise e
      end
  end.

(** The Python number an object cell holds, 0 in the place of a missing
    one. *)
Definition py_number (c : cell) : scalar :=
  match c with
  | Int z => SInt z
  | Float x => SFloat (bits x)
  | _ => SInt 0
  end.

(** The sum of an object array that holds no text: the cells are Python
    ints and floats, added with [+] from left to right; 0 for no cell. *)
Definition object_sum (s : Series) : Outcome scalar :=
  match s with
  | [] => Ok (SInt 0)
  | c :: s' =>
      fold_left (fun acc c' =>
                   match acc with
                   | Ok a => py_add a (py_number c')
                   | Raise e => Raise e
                   end) s' (Ok (py_number c))
  end.

(** [s.sum()] for a series of dtype [d] (nanops.nansum): an int64 or bool
    array is added in int64; in a float64 array the missing values are
    replaced by 0 and the array is added by numpy; the empty sum is 0.  A
    datetime column does not support the reduction.  In an object column the
    missing cells are replaced by 0 and the objects are added by Python: on a
    column that holds text this, or the [mean] after it, raises a TypeError
    (the message depends on the cells, the model keeps one).  The script
    itself hands only int64 and float64 columns to this call. *)
Definition sum (d : dtype) (s : Series) : Outcome scalar :=
  match d with
  | Int64 | Boolean => Ok (SInt (int_sum (ints s)))
  | Float64 => Ok (SFloat (Numpy.sum (fillna 0 s)))
  | Datetime64 =>
      Raise (TypeError "'DatetimeArray' with dtype datetime64[ns] does not support reduction 'sum'")
  | Object =>
      if has_text s then Raise (TypeError "Could not convert string to numeric")
      else object_sum s
  end.

(** [s.mean()] (nanops.nanmean): the float64 sum of the array, missing values
    replaced by 0, over the number of non-missing values; NaN for a series
    without values.  An int64 array is added with [dtype=float64]. *)
Definition mean (s : Series) : float :=
  let n := count s in
  if (0 <? n)%Z
  then ((if is_int_array s then sum_as_float (ints s) else Numpy.sum (fillna 0 s))
        / float_of_Z n)%float
  else nan.

(** [s.mean()] for a series of dtype [d]: [mean] for a numeric array; for an
    object array without text the sum of the objects over the number of
    non-missing cells.  The mean of a datetime column is a timestamp and no
    number: the model has no value for it and raises; the KPI loop, the only
    caller, has raised at the sum before it. *)
Definition series_mean (d : dtype) (s : Series) : Outcome float :=
  match d with
  | Int64 | Boolean | Float64 => Ok (mean s)
  | Datetime64 =>
      Raise (TypeError "the mean of a datetime column is a timestamp")
  | Object =>
      if has_text s then Raise (TypeError "Could not convert string to numeric")
      else
        match object_sum s with
        | Raise e => Raise e
        | Ok v =>
            if (0 <? count s)%Z then
              match py_float v with
              | Ok f => Ok (f / float_of_Z (count s))%float
              | Raise e => Raise e
              end
            else Ok nan
        end
  end.

(** [s.var()] with the default [ddof=1] (nanops.nanvar, two passes): the
    average of the values cast to float64, then the sum of the squared
    deviations from it, missing values counting 0, over [n - 1]; NaN below
    two values. *)
Definition var (s : Series) : float :=
  let n := count s in
  if (n <=? 1)%Z then nan
  else
    let avg := (Numpy.sum (fillna 0 s) / float_of_Z n)%float in
    let sqr := map (fun c => match as_float c with
                             | Some f => ((avg - f) * (avg - f))%float
                             | None => 0%float
                             end) s in
    (Numpy.sum sqr / float_of_Z (n - 1))%float.

(** [s.std()]: the square root of [s.var()]. *)
Definition std (s : Series) : float := PrimFloat.sqrt (var s).

Section Sorting.
Context {V : Type} (leb : V -> V -> bool).

Fixpoint insert_asc (x : V) (l : list V) : list V :=
  match l with
  | [] => [x]
  | y :: l' => if leb x y then x :: l else y :: insert_asc x l'
  end.

(** The values in ascending order. *)
Definition sort_asc (l : list V) : list V := fold_right insert_asc [] l.

End Sorting.

(** [s.quantile(k / 4)] with the default linear interpolation: numpy's
    percentile of the non-missing values.  An int64 array is interpolated as
    numpy does it: the difference of the two neighbours is taken in int64. *)
Definition quartile (k : Z) (s : Series) : float :=
  if is_int_array s
  then Numpy.quartile float_of_Z (fun b a => float_of_Z (wrap64 (b - a)))
                      (sort_asc Z.leb (ints s)) k
  else Numpy.quartile (fun f => f) PrimFloat.sub
                      (sort_asc PrimFloat.leb (dropna s)) k.

(** One column of [describe()]'s result, a float64 column but for the count
    kept as an integer; NaN is the statistic of a column without values. *)
Record Stats : Set := mkStats {
  st_count : Z;
  st_mean : float;
  st_std : float;
  st_min : float;
  st_q25 : float;
  st_q50 : float;
  st_q75 : float;
  st_max : float
}.

Definition describe_series (s : Series) : Stats :=
  mkStats (count s) (mean s) (std s) (Numpy.min (dropna s))
          (quartile 1 s) (quartile 2 s) (quartile 3 s)
          (Numpy.max (dropna s)).

(** The result of [DataFrame.describe()]: the statistics are the rows (the
    index), the described columns stay columns. *)
Record DescribeFrame : Set := mkDescribe {
  d_index : list string;
  d_columns : list (string * Stats)
}.

Definition describe_index : list string :=
  ["count"; "mean"; "std"; "min"; "25%"; "50%"; "75%"; "max"].

(** [df[names]]: the named columns, in the order of [names]; a KeyError
    for the first unknown label. *)
Fixpoint getitem_list (df : DataFrame) (names : list string)
  : Outcome (list (string * Series)) :=
  match names with
  | [] => Ok []
  | c :: names' =>
      match getitem df c with
      | Ok s =>
          match getitem_list df names' with
          | Ok r => Ok ((c, s) :: r)
          | Raise e => Raise e
          end
      | Raise e => Raise e
      end
  end.

(** [frame.describe()] on a table of numeric columns. *)
Definition describe (cols : list (string * Series)) : DescribeFrame :=
  mkDescribe describe_index
             (map (fun c => (fst c, describe_series (snd c))) cols).

(** *** groupby-sum and nlargest *)

(** The exact value of a float that is a number, with the class of the
    infinities before it: -1 for -inf, 1 for +inf, 0 for a finite value. *)
Definition exact (f : float) : Z * Q :=
  match Prim2SF f with
  | S754_zero _ => (0%Z, 0%Q)
  | S754_infinity s => ((if s then -1 else 1)%Z, 0%Q)
  | S754_nan => (2%Z, 0%Q)
  | S754_finite s m e =>
      (0%Z, (inject_Z (if s then Z.neg m else Z.pos m) * Qpower 2 e)%Q)
  end.

(** The number a key is, where it is one. *)
Definition number_of (c : cell) : option (Z * Q) :=
  match c with
  | Int z => Some (0%Z, inject_Z z)
  | Float x => Some (exact (bits x))
  | _ => None
  end.

Definition number_compare (p q : Z * Q) : comparison :=
  match (fst p ?= fst q)%Z with
  | Eq => (snd p ?= snd q)%Q
  | c => c
  end.

(** Order of group keys under groupby's default [sort=True]: numbers by value
    (an integer and a float of the same value are the same key), then strings
    in lexicographic order; a missing key comes last (and is dropped before it
    could matter, see [group_step]). *)
Definition key_compare (a b : cell) : comparison :=
  match number_of a, number_of b with
  | Some p, Some q => number_compare p q
  | Some _, None => Lt
  | None, Some _ => Gt
  | None, None =>
      match a, b with
      | Str s, Str t => String.compare s t
      | Str _, _ => Lt
      | _, Str _ => Gt
      | _, _ => Eq
      end
  end.

Section GroupBy.

(** The running state of one group: where it starts, and how the value of
    one more row enters it. *)
Context {A : Type} (start : A) (step : A -> cell -> A).

(** Add the value [v] to the group of key [k] in a key-sorted list of
    groups. *)
Fixpoint group_add (k v : cell) (acc : list (cell * A)) : list (cell * A) :=
  match acc with
  | [] => [(k, step start v)]
  | (k', s) :: acc' =>
      match key_compare k k' with
      | Lt => (k, step start v) :: acc
      | Eq => (k', step s v) :: acc'
      | Gt => (k', s) :: group_add k v acc'
      end
  end.

(** One row: rows with a missing key are dropped ([dropna=True]). *)
Definition group_step (acc : list (cell * A)) (kv : cell * cell) : list (cell * A) :=
  match fst kv with
  | NaN => acc
  | k => group_add k (snd kv) acc
  end.

(** The groups of the zipped (key, value) cells of two columns, in ascending
    key order ([sort=True]), each with the state its rows leave, in row
    order. *)
Definition group_fold (kvs : list (cell * cell)) : list (cell * A) :=
  fold_left group_step kvs [].

End GroupBy.

(** The int64 sum of a group takes one more value: integer addition. *)
Definition int_step (s : Z) (v : cell) : Z :=
  match v with
  | Int z => wrap64 (s + z)
  | _ => s
  end.

(** The float64 sum of a group takes one more value (pandas' group_sum):
    Kahan summation, the running sum and its compensation; a missing value is
    skipped; a compensation that is NaN is reset to 0. *)
Definition kahan_step (st : float * float) (v : cell) : float * float :=
  match as_float v with
  | None => st
  | Some val =>
      let '(sumx, compensation) := st in
      let y := (val - compensation)%float in
      let t := (sumx + y)%float in
      let c := (t - sumx - y)%float in
      (t, if is_nan c then 0%float else c)
  end.

(** The sums of the groups: int64 for an int64 value column, float64 for a
    float64 one. *)
Inductive totals : Set :=
| IntTotals (l : list (cell * Z))
| FloatTotals (l : list (cell * float)).

(** [df.groupby(cat)[val].sum()] on the zipped cells of the two columns, for
    a value column of a dtype that can be summed. *)
Definition groupby_sum (d : dtype) (kvs : list (cell * cell)) : totals :=
  match d with
  | Float64 =>
      FloatTotals (map (fun g => (fst g, fst (snd g)))
                       (group_fold (0%float, 0%float) kahan_step kvs))
  | _ => IntTotals (group_fold 0%Z int_step kvs)
  end.

(** [df.groupby(cat)[val].sum().reset_index()] on a table, with the errors
    of its steps: a KeyError for an unknown column; a TypeError where the value
    column cannot be summed to numbers (datetimes do not support sum; an
    object column sums to strings, which the following nlargest rejects); a
    ValueError when reset_index would insert the key column a second time. *)
Definition grouped_sums (df : DataFrame) (cat val : string) : Outcome totals :=
  match getitem df cat with
  | Raise e => Raise e
  | Ok keys =>
      match getitem df val, dtype_of df val with
      | Ok vals, Some d =>
          if dtype_eqb d Datetime64
          then Raise (TypeError "datetime64 type does not support sum operations")
          else if String.eqb cat val
          then Raise (ValueError ("cannot insert " ++ val ++ ", already exists"))
          else if np_object d
          then Raise (TypeError ("Column '" ++ val ++ "' has dtype object, cannot use method 'nlargest' with this dtype"))
          else Ok (groupby_sum d (combine keys vals))
      | _, _ => Raise (KeyError ("Column not found: " ++ val))
      end
  end.

Section Largest.
Context {B : Type} (leb : B -> B -> bool).

(** Insert [x] in a list sorted by descending sum, before the first entry
    whose sum is not larger. *)
Fixpoint insert_desc (x : cell * B) (l : list (cell * B)) : list (cell * B) :=
  match l with
  | [] => [x]
  | y :: l' =>
      if leb (snd y) (snd x) then x :: l
      else y :: insert_desc x l'
  end.

(** Stable sort by descending sum: equal sums keep their input order. *)
Definition sort_desc (l : list (cell * B)) : list (cell * B) :=
  fold_right insert_desc [] l.

End Largest.

(** [frame.nlargest(n, val)] with the default [keep='first']: the first [n]
    rows of the stable descending sort on the value column; rows whose sum is
    NaN are set aside first and follow the others, in frame order.  (When [n]
    is at least the number of rows pandas returns all rows by a plain
    descending sort, which fixes the order of equal values no further; the
    model lists them in frame order, and the properties below state the order
    among equal sums only where a row is cut.) *)
Definition nlargest (n : Z) (t : totals) : totals :=
  match t with
  | IntTotals l => IntTotals (firstn (Z.to_nat n) (sort_desc Z.leb l))
  | FloatTotals l =>
      FloatTotals
        (firstn (Z.to_nat n)
           (sort_desc PrimFloat.leb (filter (fun g => negb (is_nan (snd g))) l)
            ++ filter (fun g => is_nan (snd g)) l))
  end.

(** The rows of a frame of sums: the key and the sum. *)
Definition entries (t : totals) : list (cell * scalar) :=
  match t with
  | IntTotals l => map (fun g => (fst g, SInt (snd g))) l
  | FloatTotals l => map (fun g => (fst g, SFloat (snd g))) l
  end.

End Pandas.

(* ================================================================= *)
(** ** The plotly express calls *)

Module Plotly.
Import Python Pandas.

(** A figure, as the arguments it was built from. *)
Inductive Figure : Set :=
| Bar (data : DataFrame) (y title color scale : string)
| Line (data : DataFrame) (y title : string) (markers : bool)
| Histogram (data : DataFrame) (x title : string) (nbins : Z)
| Pie (data : list (cell * scalar)) (values names title : string).

Definition has_column (df : DataFrame) (c : string) : bool :=
  existsb (String.eqb c) (columns df).

(** The error of a column argument that names no column of the data. *)
Definition not_a_column (arg c : string) : Exception :=
  ValueError ("Value of '" ++ arg ++ "' is not the name of a column in 'data_frame': " ++ c).

(** [px.bar(data, y=.., title=.., color=.., color_continuous_scale=..)]. *)
Definition px_bar (data : DataFrame) (y title color scale : string) : Outcome Figure :=
  if has_column data y then
    if has_column data color then Ok (Bar data y title color scale)
    else Raise (not_a_column "color" color)
  else Raise (not_a_column "y" y).

(** [px.line(data, y=.., title=.., markers=..)]. *)
Definition px_line (data : DataFrame) (y title : string) (markers : bool) : Outcome Figure :=
  if has_column data y then Ok (Line data y title markers)
  else Raise (not_a_column "y" y).

(** [px.histogram(data, x=.., title=.., nbins=..)]. *)
Definition px_histogram (data : DataFrame) (x title : string) (nbins : Z) : Outcome Figure :=
  if has_column data x then Ok (Histogram data x title nbins)
  else Raise (not_a_column "x" x).

(** [px.pie(data, values=.., names=.., title=..)] on a grouped frame, which
    has both columns by construction. *)
Definition px_pie (data : list (cell * scalar)) (values names title : string) : Outcome Figure :=
  Ok (Pie data values names title).

(** The cells a bar or line figure draws, one mark per row of its data. *)
Definition marks (f : Figure) : Series :=
  match f with
  | Bar data y _ _ _ | Line data y _ _ =>
      match getitem data y with
      | Ok s => s
      | Raise _ => []
      end
  | _ => []
  end.

(** The slices of a pie figure. *)
Definition slices (f : Figure) : list (cell * scalar) :=
  match f with
  | Pie data _ _ _ => data
  | _ => []
  end.

End Plotly.

(* ================================================================= *)
(** ** The Streamlit layer: pages, script runs, widgets *)

Module Streamlit.
Import Python Pandas Plotly.

(** What a metric card shows: an integer, or a number formatted with two
    decimals ([f"{x:.2f}"], with [grouping] for [f"{x:,.2f}"]) after a
    prefix. *)
Inductive metric_value : Set :=
| MInt (n : Z)
| MFixed2 (prefix : string) (grouping : bool) (x : scalar).

(** What [st.dataframe] is given. *)
Inductive tabular : Set :=
| Frame (df : DataFrame)
| Described (d : DescribeFrame).

(** The elements a script run puts on the page. *)
Inductive element : Set :=
| Title (body : string)
| Markdown (body : string)
| FileUploader (label : string) (types : list string)
| Warning (body : string)
| Success (body : string)
| Error (body : string)
| Info (body : string)
| Subheader (body : string)
| Expander (label : string)
| Columns (n : Z)
| Dataframe (data : tabular)
| Metric (label : string) (value : metric_value) (delta : option metric_value)
| Multiselect (label : string) (options default : list string)
| Selectbox (label : string) (options : list string) (key : string)
| PlotlyChart (fig : Figure)
| Within (container : string) (e : element).

Definition Page : Set := list element.

(** A script run: the elements rendered so far, and either a value or the
    exception that stopped the run. *)
Definition M (A : Type) : Type := (Page * Outcome A)%type.

Definition ret {A : Type} (a : A) : M A := ([], Ok a).

Definition bind {A B : Type} (m : M A) (k : A -> M B) : M B :=
  match m with
  | (p, Ok a) => let (p', r) := k a in (p ++ p', r)
  | (p, Raise e) => (p, Raise e)
  end.

Definition lift {A : Type} (o : Outcome A) : M A := ([], o).

Definition emit (e : element) : M unit := ([e], Ok tt).

(** [with container: body]. *)
Definition within {A : Type} (container : string) (body : M A) : M A :=
  (map (Within container) (fst body), snd body).

(** [try: body   except Exception as e: handler(e)]. *)
Definition try_except {A : Type} (body : M A) (handler : Exception -> M A) : M A :=
  match body with
  | (p, Raise e) => let (p', r) := handler e in (p ++ p', r)
  | done => done
  end.

(** What the user has chosen in the widgets so far: for a selectbox (by key)
    the position of the chosen option, for the multiselect the positions in
    the order they were picked.  [None] is an untouched widget. *)
Record Session : Set := mkSession {
  selectbox_state : string -> option nat;
  multiselect_state : option (list nat)
}.

(** [st.selectbox(label, options, key=key)]: the chosen option, the first
    one when nothing valid is chosen, [None] when there are no options. *)
Definition selectbox (ss : Session) (label : string) (options : list string)
    (key : string) : M (option string) :=
  let chosen :=
    match selectbox_state ss key with
    | Some i =>
        match nth_error options i with
        | Some o => Some o
        | None => hd_error options
        end
    | None => hd_error options
    end in
  ([Selectbox label options key], Ok chosen).

Definition pick (options : list string) (i : nat) : list string :=
  match nth_error options i with
  | Some o => [o]
  | None => []
  end.

(** [st.multiselect(label, options, default=default)]: the picked options,
    or the default for an untouched widget. *)
Definition multiselect (ss : Session) (label : string) (options default : list string)
    : M (list string) :=
  let chosen :=
    match multiselect_state ss with
    | Some picks => flat_map (pick options) (nodup Nat.eq_dec picks)
    | None => default
    end in
  ([Multiselect label options default], Ok chosen).

(** Python truthiness of a selectbox result: [None] and the empty string
    are false. *)
Definition truthy (s : option string) : bool :=
  match s with
  | Some EmptyString | None => false
  | Some _ => true
  end.

End Streamlit.

Declare Scope run_scope.
Delimit Scope run_scope with run.
Notation "x <- m ;; k" := (Streamlit.bind m (fun x => k))
  (at level 61, m at next level, right associativity) : run_scope.
Notation "m ;; k" := (Streamlit.bind m (fun _ => k))
  (at level 61, right associativity) : run_scope.

(* ================================================================= *)
(** ** src/app.py *)

Module App.
Import Python Pandas Plotly Streamlit.
Local Open Scope run_scope.
Local Open Scope Z_scope.

(** What the file uploader hands over. *)
Record UploadedFile : Set := mkUploadedFile {
  file_name : string;
  file_bytes : string
}.

Section Script.

(** [pd.read_excel]: the spreadsheet parser, which returns a table or raises. *)
Variable read_excel : UploadedFile -> Outcome DataFrame.

(** The widget state of the session in which the script runs. *)
Variable ss : Session.

(** The functions below are decorated with [st.cache_data] in the source;
    memoising a pure function does not change what it returns. *)

(** Line 17. *)
Definition load_excel_data (uploaded_file : UploadedFile) : Outcome DataFrame :=
  read_excel uploaded_file.

(** Line 22; [limit] defaults to 20. *)
Definition create_bar_chart (df : DataFrame) (column : string) (limit : Z)
  : Outcome Figure :=
  let data := head limit df in
  px_bar data column (column ++ " - Top " ++ str_of_int limit ++ " Values")
         column "viridis".

(** Line 29; [limit] defaults to 50. *)
Definition create_line_chart (df : DataFrame) (column : string) (limit : Z)
  : Outcome Figure :=
  let data := head limit df in
  px_line data column (column ++ " - Trend Analysis") true.

(** Line 35. *)
Definition create_histogram (df : DataFrame) (column : string) : Outcome Figure :=
  px_histogram df column (column ++ " - Distribution") 20.

(** Line 40. *)
Definition create_pie_chart (df : DataFrame) (cat_col val_col : string)
  : Outcome Figure :=
  match grouped_sums df cat_col val_col with
  | Raise e => Raise e
  | Ok pie_data =>
      let pie_data := nlargest 10 pie_data in
      px_pie (entries pie_data) val_col cat_col (val_col ++ " by " ++ cat_col)
  end.

Definition bar_limit : Z := 20.
Definition line_limit : Z := 50.

(** The truncation ceiling of line 64. *)
Definition row_limit : Z := 10000.

Definition truncation_advisory (n : Z) : string :=
  "⚠️ Large dataset detected (" ++ str_of_int n
  ++ " rows). Using first 10,000 rows for performance.".

Definition no_numeric_warning : string :=
  "⚠️ No numeric columns found in your data. Please ensure your Excel file contains numeric data for KPI calculations.".

Definition format_hint : string :=
  "Please make sure your file is a valid Excel format (.xlsx or .xls)".

Definition error_message (e : Exception) : string :=
  "❌ Error reading the Excel file: " ++ exc_str e.

(** Run [k] on a selectbox result that Python takes for true. *)
Definition if_truthy (choice : option string) (k : string -> M unit) : M unit :=
  match choice with
  | Some c => if truthy choice then k c else ret tt
  | None => ret tt
  end.

(** Lines 104-112: one card per selected column, the i-th in [cols[i]]. *)
Fixpoint kpi_cards (df : DataFrame) (i : Z) (selected : list string) : M unit :=
  match selected with
  | [] => ret tt
  | col :: selected' =>
      within ("cols[" ++ str_of_int i ++ "]")
        (s <- lift (getitem df col) ;;
         total_value <- lift (sum (dtype_at df col) s) ;;
         avg_value <- lift (series_mean (dtype_at df col) s) ;;
         emit (Metric col (MFixed2 EmptyString true total_value)
                      (Some (MFixed2 "Avg: " false (SFloat avg_value))))) ;;
      kpi_cards df (i + 1) selected'
  end.

(** Lines 92-112: the KPI cards of the selected columns. *)
Definition kpi_section (df : DataFrame) (numeric_columns : list string) : M unit :=
  emit (Subheader "📈 Key Performance Indicators") ;;
  selected_kpi_cols <-
    multiselect ss "Select columns for KPI cards:" numeric_columns
      (if 4 <=? Z.of_nat (length numeric_columns)
       then firstn 4 numeric_columns else numeric_columns) ;;
  match selected_kpi_cols with
  | [] => ret tt
  | _ => emit (Columns (Z.of_nat (length selected_kpi_cols))) ;;
         kpi_cards df 0 selected_kpi_cols
  end.

(** Lines 115-155: the four chart panels. *)
Definition charts_section (df : DataFrame) (numeric_columns : list string) : M unit :=
  emit (Subheader "📊 Visualizations") ;;
  emit (Columns 2) ;;
  within "chart_col1"
    (if 1 <=? Z.of_nat (length numeric_columns) then
       bar_col <- selectbox ss "Select column for bar chart:" numeric_columns "bar" ;;
       if_truthy bar_col (fun c =>
         fig_bar <- lift (create_bar_chart df c bar_limit) ;;
         emit (PlotlyChart fig_bar))
     else ret tt) ;;
  within "chart_col2"
    (if 1 <=? Z.of_nat (length numeric_columns) then
       line_col <- selectbox ss "Select column for trend line:" numeric_columns "line" ;;
       if_truthy line_col (fun c =>
         fig_line <- lift (create_line_chart df c line_limit) ;;
         emit (PlotlyChart fig_line))
     else ret tt) ;;
  emit (Columns 2) ;;
  within "chart_col3"
    (if 1 <=? Z.of_nat (length numeric_columns) then
       hist_col <- selectbox ss "Select column for distribution:" numeric_columns "hist" ;;
       if_truthy hist_col (fun c =>
         fig_hist <- lift (create_histogram df c) ;;
         emit (PlotlyChart fig_hist))
     else ret tt) ;;
  within "chart_col4"
    (let categorical_cols := columns (select_dtypes np_object df) in
     if (0 <? Z.of_nat (length categorical_cols))
        && (0 <? Z.of_nat (length numeric_columns)) then
       cat_col <- selectbox ss "Select category for pie chart:" categorical_cols "pie_cat" ;;
       val_col <- selectbox ss "Select value for pie chart:" numeric_columns "pie_val" ;;
       if_truthy cat_col (fun c =>
         if_truthy val_col (fun v =>
           fig_pie <- lift (create_pie_chart df c v) ;;
           emit (PlotlyChart fig_pie)))
     else ret tt).

(** Lines 158-159: the summary statistics. *)
Definition summary_statistics (df : DataFrame) (numeric_columns : list string) : M unit :=
  emit (Subheader "📋 Summary Statistics") ;;
  numeric_frame <- lift (getitem_list df numeric_columns) ;;
  emit (Dataframe (Described (describe numeric_frame))).

(** Lines 92-159: the branch of a table with numeric columns. *)
Definition kpi_and_charts (df : DataFrame) (numeric_columns : list string) : M unit :=
  kpi_section df numeric_columns ;;
  charts_section df numeric_columns ;;
  summary_statistics df numeric_columns.

(** Lines 68-162: what is rendered for the table [df]. *)
Definition dashboard (df : DataFrame) : M unit :=
  emit (Success ("✅ File uploaded successfully! Found " ++ str_of_int (len df)
                 ++ " rows and " ++ str_of_int (Z.of_nat (length (columns df)))
                 ++ " columns.")) ;;
  emit (Expander "📋 Data Preview") ;;
  within "📋 Data Preview" (emit (Dataframe (Frame (head 10 df)))) ;;
  emit (Columns 3) ;;
  within "col1" (emit (Metric "Total Rows" (MInt (len df)) None)) ;;
  within "col2"
    (emit (Metric "Total Columns" (MInt (Z.of_nat (length (columns df)))) None)) ;;
  within "col3"
    (let numeric_cols := columns (select_dtypes np_number df) in
     emit (Metric "Numeric Columns" (MInt (Z.of_nat (length numeric_cols))) None)) ;;
  emit (Subheader "🎯 Configure Your KPIs") ;;
  let numeric_columns := columns (select_dtypes np_number df) in
  if 0 <? Z.of_nat (length numeric_columns)
  then kpi_and_charts df numeric_columns
  else emit (Warning no_numeric_warning).

(** Lines 64-66: the cap on the row count. *)
Definition truncate (df : DataFrame) : M DataFrame :=
  if row_limit <? len df
  then emit (Warning (truncation_advisory (len df))) ;; ret (head row_limit df)
  else ret df.

(** Lines 61-162: the body of the [try]. *)
Definition pipeline (uploaded_file : UploadedFile) : M unit :=
  df <- lift (load_excel_data uploaded_file) ;;
  df <- truncate df ;;
  dashboard df.

(** Lines 164-166: the [except Exception as e] clause. *)
Definition on_exception (e : Exception) : M unit :=
  emit (Error (error_message e)) ;;
  emit (Info format_hint).

Definition instructions : string :=
  "
    ### 📋 Instructions:
    1. **Upload** your Excel file using the file uploader above
    2. **Review** the data preview to ensure it loaded correctly
    3. **Configure** your KPIs by selecting relevant columns
    4. **Analyze** the generated charts and metrics
    
    ### 📊 What you'll get:
    - **KPI Cards** showing key metrics and totals
    - **Interactive Charts** including bar, line, histogram, and pie charts
    - **Summary Statistics** for all numeric columns
    - **Data Preview** to verify your upload
    
    ### 📁 Supported formats:
    - Excel files (.xlsx, .xls)
    - Data should include column headers
    - Numeric columns for KPI calculations
    ".

(** Lines 48-56: what every run of [main] renders first. *)
Definition header : Page :=
  [ Title "📊 KPI Dashboard";
    Markdown "Upload your Excel file to generate interactive KPI visualizations";
    FileUploader "Choose an Excel file" ["xlsx"; "xls"] ].

(** The script, top to bottom; [uploaded_file] is what [st.file_uploader]
    returns ([None]: no file).  [st.set_page_config] (line 9) renders nothing
    and is left out. *)
Definition main (uploaded_file : option UploadedFile) : M unit :=
  emit (Title "📊 KPI Dashboard") ;;
  emit (Markdown "Upload your Excel file to generate interactive KPI visualizations") ;;
  emit (FileUploader "Choose an Excel file" ["xlsx"; "xls"]) ;;
  match uploaded_file with
  | Some f => try_except (pipeline f) on_exception
  | None =>
      emit (Info "👆 Please upload an Excel file to get started") ;;
      emit (Markdown instructions)
  end.

End Script.

End App.

(* ================================================================= *)
(** ** Vocabulary of the properties *)

Module Observe.
Import Python Pandas Plotly Streamlit App.

(** Every element rendered by a run satisfies [P]. *)
Definition renders {A : Type} (P : element -> Prop) (m : M A) : Prop :=
  Forall P (fst m).

(** The run ends without an exception. *)
Definition succeeds {A : Type} (m : M A) : Prop := exists a, snd m = Ok a.

(** A KPI card is a metric with a delta line; a chart panel is a plotly
    chart; the summary-statistics table is a displayed [describe()] result.
    Elements are looked up through the containers they sit in. *)
Fixpoint kpi_chart_or_stats (e : element) : bool :=
  match e with
  | Metric _ _ (Some _) => true
  | PlotlyChart _ => true
  | Dataframe (Described _) => true
  | Within _ e' => kpi_chart_or_stats e'
  | _ => false
  end.

(** The column names an element of the KPI, chart and statistics stages
    offers or uses: the options of a widget, the label of a KPI card, the
    column arguments of a chart, the columns of the statistics table. *)
Fixpoint mentioned (e : element) : list string :=
  match e with
  | Multiselect _ options default => options ++ default
  | Selectbox _ options _ => options
  | Metric label _ (Some _) => [label]
  | PlotlyChart (Bar _ y _ color _) => [y; color]
  | PlotlyChart (Line _ y _ _) => [y]
  | PlotlyChart (Histogram _ x _ _) => [x]
  | PlotlyChart (Pie _ values names _) => [values; names]
  | Dataframe (Described d) => map fst (d_columns d)
  | Within _ e' => mentioned e'
  | _ => []
  end.

(** What holds of every element the dashboard renders for a table whose
    numeric columns are [num] and whose object columns are [cat]. *)
Fixpoint element_ok (num cat : list string) (e : element) : Prop :=
  match e with
  | Within _ e' => element_ok num cat e'
  | Warning body => body = no_numeric_warning
  | Error _ => False
  | Multiselect _ options default => options = num /\ incl default num
  | Selectbox _ options key =>
      if String.eqb key "pie_cat" then options = cat else options = num
  | Metric label _ (Some _) => In label num
  | PlotlyChart (Bar _ y _ color _) => In y num /\ color = y
  | PlotlyChart (Line _ y _ _) => In y num
  | PlotlyChart (Histogram _ x _ _) => In x num
  | PlotlyChart (Pie _ values names _) => In values num /\ In names cat
  | Dataframe (Described d) => map fst (d_columns d) = num
  | _ => True
  end.

(** The schema inspection of lines 88 and 148. *)
Definition numeric_columns (df : DataFrame) : list string :=
  columns (select_dtypes np_number df).

Definition categorical_cols (df : DataFrame) : list string :=
  columns (select_dtypes np_object df).

(** The table the pipeline works on after the cap of lines 64-66. *)
Definition capped (df : DataFrame) : DataFrame :=
  if (row_limit <? len df)%Z then head row_limit df else df.

(** Lines 68-85: the elements every loaded table gets, whatever its columns. *)
Definition dashboard_prefix (df : DataFrame) : Page :=
  [ Success ("✅ File uploaded successfully! Found " ++ str_of_int (len df)
             ++ " rows and " ++ str_of_int (Z.of_nat (length (columns df)))
             ++ " columns.");
    Expander "📋 Data Preview";
    Within "📋 Data Preview" (Dataframe (Frame (head 10 df)));
    Columns 3;
    Within "col1" (Metric "Total Rows" (MInt (len df)) None);
    Within "col2" (Metric "Total Columns" (MInt (Z.of_nat (length (columns df)))) None);
    Within "col3" (Metric "Numeric Columns"
                          (MInt (Z.of_nat (length (numeric_columns df)))) None);
    Subheader "🎯 Configure Your KPIs" ].

(** The truncation advisory, where the table is over the ceiling. *)
Definition advisory (df : DataFrame) : Page :=
  if (row_limit <? len df)%Z then [Warning (truncation_advisory (len df))] else [].

(** The chart an element shows, looked up through its containers. *)
Fixpoint chart_of (e : element) : option Figure :=
  match e with
  | PlotlyChart fig => Some fig
  | Within _ e' => chart_of e'
  | _ => None
  end.

(** The column arguments of a figure are of the kinds its builder expects. *)
Definition columns_fit (num cat : list string) (fig : Figure) : Prop :=
  match fig with
  | Bar _ y _ _ _ => In y num
  | Line _ y _ _ => In y num
  | Histogram _ x _ _ => In x num
  | Pie _ values names _ => In names cat /\ In values num
  end.

(** The summary-statistics table an element shows. *)
Fixpoint stats_of (e : element) : option DescribeFrame :=
  match e with
  | Dataframe (Described d) => Some d
  | Within _ e' => stats_of e'
  | _ => None
  end.

(** What the [except] clause adds to the page. *)
Definition failure_notice (e : Exception) : Page :=
  [Error (error_message e); Info format_hint].

(** The sum of the integers of a column, cell by cell. *)
Fixpoint int_total (s : Series) : Z :=
  match s with
  | [] => 0%Z
  | Int z :: s' => (z + int_total s')%Z
  | _ :: s' => int_total s'
  end.

(** The float64 values of a column, cell by cell, with 0 where the value is
    missing: what is left to add when the missing values are left out. *)
Fixpoint present_or_zero (s : Series) : list float :=
  match s with
  | [] => []
  | Int z :: s' => Numpy.float_of_Z z :: present_or_zero s'
  | Float x :: s' => Numpy.bits x :: present_or_zero s'
  | _ :: s' => 0%float :: present_or_zero s'
  end.

(** The number of non-missing values of a column. *)
Fixpoint number_present (s : Series) : nat :=
  match s with
  | [] => 0%nat
  | Int _ :: s' | Float _ :: s' => S (number_present s')
  | _ :: s' => number_present s'
  end.

(** The sum of the non-missing values of a column of dtype [d], as pandas
    adds them: in int64 for an integer column, in binary64 and in numpy's
    order of addition for a float column. *)
Definition total_of_present (d : dtype) (s : Series) : scalar :=
  match d with
  | Float64 => SFloat (Numpy.sum (present_or_zero s))
  | _ => SInt (Numpy.wrap64 (int_total s))
  end.

(** The mean of the non-missing values: their float64 sum over their number;
    NaN when there is none. *)
Definition mean_of_present (s : Series) : float :=
  match number_present s with
  | O => nan
  | n =>
      ((if is_int_array s then Numpy.sum_as_float (ints s)
        else Numpy.sum (present_or_zero s))
       / Numpy.float_of_Z (Z.of_nat n))%float
  end.

(** [a] is at most [b], for two floats. *)
Definition fle (a b : float) : Prop := (a <=? b)%float = true.

(** The place of a number in the order of binary64: its class (-2 for
    -inf, -1 for a negative number, 0 for a zero, 1 for a positive number, 2
    for +inf), then its exponent and its mantissa, with the signs of both
    turned for a negative number. *)
Definition place (f : float) : Z * Z * Z :=
  match Prim2SF f with
  | S754_zero _ => (0, 0, 0)%Z
  | S754_infinity s => ((if s then -2 else 2)%Z, 0%Z, 0%Z)
  | S754_nan => (3, 0, 0)%Z
  | S754_finite s m e =>
      if s then ((-1)%Z, (- e)%Z, Z.neg m) else (1%Z, e, Z.pos m)
  end.

(** Lexicographic order of places. *)
Definition before (p q : Z * Z * Z) : Prop :=
  let '(a, b, c) := p in
  let '(a', b', c') := q in
  (a < a' \/ (a = a' /\ (b < b' \/ (b = b' /\ c < c'))))%Z.

Definition place_compare (p q : Z * Z * Z) : comparison :=
  let '(a, b, c) := p in
  let '(a', b', c') := q in
  match (a ?= a')%Z with
  | Eq => match (b ?= b')%Z with
          | Eq => (c ?= c')%Z
          | r => r
          end
  | r => r
  end.

(** Strict order of group keys. *)
Definition key_lt (a b : cell) : Prop := key_compare a b = Lt.

(** Two cells are the same group key. *)
Definition same_key (a b : cell) : bool :=
  match key_compare a b with
  | Eq => true
  | _ => false
  end.

(** The values of the rows whose key is [k], in row order. *)
Definition values_of (k : cell) (kvs : list (cell * cell)) : list cell :=
  map snd (filter (fun kv => same_key (fst kv) k) kvs).

(** The state group [k] has reached in a list of groups: the state of the
    first group of that key, the start state where there is none. *)
Definition state_of {A : Type} (start : A) (k : cell) (acc : list (cell * A)) : A :=
  match find (fun g => same_key (fst g) k) acc with
  | Some g => snd g
  | None => start
  end.

(** The sum of the values of the rows whose key is [k], added in row order as
    pandas adds a group: in int64 for an integer column, by Kahan summation in
    binary64 for a float column; missing values are left out. *)
Definition group_total (d : dtype) (k : cell) (kvs : list (cell * cell)) : scalar :=
  match d with
  | Float64 => SFloat (fst (fold_left kahan_step (values_of k kvs) (0%float, 0%float)))
  | _ => SInt (fold_left int_step (values_of k kvs) 0%Z)
  end.

(** The sum is NaN. *)
Definition nan_total (v : scalar) : bool :=
  match v with
  | SFloat f => is_nan f
  | SInt _ => false
  end.

(** The sum [a] is larger than the sum [b]. *)
Definition larger (a b : scalar) : Prop :=
  match a, b with
  | SInt x, SInt y => (y < x)%Z
  | SFloat x, SFloat y => (y <? x)%float = true
  | _, _ => False
  end.

(** The sums [a] and [b] are equal numbers, or both NaN. *)
Definition equal_sum (a b : scalar) : Prop :=
  match a, b with
  | SInt x, SInt y => x = y
  | SFloat x, SFloat y =>
      (x =? y)%float = true \/ (is_nan x = true /\ is_nan y = true)
  | _, _ => False
  end.

(** The sum [b] is not larger than the sum [a]. *)
Definition at_least (a b : scalar) : Prop := larger a b \/ equal_sum a b.

(** The sum of group [a] is not below that of group [b], a NaN counting
    below every number. *)
Definition sum_order (a b : cell * scalar) : Prop :=
  at_least (snd a) (snd b) \/ nan_total (snd b) = true.

(** Group [a] ranks before group [b]: a larger sum, or a number beside a
    NaN, or an equal sum and a smaller key. *)
Definition ranks_before (a b : cell * scalar) : Prop :=
  larger (snd a) (snd b) \/
  (nan_total (snd a) = false /\ nan_total (snd b) = true) \/
  (equal_sum (snd a) (snd b) /\ key_lt (fst a) (fst b)).

Section Encounter.
Context {A : Type} (start : A) (step : A -> cell -> A).

(** The reading of the pie aggregation with groups in order of first
    encounter: a row joins the group of its key, a new key opens a group at
    the end. *)
Fixpoint group_add_encounter (k v : cell) (acc : list (cell * A))
  : list (cell * A) :=
  match acc with
  | [] => [(k, step start v)]
  | (k', s) :: acc' =>
      if same_key k k' then (k', step s v) :: acc'
      else (k', s) :: group_add_encounter k v acc'
  end.

Definition group_fold_encounter (kvs : list (cell * cell)) : list (cell * A) :=
  fold_left (fun acc kv =>
               match fst kv with
               | NaN => acc
               | k => group_add_encounter k (snd kv) acc
               end) kvs [].

End Encounter.

Definition groupby_sum_encounter (d : dtype) (kvs : list (cell * cell)) : totals :=
  match d with
  | Float64 =>
      FloatTotals (map (fun g => (fst g, fst (snd g)))
                       (group_fold_encounter (0%float, 0%float) kahan_step kvs))
  | _ => IntTotals (group_fold_encounter 0%Z int_step kvs)
  end.

(** The ten largest sums, equal sums in order of first encounter. *)
Definition top_by_encounter (n : Z) (d : dtype) (kvs : list (cell * cell))
  : list (cell * scalar) :=
  entries (nlargest n (groupby_sum_encounter d kvs)).

(** The KPI card of column [col] in container [i], showing [total] and [avg]. *)
Definition kpi_card (i : Z) (col : string) (total : scalar) (avg : float) : element :=
  Within ("cols[" ++ str_of_int i ++ "]")
         (Metric col (MFixed2 EmptyString true total)
                 (Some (MFixed2 "Avg: " false (SFloat avg)))).



(** The size caps of the four figures: rows of the data of a bar, line or
    histogram figure, slices of a pie. *)
Definition within_limits (fig : Figure) : Prop :=
  match fig with
  | Bar data _ _ _ _ => (len data <= 20)%Z
  | Line data _ _ _ => (len data <= 50)%Z
  | Histogram data _ _ _ => (len data <= 10000)%Z
  | Pie data _ _ _ => (length data <= 10)%nat
  end.

(** The figure is what one of the four builders returns on the table [df]. *)
Definition built_on (df : DataFrame) (fig : Figure) : Prop :=
  (exists c, create_bar_chart df c bar_limit = Ok fig) \/
  (exists c, create_line_chart df c line_limit = Ok fig) \/
  (exists c, create_histogram df c = Ok fig) \/
  (exists c v, create_pie_chart df c v = Ok fig).

(** An element of the charts section: a heading, a column layout, or a
    selectbox or a chart built on [df] inside a panel. *)
Definition panel_element (df : DataFrame) (e : element) : Prop :=
  (exists body, e = Subheader body) \/
  (exists n, e = Columns n) \/
  (exists container label options key,
     e = Within container (Selectbox label options key)) \/
  (exists container fig,
     e = Within container (PlotlyChart fig) /\ built_on df fig).

(** The element sits in the container [c]. *)
Definition in_container (c : string) (e : element) : bool :=
  match e with
  | Within c' _ => String.eqb c c'
  | _ => false
  end.

(** What a page shows in the container [c]. *)
Definition panel_of (c : string) (p : Page) : Page := filter (in_container c) p.

(** The option a selectbox returns in session [ss]. *)
Definition choice (ss : Session) (options : list string) (key : string)
  : option string :=
  match snd (selectbox ss EmptyString options key) with
  | Ok c => c
  | Raise _ => None
  end.

End Observe.

(* ================================================================= *)
(** ** Example inputs *)

Module Examples.
Import Python Numpy Pandas Plotly Streamlit App.

(** A float cell. *)
Definition F (f : float) (H : is_nan f = false) : cell := Float (mkDouble f H).

Definition sales : DataFrame :=
  mkDataFrame
    [("region", Object); ("units", Int64); ("day", Datetime64); ("price", Float64)]
    [ [Str "north"; Int 10; Int 19000; F 0.5 eq_refl];
      [Str "south"; Int 20; Int 19001; NaN];
      [Str "north"; Int 5; Int 19002; F 1.5 eq_refl];
      [NaN; Int 7; Int 19003; F 1.5 eq_refl] ].

(** The rows of [sales] in another order. *)
Definition sales_shuffled : DataFrame :=
  mkDataFrame (schema sales)
    [ [NaN; Int 7; Int 19003; F 1.5 eq_refl];
      [Str "north"; Int 5; Int 19002; F 1.5 eq_refl];
      [Str "north"; Int 10; Int 19000; F 0.5 eq_refl];
      [Str "south"; Int 20; Int 19001; NaN] ].

(** A table without numeric columns. *)
Definition labels_only : DataFrame :=
  mkDataFrame [("region", Object); ("day", Datetime64)]
    [ [Str "north"; Int 19000]; [Str "south"; Int 19001] ].

(** One numeric column with the values 1 to 5. *)
Definition one_to_five : DataFrame :=
  mkDataFrame [("x", Int64)]
    [ [Int 1]; [Int 2]; [Int 3]; [Int 4]; [Int 5] ].

(** Eleven categories with the same sum; "z" is met first. *)
Definition eleven_ties : DataFrame :=
  mkDataFrame [("cat", Object); ("val", Int64)]
    [ [Str "z"; Int 1]; [Str "a"; Int 1]; [Str "b"; Int 1]; [Str "c"; Int 1];
      [Str "d"; Int 1]; [Str "e"; Int 1]; [Str "f"; Int 1]; [Str "g"; Int 1];
      [Str "h"; Int 1]; [Str "i"; Int 1]; [Str "j"; Int 1] ].

(** A table of 10,001 rows. *)
Definition over_the_ceiling : DataFrame :=
  mkDataFrame [("x", Int64)] (repeat [Int 1] (Z.to_nat 10001)).

(** One float column whose sum depends on the order of addition, and the
    same rows in another order. *)
Definition ledger : DataFrame :=
  mkDataFrame [("amount", Float64)]
    [ [F 1e16 eq_refl]; [F 1.5 eq_refl]; [F (-1e16) eq_refl]; [F 0 eq_refl] ].

Definition ledger_reordered : DataFrame :=
  mkDataFrame [("amount", Float64)]
    [ [F 0 eq_refl]; [F 1e16 eq_refl]; [F (-1e16) eq_refl]; [F 1.5 eq_refl] ].

(** Eleven categories of a float column: "a" adds up to 2 in binary64 (to 1.5
    exactly), every other category is 2. *)
Definition float_groups : DataFrame :=
  mkDataFrame [("cat", Object); ("val", Float64)]
    [ [Str "a"; F 1e16 eq_refl]; [Str "a"; F 1.5 eq_refl]; [Str "a"; F (-1e16) eq_refl];
      [Str "k"; F 2 eq_refl]; [Str "j"; F 2 eq_refl]; [Str "i"; F 2 eq_refl];
      [Str "h"; F 2 eq_refl]; [Str "g"; F 2 eq_refl]; [Str "f"; F 2 eq_refl];
      [Str "e"; F 2 eq_refl]; [Str "d"; F 2 eq_refl]; [Str "c"; F 2 eq_refl];
      [Str "b"; F 2 eq_refl] ].

(** An object column that holds no string, beside a numeric column. *)
Definition blank_notes : DataFrame :=
  mkDataFrame [("note", Object); ("units", Int64)]
    [ [NaN; Int 3]; [NaN; Int 4] ].

Definition some_upload : UploadedFile := mkUploadedFile "kpi.xlsx" "PK".

Definition reads (df : DataFrame) : UploadedFile -> Outcome DataFrame :=
  fun _ => Ok df.

(** A session in which no widget was touched. *)
Definition untouched : Session := mkSession (fun _ => None) None.

End Examples.
(* ================================================================= *)
(** * Properties *)

Import Python Numpy Pandas Plotly Streamlit App Observe.

(** ** Script runs *)

Section Runs.
Context {A B : Type}.

Lemma bind_unfold (m : M A) (k : A -> M B) :
  bind m k =
  match snd m with
  | Ok a => (fst m ++ fst (k a), snd (k a))
  | Raise e => (fst m, Raise e)
  end.
Proof.
  destruct m as [p [a | e]]; simpl; [destruct (k a) |]; reflexivity.
Qed.

Lemma bind_lift_ok (a : A) (k : A -> M B) : bind (lift (Ok a)) k = k a.
Proof. rewrite bind_unfold. simpl. destruct (k a); reflexivity. Qed.

Lemma bind_ret (a : A) (k : A -> M B) : bind (ret a) k = k a.
Proof. apply bind_lift_ok. Qed.

Lemma bind_ok (m : M A) (k : A -> M B) (a : A) :
  snd m = Ok a -> bind m k = (fst m ++ fst (k a), snd (k a)).
Proof. intros H. rewrite bind_unfold, H. reflexivity. Qed.

Lemma try_except_unfold (body : M A) (handler : Exception -> M A) :
  try_except body handler =
  match snd body with
  | Ok a => body
  | Raise e => (fst body ++ fst (handler e), snd (handler e))
  end.
Proof.
  destruct body as [p [a | e]]; simpl; [| destruct (handler e)]; reflexivity.
Qed.

End Runs.

Lemma bind_emit {B : Type} (x : element) (k : unit -> M B) :
  bind (emit x) k = (x :: fst (k tt), snd (k tt)).
Proof. rewrite bind_unfold. reflexivity. Qed.

Lemma renders_bind {A B : Type} (P : element -> Prop) (m : M A) (k : A -> M B) :
  renders P m ->
  (forall a, snd m = Ok a -> renders P (k a)) ->
  renders P (bind m k).
Proof.
  unfold renders. intros Hm Hk. rewrite bind_unfold.
  destruct (snd m) as [a | e] eqn:E; simpl; [| exact Hm].
  apply Forall_app. split; [exact Hm | apply Hk; reflexivity].
Qed.

Lemma succeeds_bind {A B : Type} (m : M A) (k : A -> M B) :
  succeeds m ->
  (forall a, snd m = Ok a -> succeeds (k a)) ->
  succeeds (bind m k).
Proof.
  intros [a Ha] Hk. unfold succeeds. rewrite (bind_ok m k a Ha). simpl.
  apply Hk, Ha.
Qed.

Lemma renders_emit (P : element -> Prop) (x : element) :
  P x -> renders P (emit x).
Proof. intros H. constructor; [exact H | constructor]. Qed.

Lemma renders_within {A : Type} (P : element -> Prop) (c : string) (m : M A) :
  renders (fun x => P (Within c x)) m -> renders P (within c m).
Proof.
  unfold renders, within. simpl. intros H. apply Forall_map. exact H.
Qed.

Lemma succeeds_within {A : Type} (c : string) (m : M A) :
  succeeds m -> succeeds (within c m).
Proof. intros [a Ha]. exists a. exact Ha. Qed.

Lemma renders_if_truthy (P : element -> Prop) (o : option string) (k : string -> M unit) :
  (forall c, o = Some c -> renders P (k c)) -> renders P (if_truthy o k).
Proof.
  intros H. unfold if_truthy. destruct o as [c |]; [| constructor].
  destruct (truthy (Some c)); [apply H; reflexivity | constructor].
Qed.

Lemma succeeds_if_truthy (o : option string) (k : string -> M unit) :
  (forall c, o = Some c -> succeeds (k c)) -> succeeds (if_truthy o k).
Proof.
  intros H. unfold if_truthy. destruct o as [c |]; [| exists tt; reflexivity].
  destruct (truthy (Some c)); [apply H; reflexivity | exists tt; reflexivity].
Qed.

Lemma renders_pure {A : Type} (P : element -> Prop) (o : Outcome A) :
  renders P (lift o).
Proof. constructor. Qed.

Lemma renders_ret {A : Type} (P : element -> Prop) (a : A) : renders P (ret a).
Proof. constructor. Qed.

Lemma succeeds_emit (x : element) : succeeds (emit x).
Proof. exists tt. reflexivity. Qed.

Lemma succeeds_ret {A : Type} (a : A) : succeeds (ret a).
Proof. exists a. reflexivity. Qed.

(** ** Widgets *)

Lemma selectbox_page (ss : Session) (label : string) (options : list string) (key : string) :
  fst (selectbox ss label options key) = [Selectbox label options key].
Proof. reflexivity. Qed.

Lemma selectbox_member (ss : Session) (label : string) (options : list string)
    (key : string) (c : string) :
  snd (selectbox ss label options key) = Ok (Some c) -> In c options.
Proof.
  unfold selectbox. simpl. intros H. injection H as H.
  assert (Hhd : hd_error options = Some c -> In c options).
  { destruct options; simpl; intros E; [discriminate | injection E as ->; now left]. }
  destruct (selectbox_state ss key) as [i |]; [| auto].
  destruct (nth_error options i) as [o |] eqn:E; [| auto].
  injection H as ->. eapply nth_error_In, E.
Qed.

Lemma selectbox_succeeds (ss : Session) (label : string) (options : list string) (key : string) :
  succeeds (selectbox ss label options key).
Proof. eexists. reflexivity. Qed.

Lemma pick_incl (options : list string) (i : nat) : incl (pick options i) options.
Proof.
  unfold pick. destruct (nth_error options i) eqn:E; intros x Hx; simpl in Hx.
  - destruct Hx as [<- | []]. eapply nth_error_In, E.
  - destruct Hx.
Qed.

Lemma multiselect_incl (ss : Session) (label : string) (options default chosen : list string) :
  incl default options ->
  snd (multiselect ss label options default) = Ok chosen ->
  incl chosen options.
Proof.
  unfold multiselect. simpl. intros Hd H. injection H as <-.
  destruct (multiselect_state ss) as [picks |]; [| exact Hd].
  intros x Hx. apply in_flat_map in Hx. destruct Hx as [i [_ Hi]].
  eapply pick_incl, Hi.
Qed.

Lemma firstn_incl {X : Type} (n : nat) (l : list X) : incl (firstn n l) l.
Proof.
  intros x Hx. rewrite <- (firstn_skipn n l). apply in_or_app. now left.
Qed.

Lemma default_kpi_incl (numeric : list string) :
  incl (if (4 <=? Z.of_nat (length numeric))%Z then firstn 4 numeric else numeric)
       numeric.
Proof.
  destruct (4 <=? Z.of_nat (length numeric))%Z; intros x Hx;
    [eapply firstn_incl, Hx | exact Hx].
Qed.

(** ** Schema inspection *)

Lemma mask_filter_map {X : Type} (f : X -> bool) (l : list X) :
  mask_filter (map f l) l = filter f l.
Proof.
  induction l as [| x l IH]; simpl; [reflexivity |].
  rewrite IH. reflexivity.
Qed.

Lemma columns_select_dtypes (include : dtype -> bool) (df : DataFrame) :
  columns (select_dtypes include df)
  = map fst (filter (fun c => include (snd c)) (schema df)).
Proof.
  unfold columns, select_dtypes. simpl. now rewrite mask_filter_map.
Qed.

Lemma selected_iff (include : dtype -> bool) (df : DataFrame) (c : string) :
  In c (columns (select_dtypes include df))
  <-> exists d, In (c, d) (schema df) /\ include d = true.
Proof.
  rewrite columns_select_dtypes, in_map_iff. split.
  - intros [[c' d] [E H]]. simpl in E. subst c'.
    apply filter_In in H. exists d. exact H.
  - intros [d [H E]]. exists (c, d). split; [reflexivity |].
    apply filter_In. split; assumption.
Qed.

Lemma selected_is_column (include : dtype -> bool) (df : DataFrame) (c : string) :
  In c (columns (select_dtypes include df)) -> In c (columns df).
Proof.
  intros H. apply selected_iff in H. destruct H as [d [H _]].
  unfold columns. apply in_map_iff. exists (c, d). split; [reflexivity | exact H].
Qed.

Lemma index_of_In (c : string) (cols : list string) :
  In c cols -> exists i, index_of c cols = Some i.
Proof.
  induction cols as [| x cols IH]; simpl; [intros [] |].
  intros H. destruct (String.eqb c x) eqn:E; [eexists; reflexivity |].
  destruct H as [-> | H]; [rewrite String.eqb_refl in E; discriminate |].
  destruct (IH H) as [i ->]. eexists; reflexivity.
Qed.

Lemma index_of_sound (c : string) (cols : list string) (i : nat) :
  index_of c cols = Some i -> nth_error cols i = Some c.
Proof.
  revert i. induction cols as [| x cols IH]; simpl; intros i H; [discriminate |].
  destruct (String.eqb c x) eqn:E.
  - injection H as <-. apply String.eqb_eq in E. subst. reflexivity.
  - destruct (index_of c cols) as [j |]; simpl in H; [| discriminate].
    injection H as <-. simpl. apply IH. reflexivity.
Qed.

Lemma has_column_In (df : DataFrame) (c : string) :
  In c (columns df) -> has_column df c = true.
Proof.
  intros H. unfold has_column. apply existsb_exists. exists c.
  split; [exact H | apply String.eqb_refl].
Qed.

Lemma getitem_In (df : DataFrame) (c : string) :
  In c (columns df) -> exists s, getitem df c = Ok s.
Proof.
  intros H. unfold getitem. destruct (index_of_In c _ H) as [i ->].
  eexists; reflexivity.
Qed.

Lemma dtype_of_unique (l : list (string * dtype)) (c : string) (d : dtype) :
  NoDup (map fst l) -> In (c, d) l ->
  option_map (fun i => nth i (map snd l) Object) (index_of c (map fst l)) = Some d.
Proof.
  induction l as [| [x dx] l IH]; simpl; intros Hn H; [destruct H |].
  inversion Hn as [| ? ? Hx Hn']; subst.
  destruct (String.eqb c x) eqn:E.
  - apply String.eqb_eq in E. subst x. simpl.
    destruct H as [H | H]; [injection H as ->; reflexivity |].
    exfalso. apply Hx. apply in_map_iff. exists (c, d). split; [reflexivity | exact H].
  - destruct H as [H | H].
    + injection H as -> ->. rewrite String.eqb_refl in E. discriminate.
    + specialize (IH Hn' H).
      destruct (index_of c (map fst l)) as [i |]; simpl in *; [exact IH | discriminate].
Qed.

Lemma dtype_of_NoDup (df : DataFrame) (c : string) (d : dtype) :
  NoDup (columns df) -> In (c, d) (schema df) -> dtype_of df c = Some d.
Proof. apply dtype_of_unique. Qed.

(** ** The chart builders on columns of the table *)

Lemma create_bar_chart_inv (df : DataFrame) (c : string) (limit : Z) (fig : Figure) :
  create_bar_chart df c limit = Ok fig ->
  fig = Bar (head limit df) c (c ++ " - Top " ++ str_of_int limit ++ " Values")
            c "viridis".
Proof.
  unfold create_bar_chart, px_bar.
  destruct (has_column (head limit df) c); [| discriminate].
  intros H. injection H as <-. reflexivity.
Qed.

Lemma create_bar_chart_ok (df : DataFrame) (c : string) (limit : Z) :
  In c (columns df) ->
  create_bar_chart df c limit
  = Ok (Bar (head limit df) c (c ++ " - Top " ++ str_of_int limit ++ " Values")
            c "viridis").
Proof.
  intros H. unfold create_bar_chart, px_bar.
  rewrite (has_column_In (head limit df) c H). reflexivity.
Qed.

Lemma create_line_chart_inv (df : DataFrame) (c : string) (limit : Z) (fig : Figure) :
  create_line_chart df c limit = Ok fig ->
  fig = Line (head limit df) c (c ++ " - Trend Analysis") true.
Proof.
  unfold create_line_chart, px_line.
  destruct (has_column (head limit df) c); [| discriminate].
  intros H. injection H as <-. reflexivity.
Qed.

Lemma create_line_chart_ok (df : DataFrame) (c : string) (limit : Z) :
  In c (columns df) ->
  create_line_chart df c limit
  = Ok (Line (head limit df) c (c ++ " - Trend Analysis") true).
Proof.
  intros H. unfold create_line_chart, px_line.
  rewrite (has_column_In (head limit df) c H). reflexivity.
Qed.

Lemma create_histogram_inv (df : DataFrame) (c : string) (fig : Figure) :
  create_histogram df c = Ok fig ->
  fig = Histogram df c (c ++ " - Distribution") 20.
Proof.
  unfold create_histogram, px_histogram.
  destruct (has_column df c); [| discriminate].
  intros H. injection H as <-. reflexivity.
Qed.

Lemma create_histogram_ok (df : DataFrame) (c : string) :
  In c (columns df) ->
  create_histogram df c = Ok (Histogram df c (c ++ " - Distribution") 20).
Proof.
  intros H. unfold create_histogram, px_histogram.
  rewrite (has_column_In df c H). reflexivity.
Qed.

Lemma create_pie_chart_inv (df : DataFrame) (c v : string) (fig : Figure) :
  create_pie_chart df c v = Ok fig ->
  exists groups,
    grouped_sums df c v = Ok groups /\
    fig = Pie (entries (nlargest 10 groups)) v c (v ++ " by " ++ c).
Proof.
  unfold create_pie_chart, px_pie.
  destruct (grouped_sums df c v) as [groups | e]; [| discriminate].
  intros H. injection H as <-. exists groups. split; reflexivity.
Qed.

(** A loaded table has no two columns of the same name; then an object
    column and a numeric column can always be grouped and summed. *)
Lemma grouped_sums_ok (df : DataFrame) (c v : string) :
  NoDup (columns df) ->
  In c (categorical_cols df) -> In v (numeric_columns df) ->
  exists keys vals d,
    getitem df c = Ok keys /\ getitem df v = Ok vals /\
    dtype_of df v = Some d /\ np_number d = true /\
    grouped_sums df c v = Ok (groupby_sum d (combine keys vals)).
Proof.
  intros Hn Hc Hv.
  destruct (getitem_In df c (selected_is_column _ _ _ Hc)) as [keys Hk].
  destruct (getitem_In df v (selected_is_column _ _ _ Hv)) as [vals Hvs].
  apply selected_iff in Hc. destruct Hc as [dc [Hc Hoc]].
  apply selected_iff in Hv. destruct Hv as [dv [Hv Hnv]].
  exists keys, vals, dv. split; [exact Hk |]. split; [exact Hvs |].
  split; [exact (dtype_of_NoDup df v dv Hn Hv) |]. split; [exact Hnv |].
  unfold grouped_sums. rewrite Hk, Hvs, (dtype_of_NoDup df v dv Hn Hv).
  destruct dv; try discriminate Hnv; simpl.
  - destruct (String.eqb c v) eqn:E; [| reflexivity].
    apply String.eqb_eq in E. subst v.
    pose proof (dtype_of_NoDup df c dc Hn Hc) as H1.
    rewrite (dtype_of_NoDup df c Int64 Hn Hv) in H1. injection H1 as <-.
    discriminate Hoc.
  - destruct (String.eqb c v) eqn:E; [| reflexivity].
    apply String.eqb_eq in E. subst v.
    pose proof (dtype_of_NoDup df c dc Hn Hc) as H1.
    rewrite (dtype_of_NoDup df c Float64 Hn Hv) in H1. injection H1 as <-.
    discriminate Hoc.
Qed.

Lemma create_pie_chart_ok (df : DataFrame) (c v : string) :
  NoDup (columns df) ->
  In c (categorical_cols df) -> In v (numeric_columns df) ->
  exists fig, create_pie_chart df c v = Ok fig.
Proof.
  intros Hn Hc Hv.
  destruct (grouped_sums_ok df c v Hn Hc Hv) as (keys & vals & d & _ & _ & _ & _ & H).
  unfold create_pie_chart. rewrite H. eexists. reflexivity.
Qed.

(** ** The KPI cards *)

Lemma kpi_cards_renders (P : element -> Prop) (df : DataFrame) (selected : list string) :
  (forall i col t a, In col selected ->
     P (Within ("cols[" ++ str_of_int i ++ "]")
               (Metric col (MFixed2 EmptyString true t)
                       (Some (MFixed2 "Avg: " false a))))) ->
  forall i, renders P (kpi_cards df i selected).
Proof.
  induction selected as [| col selected IH]; intros HP i; cbn [kpi_cards].
  - apply renders_ret.
  - apply renders_bind.
    + apply renders_within. apply renders_bind; [apply renders_pure |].
      intros s _. apply renders_bind; [apply renders_pure |].
      intros t _. apply renders_bind; [apply renders_pure |].
      intros a _. apply renders_emit. apply HP. now left.
    + intros _ _. apply IH. intros j c t a Hc. apply HP. now right.
Qed.

Lemma int_sum_total (s : Series) : int_sum (ints s) = wrap64 (int_total s).
Proof.
  unfold int_sum. f_equal.
  assert (G : forall a, fold_left Z.add (ints s) a = (a + int_total s)%Z).
  { induction s as [| c s IH]; intros a; simpl; [lia |].
    destruct c; simpl; rewrite ?IH; lia. }
  apply G.
Qed.

Lemma fillna_present_or_zero (s : Series) : fillna 0 s = present_or_zero s.
Proof.
  unfold fillna. induction s as [| c s IH]; [reflexivity |].
  cbn [map]. rewrite IH. destruct c; reflexivity.
Qed.

(** The sum of a column of a number dtype is defined. *)
Lemma sum_numeric (d : dtype) (s : Series) :
  np_number d = true -> sum d s = Ok (total_of_present d s).
Proof.
  destruct d; try discriminate; intros _; unfold sum, total_of_present;
    now rewrite ?int_sum_total, ?fillna_present_or_zero.
Qed.

(** So is its mean. *)
Lemma series_mean_numeric (d : dtype) (s : Series) :
  np_number d = true -> series_mean d s = Ok (mean s).
Proof. destruct d; try discriminate; reflexivity. Qed.

Lemma dtype_at_numeric (df : DataFrame) (c : string) :
  NoDup (columns df) -> In c (columns (select_dtypes np_number df)) ->
  np_number (dtype_at df c) = true.
Proof.
  intros Hn H. apply selected_iff in H. destruct H as [d [Hin Hd]].
  unfold dtype_at. now rewrite (dtype_of_NoDup df c d Hn Hin).
Qed.

Lemma kpi_cards_succeeds (df : DataFrame) (selected : list string) :
  NoDup (columns df) ->
  incl selected (columns (select_dtypes np_number df)) ->
  forall i, succeeds (kpi_cards df i selected).
Proof.
  intros Hn.
  induction selected as [| col selected IH]; intros Hs i; cbn [kpi_cards].
  - apply succeeds_ret.
  - apply succeeds_bind.
    + apply succeeds_within.
      pose proof (Hs col (or_introl eq_refl)) as Hcol.
      destruct (getitem_In df col (selected_is_column _ _ _ Hcol)) as [s Hg].
      rewrite Hg, bind_lift_ok.
      rewrite (sum_numeric _ s (dtype_at_numeric df col Hn Hcol)), bind_lift_ok.
      rewrite (series_mean_numeric _ s (dtype_at_numeric df col Hn Hcol)),
        bind_lift_ok.
      apply succeeds_emit.
    + intros _ _. apply IH. intros c Hc. apply Hs. now right.
Qed.

Lemma getitem_list_ok (df : DataFrame) (names : list string) :
  incl names (columns df) ->
  exists frame, getitem_list df names = Ok frame /\ map fst frame = names.
Proof.
  induction names as [| c names IH]; intros Hs; simpl.
  - exists []. split; reflexivity.
  - destruct (getitem_In df c (Hs c (or_introl eq_refl))) as [s ->].
    destruct IH as [frame [-> E]]; [intros x Hx; apply Hs; now right |].
    exists ((c, s) :: frame). split; [reflexivity |]. simpl. now rewrite E.
Qed.

Lemma getitem_list_names (df : DataFrame) (names : list string) frame :
  getitem_list df names = Ok frame -> map fst frame = names.
Proof.
  revert frame. induction names as [| c names IH]; simpl; intros frame H.
  - injection H as <-. reflexivity.
  - destruct (getitem df c) as [s | e]; [| discriminate].
    destruct (getitem_list df names) as [r | e]; [| discriminate].
    injection H as <-. simpl. now rewrite (IH r eq_refl).
Qed.

(** ** What the dashboard renders *)

Ltac step_emit := apply renders_bind; [apply renders_emit; exact I | intros _ _].

Ltac open_panel :=
  apply renders_within;
  match goal with
  | |- renders _ (if ?b then _ else _) => destruct b; [| apply renders_ret]
  end.

Lemma selectbox_renders (P : element -> Prop) (ss : Session) (label : string)
    (options : list string) (key : string) :
  P (Selectbox label options key) -> renders P (selectbox ss label options key).
Proof. intros H. constructor; [exact H | constructor]. Qed.

Lemma kpi_section_renders (ss : Session) (df : DataFrame) :
  renders (element_ok (numeric_columns df) (categorical_cols df))
          (kpi_section ss df (numeric_columns df)).
Proof.
  unfold kpi_section.
  step_emit.
  apply renders_bind.
  { constructor; [| constructor]. split; [reflexivity | apply default_kpi_incl]. }
  intros selected Hsel.
  assert (Hincl : incl selected (numeric_columns df)).
  { eapply multiselect_incl; [apply default_kpi_incl | exact Hsel]. }
  destruct selected as [| c0 rest]; [apply renders_ret |].
  step_emit. apply kpi_cards_renders. intros i col t a Hc. apply Hincl, Hc.
Qed.

Lemma charts_section_renders (ss : Session) (df : DataFrame) :
  renders (element_ok (numeric_columns df) (categorical_cols df))
          (charts_section ss df (numeric_columns df)).
Proof.
  unfold charts_section.
  step_emit. step_emit.
  apply renders_bind.
  { open_panel. apply renders_bind; [apply selectbox_renders; reflexivity |].
    intros bar_col Hb. apply renders_if_truthy. intros c ->.
    apply renders_bind; [apply renders_pure |]. intros fig Hfig.
    apply create_bar_chart_inv in Hfig. subst fig. apply renders_emit.
    split; [eapply selectbox_member, Hb | reflexivity]. }
  intros _ _.
  apply renders_bind.
  { open_panel. apply renders_bind; [apply selectbox_renders; reflexivity |].
    intros line_col Hb. apply renders_if_truthy. intros c ->.
    apply renders_bind; [apply renders_pure |]. intros fig Hfig.
    apply create_line_chart_inv in Hfig. subst fig. apply renders_emit.
    eapply selectbox_member, Hb. }
  intros _ _. step_emit.
  apply renders_bind.
  { open_panel. apply renders_bind; [apply selectbox_renders; reflexivity |].
    intros hist_col Hb. apply renders_if_truthy. intros c ->.
    apply renders_bind; [apply renders_pure |]. intros fig Hfig.
    apply create_histogram_inv in Hfig. subst fig. apply renders_emit.
    eapply selectbox_member, Hb. }
  intros _ _.
  open_panel. apply renders_bind; [apply selectbox_renders; reflexivity |].
  intros cat_col Hc.
  apply renders_bind; [apply selectbox_renders; reflexivity |].
  intros val_col Hv. apply renders_if_truthy. intros c ->.
  apply renders_if_truthy. intros v ->.
  apply renders_bind; [apply renders_pure |]. intros fig Hfig.
  apply create_pie_chart_inv in Hfig. destruct Hfig as [groups [_ ->]].
  apply renders_emit.
  split; [eapply selectbox_member, Hv | eapply selectbox_member, Hc].
Qed.

Lemma summary_statistics_renders (df : DataFrame) :
  renders (element_ok (numeric_columns df) (categorical_cols df))
          (summary_statistics df (numeric_columns df)).
Proof.
  unfold summary_statistics. step_emit.
  apply renders_bind; [apply renders_pure |]. intros frame Hf.
  apply renders_emit. simpl. rewrite map_map. simpl.
  apply (getitem_list_names df). exact Hf.
Qed.

Lemma kpi_and_charts_renders (ss : Session) (df : DataFrame) :
  renders (element_ok (numeric_columns df) (categorical_cols df))
          (kpi_and_charts ss df (numeric_columns df)).
Proof.
  unfold kpi_and_charts.
  apply renders_bind; [apply kpi_section_renders | intros _ _].
  apply renders_bind; [apply charts_section_renders | intros _ _].
  apply summary_statistics_renders.
Qed.

Lemma numeric_incl_columns (df : DataFrame) : incl (numeric_columns df) (columns df).
Proof. intros c. apply selected_is_column. Qed.

Lemma kpi_section_succeeds (ss : Session) (df : DataFrame) :
  NoDup (columns df) ->
  snd (kpi_section ss df (numeric_columns df)) = Ok tt.
Proof.
  intros Hn.
  assert (H : succeeds (kpi_section ss df (numeric_columns df))).
  { unfold kpi_section.
    apply succeeds_bind; [apply succeeds_emit | intros _ _].
    apply succeeds_bind; [eexists; reflexivity |].
    intros selected Hsel.
    assert (Hincl : incl selected (numeric_columns df)).
    { eapply multiselect_incl; [apply default_kpi_incl | exact Hsel]. }
    destruct selected as [| c0 rest]; [apply succeeds_ret |].
    apply succeeds_bind; [apply succeeds_emit | intros _ _].
    apply kpi_cards_succeeds; [exact Hn |]. intros c Hc. apply Hincl, Hc. }
  destruct H as [[] H]. exact H.
Qed.

Lemma charts_section_succeeds (ss : Session) (df : DataFrame) :
  NoDup (columns df) ->
  snd (charts_section ss df (numeric_columns df)) = Ok tt.
Proof.
  intros Hn. pose proof (numeric_incl_columns df) as Hnum.
  assert (H : succeeds (charts_section ss df (numeric_columns df))).
  { unfold charts_section.
    apply succeeds_bind; [apply succeeds_emit | intros _ _].
    apply succeeds_bind; [apply succeeds_emit | intros _ _].
    apply succeeds_bind.
    { apply succeeds_within.
      destruct (1 <=? _)%Z; [| apply succeeds_ret].
      apply succeeds_bind; [apply selectbox_succeeds |].
      intros bar_col Hb. apply succeeds_if_truthy. intros c ->.
      rewrite (create_bar_chart_ok df c bar_limit), bind_lift_ok;
        [apply succeeds_emit | eapply Hnum, selectbox_member, Hb]. }
    intros _ _.
    apply succeeds_bind.
    { apply succeeds_within.
      destruct (1 <=? _)%Z; [| apply succeeds_ret].
      apply succeeds_bind; [apply selectbox_succeeds |].
      intros line_col Hb. apply succeeds_if_truthy. intros c ->.
      rewrite (create_line_chart_ok df c line_limit), bind_lift_ok;
        [apply succeeds_emit | eapply Hnum, selectbox_member, Hb]. }
    intros _ _.
    apply succeeds_bind; [apply succeeds_emit | intros _ _].
    apply succeeds_bind.
    { apply succeeds_within.
      destruct (1 <=? _)%Z; [| apply succeeds_ret].
      apply succeeds_bind; [apply selectbox_succeeds |].
      intros hist_col Hb. apply succeeds_if_truthy. intros c ->.
      rewrite (create_histogram_ok df c), bind_lift_ok;
        [apply succeeds_emit | eapply Hnum, selectbox_member, Hb]. }
    intros _ _.
    apply succeeds_within.
    match goal with |- succeeds (if ?b then _ else _) => destruct b end;
      [| apply succeeds_ret].
    apply succeeds_bind; [apply selectbox_succeeds |].
    intros cat_col Hc.
    apply succeeds_bind; [apply selectbox_succeeds |].
    intros val_col Hv. apply succeeds_if_truthy. intros c ->.
    apply succeeds_if_truthy. intros v ->.
    destruct (create_pie_chart_ok df c v Hn) as [fig ->];
      [eapply selectbox_member, Hc | eapply selectbox_member, Hv |].
    rewrite bind_lift_ok. apply succeeds_emit. }
  destruct H as [[] H]. exact H.
Qed.

Lemma summary_statistics_page (df : DataFrame) :
  exists frame,
    getitem_list df (numeric_columns df) = Ok frame /\
    map fst frame = numeric_columns df /\
    summary_statistics df (numeric_columns df)
    = ([Subheader "📋 Summary Statistics"; Dataframe (Described (describe frame))],
       Ok tt).
Proof.
  destruct (getitem_list_ok df (numeric_columns df) (numeric_incl_columns df))
    as [frame [H E]].
  exists frame. split; [exact H |]. split; [exact E |].
  unfold summary_statistics. rewrite H, bind_emit, bind_lift_ok. reflexivity.
Qed.

Lemma kpi_and_charts_page (ss : Session) (df : DataFrame) :
  NoDup (columns df) ->
  exists frame,
    getitem_list df (numeric_columns df) = Ok frame /\
    map fst frame = numeric_columns df /\
    kpi_and_charts ss df (numeric_columns df)
    = (fst (kpi_section ss df (numeric_columns df))
       ++ fst (charts_section ss df (numeric_columns df))
       ++ [Subheader "📋 Summary Statistics"; Dataframe (Described (describe frame))],
       Ok tt).
Proof.
  intros Hn. destruct (summary_statistics_page df) as [frame [H [E S]]].
  exists frame. split; [exact H |]. split; [exact E |].
  unfold kpi_and_charts.
  rewrite (bind_ok _ _ tt (kpi_section_succeeds ss df Hn)).
  rewrite (bind_ok _ _ tt (charts_section_succeeds ss df Hn)).
  rewrite S. reflexivity.
Qed.

Lemma bind_within_emit {B : Type} (c : string) (x : element) (k : unit -> M B) :
  bind (within c (emit x)) k = (Within c x :: fst (k tt), snd (k tt)).
Proof. rewrite bind_unfold. reflexivity. Qed.

Lemma dashboard_unfold (ss : Session) (df : DataFrame) :
  dashboard ss df =
  let rest := if (0 <? Z.of_nat (length (numeric_columns df)))%Z
              then kpi_and_charts ss df (numeric_columns df)
              else emit (Warning no_numeric_warning) in
  (dashboard_prefix df ++ fst rest, snd rest).
Proof.
  unfold dashboard, numeric_columns. cbn zeta.
  set (rest := if (0 <? _)%Z then _ else _).
  repeat (first [rewrite bind_emit | rewrite bind_within_emit]; cbn [fst snd]).
  reflexivity.
Qed.

Lemma dashboard_renders (ss : Session) (df : DataFrame) :
  renders (element_ok (numeric_columns df) (categorical_cols df)) (dashboard ss df).
Proof.
  unfold renders. rewrite dashboard_unfold. cbn zeta. cbn [fst].
  apply Forall_app. split.
  - unfold dashboard_prefix. repeat constructor.
  - destruct (0 <? _)%Z; [apply kpi_and_charts_renders |].
    constructor; [reflexivity | constructor].
Qed.

Lemma dashboard_succeeds (ss : Session) (df : DataFrame) :
  NoDup (columns df) -> snd (dashboard ss df) = Ok tt.
Proof.
  intros Hn. rewrite dashboard_unfold. cbn zeta. cbn [snd].
  destruct (0 <? _)%Z; [| reflexivity].
  destruct (kpi_and_charts_page ss df Hn) as [frame [_ [_ ->]]]. reflexivity.
Qed.

(** ** The cap and the top-level handler *)

Lemma truncate_unfold (df : DataFrame) : truncate df = (advisory df, Ok (capped df)).
Proof.
  unfold truncate, advisory, capped. destruct (row_limit <? len df)%Z; reflexivity.
Qed.

Lemma pipeline_loaded (read_excel : UploadedFile -> Outcome DataFrame)
    (ss : Session) (f : UploadedFile) (df : DataFrame) :
  read_excel f = Ok df ->
  pipeline read_excel ss f
  = (advisory df ++ fst (dashboard ss (capped df)), snd (dashboard ss (capped df))).
Proof.
  intros H. unfold pipeline, load_excel_data. rewrite H, bind_lift_ok.
  rewrite bind_unfold, truncate_unfold. reflexivity.
Qed.

Lemma main_unfold (read_excel : UploadedFile -> Outcome DataFrame)
    (ss : Session) (f : UploadedFile) :
  main read_excel ss (Some f) =
  (header ++ fst (pipeline read_excel ss f)
   ++ match snd (pipeline read_excel ss f) with
      | Ok _ => []
      | Raise e => failure_notice e
      end,
   Ok tt).
Proof.
  unfold main. rewrite !bind_emit. cbn [fst snd]. rewrite try_except_unfold.
  destruct (snd (pipeline read_excel ss f)) as [[] | e] eqn:E; cbn [fst snd].
  - rewrite app_nil_r. unfold header. cbn [app]. rewrite E. reflexivity.
  - reflexivity.
Qed.

Lemma schema_capped (df : DataFrame) : schema (capped df) = schema df.
Proof. unfold capped. destruct (row_limit <? len df)%Z; reflexivity. Qed.

Lemma numeric_columns_capped (df : DataFrame) :
  numeric_columns (capped df) = numeric_columns df.
Proof.
  unfold numeric_columns. now rewrite !columns_select_dtypes, schema_capped.
Qed.

Lemma categorical_cols_capped (df : DataFrame) :
  categorical_cols (capped df) = categorical_cols df.
Proof.
  unfold categorical_cols. now rewrite !columns_select_dtypes, schema_capped.
Qed.

Lemma columns_capped (df : DataFrame) : columns (capped df) = columns df.
Proof. unfold columns. now rewrite schema_capped. Qed.

(** A loaded table with distinct column names renders without any failure. *)
Lemma main_loaded (read_excel : UploadedFile -> Outcome DataFrame)
    (ss : Session) (f : UploadedFile) (df : DataFrame) :
  read_excel f = Ok df -> NoDup (columns df) ->
  snd (pipeline read_excel ss f) = Ok tt /\
  main read_excel ss (Some f)
  = (header ++ advisory df ++ fst (dashboard ss (capped df)), Ok tt).
Proof.
  intros H Hn.
  assert (Hs : snd (pipeline read_excel ss f) = Ok tt).
  { rewrite (pipeline_loaded _ _ _ _ H). cbn [snd].
    apply dashboard_succeeds. now rewrite columns_capped. }
  split; [exact Hs |].
  rewrite main_unfold, Hs, app_nil_r, (pipeline_loaded _ _ _ _ H). reflexivity.
Qed.

(** ** C7: the top-level handler *)

(** C7. Whatever the upload and the widget state, a run of the script ends
    normally: no exception leaves it, so the next interaction runs it again.
    With a file present the page is the header, then what the pipeline
    rendered before it stopped, then - when the load or any later step raised
    an exception [e] - the generic error message built from [str(e)] and the
    file-format hint.  A failed load renders exactly header, message, hint. *)
Theorem top_level_handler_catches
    (read_excel : UploadedFile -> Outcome DataFrame) (ss : Session)
    (uploaded_file : option UploadedFile) :
  snd (main read_excel ss uploaded_file) = Ok tt /\
  forall f, uploaded_file = Some f ->
    fst (main read_excel ss uploaded_file)
    = header ++ fst (pipeline read_excel ss f)
      ++ match snd (pipeline read_excel ss f) with
         | Ok _ => []
         | Raise e => [Error (error_message e); Info format_hint]
         end
    /\ forall e, read_excel f = Raise e ->
         fst (main read_excel ss uploaded_file)
         = header ++ [Error (error_message e); Info format_hint].
Proof.
  split.
  - destruct uploaded_file as [f |]; [rewrite main_unfold; reflexivity |].
    unfold main. rewrite !bind_emit. reflexivity.
  - intros f ->. rewrite main_unfold. cbn [fst]. split; [reflexivity |].
    intros e He. unfold pipeline, load_excel_data. rewrite He.
    rewrite bind_unfold. reflexivity.
Qed.

(** ** C1: the row cap *)

Lemma head_row_limit (df : DataFrame) :
  head row_limit df = mkDataFrame (schema df) (firstn (Z.to_nat 10000) (rows df)).
Proof. reflexivity. Qed.

Lemma advisory_is_not_the_numeric_warning (n : Z) :
  truncation_advisory n <> no_numeric_warning.
Proof.
  unfold truncation_advisory, no_numeric_warning. simpl. discriminate.
Qed.

Lemma In_dashboard_prefix (ss : Session) (df : DataFrame) (x : element) :
  In x (dashboard_prefix df) -> In x (fst (dashboard ss df)).
Proof.
  intros H. rewrite dashboard_unfold. cbn zeta. cbn [fst].
  apply in_or_app. now left.
Qed.

(** C1. For a successfully loaded table: above 10,000 rows the page shows the
    truncation advisory and everything after it is rendered for the table of
    exactly the first 10,000 rows, whose displayed row count is 10,000; at or
    below 10,000 rows everything is rendered for the table as loaded, the
    displayed row count is the input row count, and no advisory is shown. *)
Theorem row_cap (read_excel : UploadedFile -> Outcome DataFrame) (ss : Session)
    (f : UploadedFile) (df : DataFrame) :
  read_excel f = Ok df ->
  let page := fst (main read_excel ss (Some f)) in
  let rendered t :=
    fst (dashboard ss t)
    ++ match snd (dashboard ss t) with
       | Ok _ => []
       | Raise e => failure_notice e
       end in
  ((10000 < len df)%Z ->
     let first_rows := mkDataFrame (schema df) (firstn (Z.to_nat 10000) (rows df)) in
     page = header ++ Warning (truncation_advisory (len df)) :: rendered first_rows /\
     len first_rows = 10000%Z /\
     In (Within "col1" (Metric "Total Rows" (MInt 10000) None)) page) /\
  ((len df <= 10000)%Z ->
     page = header ++ rendered df /\
     In (Within "col1" (Metric "Total Rows" (MInt (len df)) None)) page /\
     forall n, ~ In (Warning (truncation_advisory n)) page).
Proof.
  intros H page rendered.
  assert (Hpage : page = header ++ advisory df ++ rendered (capped df)).
  { unfold page, rendered. rewrite main_unfold, (pipeline_loaded _ _ _ _ H).
    cbn [fst snd]. now rewrite <- !app_assoc. }
  split.
  - intros Hbig first_rows.
    assert (Hlt : (row_limit <? len df)%Z = true) by (apply Z.ltb_lt; exact Hbig).
    assert (Hc : capped df = first_rows).
    { unfold capped. rewrite Hlt. apply head_row_limit. }
    assert (Hlen : len first_rows = 10000%Z).
    { unfold first_rows, len in *. cbn [rows] in *. rewrite length_firstn. lia. }
    rewrite Hpage. unfold advisory. rewrite Hlt, Hc. cbn [app].
    split; [reflexivity |]. split; [exact Hlen |].
    apply in_or_app. right. right. unfold rendered. apply in_or_app. left.
    apply In_dashboard_prefix. unfold dashboard_prefix. rewrite Hlen.
    simpl. tauto.
  - intros Hsmall.
    assert (Hlt : (row_limit <? len df)%Z = false) by (apply Z.ltb_ge; exact Hsmall).
    assert (Hc : capped df = df) by (unfold capped; now rewrite Hlt).
    rewrite Hpage. unfold advisory. rewrite Hlt, Hc. cbn [app].
    split; [reflexivity |]. split.
    + apply in_or_app. right. unfold rendered. apply in_or_app. left.
      apply In_dashboard_prefix. simpl. tauto.
    + intros n Hin. apply in_app_or in Hin. destruct Hin as [Hin | Hin].
      * simpl in Hin. intuition discriminate.
      * unfold rendered in Hin. apply in_app_or in Hin. destruct Hin as [Hin | Hin].
        -- pose proof (dashboard_renders ss df) as Hr. unfold renders in Hr.
           rewrite Forall_forall in Hr. specialize (Hr _ Hin). simpl in Hr.
           exact (advisory_is_not_the_numeric_warning n Hr).
        -- destruct (snd (dashboard ss df)); simpl in Hin; intuition discriminate.
Qed.

Lemma row_cap_witness :
  In (Warning (truncation_advisory 10001))
     (fst (main (Examples.reads Examples.over_the_ceiling) Examples.untouched
                (Some Examples.some_upload))) /\
  In (Within "col1" (Metric "Total Rows" (MInt 10000) None))
     (fst (main (Examples.reads Examples.over_the_ceiling) Examples.untouched
                (Some Examples.some_upload))) /\
  In (Within "col1" (Metric "Total Rows" (MInt 4) None))
     (fst (main (Examples.reads Examples.sales) Examples.untouched
                (Some Examples.some_upload))).
Proof.
  assert (Hbig : (10000 < len Examples.over_the_ceiling)%Z)
    by (vm_compute; reflexivity).
  destruct (proj1 (row_cap (Examples.reads Examples.over_the_ceiling)
                     Examples.untouched Examples.some_upload
                     Examples.over_the_ceiling eq_refl) Hbig)
    as [Hpage [_ Hrows]].
  split; [| split].
  - rewrite Hpage. apply in_or_app. right. left.
    assert (E : len Examples.over_the_ceiling = 10001%Z) by (vm_compute; reflexivity).
    now rewrite E.
  - exact Hrows.
  - refine (proj1 (proj2 (proj2
      (row_cap (Examples.reads Examples.sales) Examples.untouched
               Examples.some_upload Examples.sales eq_refl) _))).
    vm_compute. discriminate.
Defined.

(** ** C8: tables without numeric columns *)

Lemma dashboard_without_numeric (ss : Session) (df : DataFrame) :
  numeric_columns df = [] ->
  dashboard ss df = (dashboard_prefix df ++ [Warning no_numeric_warning], Ok tt).
Proof. intros H. rewrite dashboard_unfold, H. reflexivity. Qed.

(** C8. For a loaded table without numeric columns the page ends with the
    three row/column/numeric-count metrics, the configuration subheader and
    the no-numeric-columns warning, in this order; no KPI card, chart panel
    or summary-statistics table is rendered anywhere on the page, and the run
    ends normally. *)
Theorem no_numeric_columns_warning
    (read_excel : UploadedFile -> Outcome DataFrame) (ss : Session)
    (f : UploadedFile) (df : DataFrame) :
  read_excel f = Ok df ->
  numeric_columns df = [] ->
  let page := fst (main read_excel ss (Some f)) in
  (exists before,
     page = before ++
       [ Columns 3;
         Within "col1" (Metric "Total Rows" (MInt (len (capped df))) None);
         Within "col2" (Metric "Total Columns"
                               (MInt (Z.of_nat (length (columns df)))) None);
         Within "col3" (Metric "Numeric Columns" (MInt 0) None);
         Subheader "🎯 Configure Your KPIs";
         Warning no_numeric_warning ]) /\
  existsb kpi_chart_or_stats page = false /\
  snd (main read_excel ss (Some f)) = Ok tt.
Proof.
  intros H Hnum page.
  assert (Hnum' : numeric_columns (capped df) = []).
  { now rewrite numeric_columns_capped. }
  assert (Hpage : page = header ++ advisory df
                         ++ dashboard_prefix (capped df) ++ [Warning no_numeric_warning]).
  { unfold page. rewrite main_unfold, (pipeline_loaded _ _ _ _ H).
    rewrite (dashboard_without_numeric ss _ Hnum'). cbn [fst snd].
    now rewrite app_nil_r. }
  split; [| split].
  - exists (header ++ advisory df ++ firstn 3 (dashboard_prefix (capped df))).
    rewrite Hpage. unfold dashboard_prefix. rewrite Hnum', columns_capped.
    cbn [firstn length]. rewrite <- !app_assoc. reflexivity.
  - rewrite Hpage, !existsb_app.
    unfold advisory. destruct (row_limit <? len df)%Z; reflexivity.
  - rewrite main_unfold. reflexivity.
Qed.

Lemma no_numeric_columns_warning_witness :
  existsb kpi_chart_or_stats
    (fst (main (Examples.reads Examples.labels_only) Examples.untouched
               (Some Examples.some_upload))) = false.
Proof.
  exact (proj1 (proj2
    (no_numeric_columns_warning (Examples.reads Examples.labels_only)
       Examples.untouched Examples.some_upload Examples.labels_only
       eq_refl eq_refl))).
Defined.

(** ** C9: the bar chart *)

Lemma slice_head_map {X Y : Type} (g : X -> Y) (n : Z) (l : list X) :
  slice_head n (map g l) = map g (slice_head n l).
Proof.
  unfold slice_head. rewrite length_map.
  destruct (0 <=? n)%Z; apply firstn_map.
Qed.

Lemma getitem_head (df : DataFrame) (c : string) (s : Series) (n : Z) :
  getitem df c = Ok s -> getitem (head n df) c = Ok (slice_head n s).
Proof.
  unfold getitem. change (columns (head n df)) with (columns df).
  destruct (index_of c (columns df)) as [i |]; [| discriminate].
  intros H. injection H as <-. unfold column_at, head. cbn [rows].
  now rewrite slice_head_map.
Qed.

Lemma getitem_length (df : DataFrame) (c : string) (s : Series) :
  getitem df c = Ok s -> length s = length (rows df).
Proof.
  unfold getitem. destruct (index_of c (columns df)) as [i |]; [| discriminate].
  intros H. injection H as <-. apply length_map.
Qed.

Lemma getitem_is_column (df : DataFrame) (c : string) (s : Series) :
  getitem df c = Ok s -> In c (columns df).
Proof.
  unfold getitem. destruct (index_of c (columns df)) as [i |] eqn:E; [| discriminate].
  intros _. eapply nth_error_In, index_of_sound, E.
Qed.

(** C9. For a table and one of its columns, the bar-chart builder, with its
    default limit, builds the figure on the first 20 rows of the table in
    table order: its bars are the first 20 cells of the column, one bar per
    retained row, and a table of at most 20 rows is used in full. *)
Theorem bar_chart_first_rows (df : DataFrame) (column : string) (s : Series) :
  getitem df column = Ok s ->
  exists title,
    create_bar_chart df column bar_limit
    = Ok (Bar (mkDataFrame (schema df) (firstn 20 (rows df)))
              column title column "viridis") /\
    forall fig, create_bar_chart df column bar_limit = Ok fig ->
      marks fig = firstn 20 s /\
      length (marks fig) = Nat.min 20 (length (rows df)) /\
      ((len df <= 20)%Z -> marks fig = s).
Proof.
  intros H. eexists. split.
  - rewrite (create_bar_chart_ok df column bar_limit (getitem_is_column _ _ _ H)).
    reflexivity.
  - intros fig Hfig. apply create_bar_chart_inv in Hfig. subst fig.
    cbn [marks]. rewrite (getitem_head df column s bar_limit H).
    change (slice_head bar_limit s) with (firstn 20 s).
    split; [reflexivity |]. split.
    + rewrite length_firstn, (getitem_length _ _ _ H). reflexivity.
    + intros Hle. apply firstn_all2. rewrite (getitem_length _ _ _ H).
      unfold len in Hle. lia.
Qed.

Lemma bar_chart_first_rows_witness :
  exists title,
    create_bar_chart Examples.sales "units" bar_limit
    = Ok (Bar (mkDataFrame (schema Examples.sales) (firstn 20 (rows Examples.sales)))
              "units" title "units" "viridis").
Proof.
  destruct (bar_chart_first_rows Examples.sales "units"
              [Int 10; Int 20; Int 5; Int 7] eq_refl) as [title [H _]].
  exists title. exact H.
Defined.
(** ** C10: the columns the widgets hand to the chart builders *)

Lemma element_ok_chart (num cat : list string) (e : element) (shown : Figure) :
  element_ok num cat e -> chart_of e = Some shown -> columns_fit num cat shown.
Proof.
  induction e; simpl; intros Hok Hc; try discriminate.
  - injection Hc as <-. destruct fig; simpl in *; tauto.
  - apply IHe; assumption.
Qed.

Lemma page_of_loaded (read_excel : UploadedFile -> Outcome DataFrame)
    (ss : Session) (f : UploadedFile) (df : DataFrame) (e : element) :
  read_excel f = Ok df -> NoDup (columns df) ->
  In e (fst (main read_excel ss (Some f))) ->
  In e header \/ In e (advisory df)
  \/ element_ok (numeric_columns df) (categorical_cols df) e.
Proof.
  intros H Hn Hin. destruct (main_loaded read_excel ss f df H Hn) as [_ Hm].
  rewrite Hm in Hin. cbn [fst] in Hin.
  apply in_app_or in Hin. destruct Hin as [Hin | Hin]; [now left |].
  apply in_app_or in Hin. destruct Hin as [Hin | Hin]; [now right; left |].
  right. right. pose proof (dashboard_renders ss (capped df)) as Hr.
  unfold renders in Hr. rewrite Forall_forall in Hr. specialize (Hr _ Hin).
  now rewrite numeric_columns_capped, categorical_cols_capped in Hr.
Qed.

Lemma In_advisory (df : DataFrame) (e : element) :
  In e (advisory df) -> e = Warning (truncation_advisory (len df)).
Proof.
  unfold advisory. destruct (row_limit <? len df)%Z; simpl; intuition.
Qed.

(** C10. For a loaded table (whose column names are distinct, as the loader
    guarantees) and any widget state: every chart on the page was built for a
    column the widgets offered - the bar, line and histogram columns are
    numeric columns of the table, the pie's category column is an object
    column and its value column a numeric one; each builder returns a figure
    on every column a selectbox can hand to it; and so the run reaches no
    builder error: the pipeline ends normally and no error message is
    rendered. *)
Theorem chart_columns_from_widgets
    (read_excel : UploadedFile -> Outcome DataFrame) (ss : Session)
    (f : UploadedFile) (df : DataFrame) :
  read_excel f = Ok df ->
  NoDup (columns df) ->
  let page := fst (main read_excel ss (Some f)) in
  let num := numeric_columns df in
  let cat := categorical_cols df in
  (forall e fig, In e page -> chart_of e = Some fig -> columns_fit num cat fig) /\
  (forall label key c,
     snd (selectbox ss label num key) = Ok (Some c) ->
     (exists fig, create_bar_chart (capped df) c bar_limit = Ok fig) /\
     (exists fig, create_line_chart (capped df) c line_limit = Ok fig) /\
     (exists fig, create_histogram (capped df) c = Ok fig) /\
     forall label' key' k,
       snd (selectbox ss label' cat key') = Ok (Some k) ->
       exists fig, create_pie_chart (capped df) k c = Ok fig) /\
  snd (pipeline read_excel ss f) = Ok tt /\
  (forall e msg, In e page -> e <> Error msg).
Proof.
  intros H Hn page num cat. split; [| split; [| split]].
  - intros e fig Hin Hc.
    destruct (page_of_loaded _ _ _ _ _ H Hn Hin) as [Hh | [Ha | Hok]].
    + simpl in Hh. destruct Hh as [<- | [<- | [<- | []]]]; discriminate.
    + apply In_advisory in Ha. subst e. discriminate.
    + eapply element_ok_chart; eassumption.
  - intros label key c Hc. apply selectbox_member in Hc.
    assert (Hcol : In c (columns (capped df))).
    { rewrite columns_capped. apply numeric_incl_columns, Hc. }
    split; [eexists; apply create_bar_chart_ok, Hcol |].
    split; [eexists; apply create_line_chart_ok, Hcol |].
    split; [eexists; apply create_histogram_ok, Hcol |].
    intros label' key' k Hk. apply selectbox_member in Hk.
    apply create_pie_chart_ok.
    + now rewrite columns_capped.
    + now rewrite categorical_cols_capped.
    + now rewrite numeric_columns_capped.
  - apply (main_loaded read_excel ss f df H Hn).
  - intros e msg Hin ->.
    destruct (page_of_loaded _ _ _ _ _ H Hn Hin) as [Hh | [Ha | Hok]].
    + simpl in Hh. intuition discriminate.
    + apply In_advisory in Ha. discriminate.
    + exact Hok.
Qed.

Lemma sales_columns_distinct : NoDup (columns Examples.sales).
Proof.
  repeat constructor; simpl; intuition discriminate.
Defined.

Lemma chart_columns_from_widgets_witness :
  snd (pipeline (Examples.reads Examples.sales) Examples.untouched
                Examples.some_upload) = Ok tt.
Proof.
  exact (proj1 (proj2 (proj2
    (chart_columns_from_widgets (Examples.reads Examples.sales)
       Examples.untouched Examples.some_upload Examples.sales
       eq_refl sales_columns_distinct)))).
Defined.

(** ** C6: how the columns are classified *)

Lemma element_ok_mentioned (num cat : list string) (e : element) :
  element_ok num cat e -> incl (mentioned e) (num ++ cat).
Proof.
  induction e; simpl; intros Hok; try (intros z []); try (apply IHe; exact Hok).
  - destruct data; [intros z [] |]. rewrite Hok. apply incl_appl, incl_refl.
  - destruct delta; [| intros z []].
    intros z [<- | []]. apply in_or_app. now left.
  - destruct Hok as [-> Hd].
    apply incl_app; [apply incl_appl, incl_refl | apply incl_appl, Hd].
  - destruct (String.eqb key "pie_cat"); subst options;
      [apply incl_appr | apply incl_appl]; apply incl_refl.
  - destruct fig; simpl in *.
    + destruct Hok as [Hy ->]. intros z [<- | [<- | []]]; apply in_or_app; now left.
    + intros z [<- | []]. apply in_or_app. now left.
    + intros z [<- | []]. apply in_or_app. now left.
    + destruct Hok as [Hv Hc]. intros z [<- | [<- | []]]; apply in_or_app; tauto.
Qed.

Lemma In_bind_later {A B : Type} (m : M A) (k : A -> M B) (a : A) (e : element) :
  snd m = Ok a -> In e (fst (k a)) -> In e (fst (bind m k)).
Proof.
  intros H Hin. rewrite (bind_ok m k a H). cbn [fst]. apply in_or_app. now right.
Qed.

Section NumericPanel.

Variables (container label key : string) (options : list string).
Variable build : string -> Outcome Figure.

Let panel (s : Session) : M unit :=
  within container
    (if (1 <=? Z.of_nat (length options))%Z then
       bind (selectbox s label options key) (fun x =>
         if_truthy x (fun c =>
           bind (lift (build c)) (fun fig => emit (PlotlyChart fig))))
     else ret tt).

Lemma numeric_panel_succeeds (s : Session) :
  (forall c, In c options -> exists fig, build c = Ok fig) ->
  snd (panel s) = Ok tt.
Proof.
  intros Hbuild.
  assert (H : succeeds (panel s)).
  { unfold panel. apply succeeds_within.
    destruct (1 <=? _)%Z; [| apply succeeds_ret].
    apply succeeds_bind; [apply selectbox_succeeds |].
    intros x Hx. apply succeeds_if_truthy. intros c ->.
    destruct (Hbuild c (selectbox_member _ _ _ _ _ Hx)) as [fig ->].
    rewrite bind_lift_ok. apply succeeds_emit. }
  destruct H as [[] H]. exact H.
Qed.

End NumericPanel.

(** With a numeric and an object column, the pie panel offers the object
    columns as categories. *)
Lemma pie_category_offered (ss : Session) (df : DataFrame) (num : list string) :
  incl num (columns df) ->
  num <> [] -> categorical_cols df <> [] ->
  In (Within "chart_col4"
        (Selectbox "Select category for pie chart:" (categorical_cols df) "pie_cat"))
     (fst (charts_section ss df num)).
Proof.
  intros Hincl Hnum Hcat.
  pose proof (numeric_panel_succeeds "chart_col1" "Select column for bar chart:"
                "bar" num (fun c => create_bar_chart df c bar_limit) ss) as SB.
  pose proof (numeric_panel_succeeds "chart_col2" "Select column for trend line:"
                "line" num (fun c => create_line_chart df c line_limit) ss) as SL.
  pose proof (numeric_panel_succeeds "chart_col3" "Select column for distribution:"
                "hist" num (fun c => create_histogram df c) ss) as SH.
  cbv beta zeta in SB, SL, SH.
  unfold charts_section. rewrite !bind_emit. cbn [fst snd].
  right. right.
  eapply In_bind_later.
  { apply SB. intros c Hc. eexists. apply create_bar_chart_ok, Hincl, Hc. }
  eapply In_bind_later.
  { apply SL. intros c Hc. eexists. apply create_line_chart_ok, Hincl, Hc. }
  cbv beta. cbn [fst]. right.
  eapply In_bind_later.
  { apply SH. intros c Hc. eexists. apply create_histogram_ok, Hincl, Hc. }
  cbv beta. fold (categorical_cols df).
  assert (E : ((0 <? Z.of_nat (length (categorical_cols df)))%Z
               && (0 <? Z.of_nat (length num))%Z)%bool = true).
  { apply andb_true_iff. split; apply Z.ltb_lt.
    - destruct (categorical_cols df); [congruence | simpl; lia].
    - destruct num; [congruence | simpl; lia]. }
  rewrite E. unfold within. cbn [fst]. rewrite bind_unfold.
  cbn [selectbox fst snd map]. now left.
Qed.

Lemma kpi_options_offered (ss : Session) (df : DataFrame) (num : list string) :
  exists default,
    In (Multiselect "Select columns for KPI cards:" num default)
       (fst (kpi_section ss df num)).
Proof.
  eexists. unfold kpi_section. rewrite bind_emit. cbn [fst]. right.
  rewrite bind_unfold. cbn [multiselect fst snd]. apply in_or_app. left.
  left. reflexivity.
Qed.

(** The claim as stated fails: the column "note" holds neither a number nor a
    string - every cell is missing - and is of dtype object, so it is in the
    categorical set and the pie panel offers it. *)
Lemma object_column_without_text_is_offered :
  ~ (forall c s,
       getitem Examples.blank_notes c = Ok s ->
       (forall x, In x s -> x = NaN) ->
       ~ In c (categorical_cols Examples.blank_notes) /\
       forall e,
         In e (fst (main (Examples.reads Examples.blank_notes) Examples.untouched
                         (Some Examples.some_upload))) ->
         ~ In c (mentioned e)).
Proof.
  intros Hall.
  destruct (Hall "note" [NaN; NaN] eq_refl) as [Hcat Hpage].
  - intros x [<- | [<- | []]]; reflexivity.
  - apply Hcat. vm_compute. now left.
Qed.

(** C6, amended. The schema inspection classifies by dtype, not by values.
    For a loaded table with distinct column names: a boolean or datetime
    column is in neither the numeric nor the categorical set, and no element
    of the page - no widget option, KPI card, chart or statistics column -
    offers or uses it; an object column is in the categorical set whatever
    its cells hold, and with a numeric column beside it the pie panel offers
    it as a category; an int64 or float64 column is in the numeric set, and
    the KPI multiselect offers it. *)
Theorem unsupported_columns_dropped
    (read_excel : UploadedFile -> Outcome DataFrame) (ss : Session)
    (f : UploadedFile) (df : DataFrame) (c : string) (d : dtype) :
  read_excel f = Ok df ->
  NoDup (columns df) ->
  In (c, d) (schema df) ->
  let page := fst (main read_excel ss (Some f)) in
  (d = Boolean \/ d = Datetime64 ->
     ~ In c (numeric_columns df) /\
     ~ In c (categorical_cols df) /\
     forall e, In e page -> ~ In c (mentioned e)) /\
  (d = Object ->
     In c (categorical_cols df) /\
     ~ In c (numeric_columns df) /\
     (numeric_columns df <> [] ->
      In (Within "chart_col4"
            (Selectbox "Select category for pie chart:" (categorical_cols df)
                       "pie_cat")) page)) /\
  (d = Int64 \/ d = Float64 ->
     In c (numeric_columns df) /\
     ~ In c (categorical_cols df) /\
     exists default,
       In (Multiselect "Select columns for KPI cards:" (numeric_columns df) default)
          page).
Proof.
  intros H Hn Hc page.
  assert (Hd : dtype_of df c = Some d) by (apply dtype_of_NoDup; assumption).
  assert (Hnum : In c (numeric_columns df) <-> np_number d = true).
  { unfold numeric_columns. rewrite selected_iff. split.
    - intros [d' [Hin Hd']].
      rewrite (dtype_of_NoDup df c d' Hn Hin) in Hd. now injection Hd as <-.
    - intros E. exists d. split; assumption. }
  assert (Hcat : In c (categorical_cols df) <-> np_object d = true).
  { unfold categorical_cols. rewrite selected_iff. split.
    - intros [d' [Hin Hd']].
      rewrite (dtype_of_NoDup df c d' Hn Hin) in Hd. now injection Hd as <-.
    - intros E. exists d. split; assumption. }
  assert (Hpage : page = header ++ advisory df ++ fst (dashboard ss (capped df))).
  { unfold page. now rewrite (proj2 (main_loaded read_excel ss f df H Hn)). }
  assert (Hn' : NoDup (columns (capped df))) by now rewrite columns_capped.
  assert (Hrest : numeric_columns df <> [] ->
            forall e,
              In e (fst (kpi_and_charts ss (capped df) (numeric_columns df))) ->
              In e page).
  { intros Hne e He. rewrite Hpage. apply in_or_app. right. apply in_or_app. right.
    rewrite dashboard_unfold. cbn zeta. cbn [fst]. apply in_or_app. right.
    rewrite numeric_columns_capped.
    assert (Hpos : (0 <? Z.of_nat (length (numeric_columns df)))%Z = true).
    { apply Z.ltb_lt. destruct (numeric_columns df); [congruence | simpl; lia]. }
    rewrite Hpos. exact He. }
  split; [| split].
  - intros Hdt.
    assert (N1 : ~ In c (numeric_columns df)).
    { rewrite Hnum. destruct Hdt as [-> | ->]; discriminate. }
    assert (N2 : ~ In c (categorical_cols df)).
    { rewrite Hcat. destruct Hdt as [-> | ->]; discriminate. }
    split; [exact N1 |]. split; [exact N2 |].
    intros e Hin Hm.
    destruct (page_of_loaded _ _ _ _ _ H Hn Hin) as [Hh | [Ha | Hok]].
    + simpl in Hh. destruct Hh as [<- | [<- | [<- | []]]]; destruct Hm.
    + apply In_advisory in Ha. subst e. destruct Hm.
    + apply (element_ok_mentioned _ _ _ Hok) in Hm.
      apply in_app_or in Hm. tauto.
  - intros ->.
    split; [now apply Hcat |]. split; [rewrite Hnum; discriminate |].
    intros Hne. apply (Hrest Hne).
    destruct (kpi_and_charts_page ss (capped df) Hn') as [frame [_ [_ Hp]]].
    rewrite numeric_columns_capped in Hp. rewrite Hp. cbn [fst].
    apply in_or_app. right. apply in_or_app. left.
    rewrite <- (categorical_cols_capped df).
    apply pie_category_offered.
    + rewrite <- (numeric_columns_capped df). apply numeric_incl_columns.
    + exact Hne.
    + rewrite categorical_cols_capped. intros E.
      assert (Hin : In c (categorical_cols df)) by now apply Hcat.
      rewrite E in Hin. destruct Hin.
  - intros Hdt.
    assert (P1 : In c (numeric_columns df)).
    { apply Hnum. destruct Hdt as [-> | ->]; reflexivity. }
    split; [exact P1 |]. split; [rewrite Hcat; destruct Hdt as [-> | ->]; discriminate |].
    destruct (kpi_options_offered ss (capped df) (numeric_columns df)) as [default Hin].
    exists default. apply Hrest; [intros E; rewrite E in P1; destruct P1 |].
    destruct (kpi_and_charts_page ss (capped df) Hn') as [frame [_ [_ Hp]]].
    rewrite numeric_columns_capped in Hp. rewrite Hp. cbn [fst].
    apply in_or_app. now left.
Qed.

Lemma blank_notes_columns_distinct : NoDup (columns Examples.blank_notes).
Proof.
  repeat constructor; simpl; intuition discriminate.
Defined.

Lemma unsupported_columns_dropped_witness :
  (~ In "day" (numeric_columns Examples.sales) /\
   ~ In "day" (categorical_cols Examples.sales)) /\
  In (Within "chart_col4"
        (Selectbox "Select category for pie chart:" ["note"] "pie_cat"))
     (fst (main (Examples.reads Examples.blank_notes) Examples.untouched
                (Some Examples.some_upload))).
Proof.
  split.
  - destruct (proj1 (unsupported_columns_dropped (Examples.reads Examples.sales)
                Examples.untouched Examples.some_upload Examples.sales
                "day" Datetime64 eq_refl sales_columns_distinct
                (or_intror (or_intror (or_introl eq_refl))))
              (or_intror eq_refl))
      as [N1 [N2 _]].
    split; assumption.
  - refine (proj2 (proj2 (proj1 (proj2
      (unsupported_columns_dropped (Examples.reads Examples.blank_notes)
         Examples.untouched Examples.some_upload Examples.blank_notes
         "note" Object eq_refl blank_notes_columns_distinct
         (or_introl eq_refl))) eq_refl)) _).
    vm_compute. discriminate.
Defined.

(** ** C5: the shape of the summary-statistics table *)

Lemma getitem_list_In (df : DataFrame) (names : list string)
    (frame : list (string * Series)) (c : string) (s : Series) :
  getitem_list df names = Ok frame -> In (c, s) frame -> getitem df c = Ok s.
Proof.
  revert frame. induction names as [| n names IH]; simpl; intros frame H Hin.
  - injection H as <-. destruct Hin.
  - destruct (getitem df n) as [sn | e] eqn:En; [| discriminate].
    destruct (getitem_list df names) as [r | e]; [| discriminate].
    injection H as <-. destruct Hin as [Hin | Hin].
    + injection Hin as <- <-. exact En.
    + eapply IH; [reflexivity | exact Hin].
Qed.

Lemma element_ok_stats (num cat : list string) (e : element) (d : DescribeFrame) :
  element_ok num cat e -> stats_of e = Some d -> map fst (d_columns d) = num.
Proof.
  induction e; simpl; intros Hok Hs; try discriminate.
  - destruct data; [discriminate |]. injection Hs as <-. exact Hok.
  - apply IHe; assumption.
Qed.

(** The claim as stated fails: a table with the single numeric column
    [1, 2, 3, 4, 5] gets a statistics table of eight rows, not of one. *)
Lemma summary_table_rows_are_statistics :
  ~ (forall d,
       In (Dataframe (Described d))
          (fst (main (Examples.reads Examples.one_to_five) Examples.untouched
                     (Some Examples.some_upload))) ->
       length (d_index d) = length (numeric_columns Examples.one_to_five)).
Proof.
  intros Hall.
  specialize (Hall (describe [("x", [Int 1; Int 2; Int 3; Int 4; Int 5])])).
  assert (Hin : In (Dataframe (Described
                      (describe [("x", [Int 1; Int 2; Int 3; Int 4; Int 5])])))
                   (fst (main (Examples.reads Examples.one_to_five)
                              Examples.untouched (Some Examples.some_upload)))).
  { vm_compute. repeat (first [left; reflexivity | right]). }
  specialize (Hall Hin). vm_compute in Hall. discriminate Hall.
Qed.

(** C5, amended. For a loaded table with distinct column names and at least
    one numeric column, the page ends with the summary-statistics table; the
    table has exactly one column per numeric column of the table, in table
    order, each holding the statistics of that column over the capped rows,
    and exactly eight rows: count, mean, std, min, 25%, 50%, 75%, max. *)
Theorem summary_table_one_column_per_numeric
    (read_excel : UploadedFile -> Outcome DataFrame) (ss : Session)
    (f : UploadedFile) (df : DataFrame) :
  read_excel f = Ok df ->
  NoDup (columns df) ->
  numeric_columns df <> [] ->
  exists before d,
    fst (main read_excel ss (Some f)) = before ++ [Dataframe (Described d)] /\
    map fst (d_columns d) = numeric_columns df /\
    NoDup (map fst (d_columns d)) /\
    d_index d = ["count"; "mean"; "std"; "min"; "25%"; "50%"; "75%"; "max"] /\
    length (d_index d) = 8%nat /\
    (forall c st, In (c, st) (d_columns d) ->
       exists s, getitem (capped df) c = Ok s /\ st = describe_series s) /\
    forall e d', In e (fst (main read_excel ss (Some f))) ->
      stats_of e = Some d' -> map fst (d_columns d') = numeric_columns df.
Proof.
  intros H Hn Hnum.
  destruct (main_loaded read_excel ss f df H Hn) as [_ Hm].
  assert (Hn' : NoDup (columns (capped df))) by now rewrite columns_capped.
  destruct (kpi_and_charts_page ss (capped df) Hn') as [frame [Hf [Hnames Hp]]].
  rewrite numeric_columns_capped in Hnames.
  exists (header ++ advisory df ++ dashboard_prefix (capped df)
          ++ fst (kpi_section ss (capped df) (numeric_columns (capped df)))
          ++ fst (charts_section ss (capped df) (numeric_columns (capped df)))
          ++ [Subheader "📋 Summary Statistics"]).
  exists (describe frame).
  split; [| split; [| split; [| split; [| split; [| split]]]]].
  - rewrite Hm, dashboard_unfold. cbn zeta. cbn [fst].
    assert (Hpos : (0 <? Z.of_nat (length (numeric_columns (capped df))))%Z = true).
    { rewrite numeric_columns_capped. apply Z.ltb_lt.
      destruct (numeric_columns df); [congruence | simpl; lia]. }
    rewrite Hpos, Hp. cbn [fst]. rewrite <- !app_assoc. reflexivity.
  - unfold describe. cbn [d_columns]. rewrite map_map. exact Hnames.
  - unfold describe. cbn [d_columns]. rewrite map_map. cbn [fst].
    change (map (fun x => fst x) frame) with (map fst frame). rewrite Hnames.
    unfold numeric_columns. rewrite columns_select_dtypes.
    clear -Hn. unfold columns in Hn. induction (schema df) as [| [c d] l IH];
      simpl in *; [constructor |].
    inversion Hn as [| ? ? Hc Hl]; subst.
    destruct (np_number d); simpl; [constructor |]; auto.
    intros Hin. apply Hc. apply in_map_iff in Hin. destruct Hin as [[c' d'] [E Hin]].
    simpl in E. subst c'. apply filter_In in Hin. destruct Hin as [Hin _].
    apply in_map_iff. exists (c, d'). split; [reflexivity | exact Hin].
  - reflexivity.
  - reflexivity.
  - intros c st Hin. unfold describe in Hin. cbn [d_columns] in Hin.
    apply in_map_iff in Hin. destruct Hin as [[c' s] [E Hin]].
    injection E as <- <-. exists s. split; [| reflexivity].
    eapply getitem_list_In; [exact Hf | exact Hin].
  - intros e d' Hin Hs.
    destruct (page_of_loaded _ _ _ _ _ H Hn Hin) as [Hh | [Ha | Hok]].
    + simpl in Hh. destruct Hh as [<- | [<- | [<- | []]]]; discriminate.
    + apply In_advisory in Ha. subst e. discriminate.
    + eapply element_ok_stats; eassumption.
Qed.

Lemma one_to_five_columns_distinct : NoDup (columns Examples.one_to_five).
Proof.
  repeat constructor; simpl; intuition discriminate.
Defined.

Lemma summary_table_one_column_per_numeric_witness :
  exists before d,
    fst (main (Examples.reads Examples.one_to_five) Examples.untouched
              (Some Examples.some_upload))
    = before ++ [Dataframe (Described d)] /\
    map fst (d_columns d) = ["x"].
Proof.
  destruct (summary_table_one_column_per_numeric
              (Examples.reads Examples.one_to_five) Examples.untouched
              Examples.some_upload Examples.one_to_five
              eq_refl one_to_five_columns_distinct)
    as [before [d [Hp [Hc _]]]].
  - vm_compute. discriminate.
  - exists before, d. split; [exact Hp | exact Hc].
Defined.

(** ** C3: KPI total and average *)

Lemma length_dropna (s : Series) : length (dropna s) = number_present s.
Proof.
  unfold dropna. induction s as [| c s IH]; [reflexivity |].
  destruct c; cbn [flat_map as_float app length number_present]; now rewrite IH.
Qed.

Lemma mean_of_present_correct (s : Series) : mean s = mean_of_present s.
Proof.
  unfold mean, mean_of_present, count. rewrite length_dropna.
  rewrite fillna_present_or_zero.
  destruct (number_present s) as [| n]; [reflexivity |].
  assert (E : (0 <? Z.of_nat (S n))%Z = true) by (apply Z.ltb_lt; lia).
  now rewrite E.
Qed.

Lemma int_total_Permutation (s s' : Series) :
  Permutation s s' -> int_total s = int_total s'.
Proof.
  induction 1 as [| c s s' _ IH | c c' s | s s' s'' _ IH1 _ IH2].
  - reflexivity.
  - destruct c; simpl; now rewrite ?IH.
  - destruct c, c'; simpl; lia.
  - now rewrite IH1.
Qed.

Lemma getitem_Permutation (df df' : DataFrame) (col : string) (s : Series) :
  schema df' = schema df ->
  Permutation (rows df) (rows df') ->
  getitem df col = Ok s ->
  exists s', getitem df' col = Ok s' /\ Permutation s s'.
Proof.
  unfold getitem, columns. intros -> Hp.
  destruct (index_of col (map fst (schema df))) as [i |]; [| discriminate].
  intros H. injection H as <-. eexists. split; [reflexivity |].
  unfold column_at. apply Permutation_map, Hp.
Qed.

Lemma dtype_at_schema (df df' : DataFrame) (col : string) :
  schema df' = schema df -> dtype_at df' col = dtype_at df col.
Proof. unfold dtype_at, dtype_of, columns. now intros ->. Qed.

Lemma kpi_cards_cons (df : DataFrame) (i : Z) (col : string) (s : Series)
    (total : scalar) (avg : float) (rest : list string) :
  getitem df col = Ok s ->
  sum (dtype_at df col) s = Ok total ->
  series_mean (dtype_at df col) s = Ok avg ->
  kpi_cards df i (col :: rest)
  = (kpi_card i col total avg :: fst (kpi_cards df (i + 1) rest),
     snd (kpi_cards df (i + 1) rest)).
Proof.
  intros H Hs Hm. cbn [kpi_cards].
  rewrite H, bind_lift_ok, Hs, bind_lift_ok, Hm, bind_lift_ok.
  rewrite bind_unfold. reflexivity.
Qed.

Lemma wrap64_small (z : Z) :
  (- 9223372036854775808 <= z < 9223372036854775808)%Z -> wrap64 z = z.
Proof.
  intros H. unfold wrap64. rewrite Z.mod_small; lia.
Qed.

Lemma ledger_reordered_Permutation :
  Permutation (rows Examples.ledger) (rows Examples.ledger_reordered).
Proof.
  unfold Examples.ledger, Examples.ledger_reordered. cbn [rows].
  apply Permutation_sym. apply (Permutation_cons_app [_; _; _] []).
  rewrite app_nil_r. apply perm_skip. apply perm_swap.
Defined.

(** The claim as stated fails: the float column 1e16, 1.5, -1e16, 0 has the
    total 2 and the average 0.5; with the same rows in the order
    0, 1e16, -1e16, 1.5 the card shows the total 1.5 and the average 0.375. *)
Lemma kpi_total_depends_on_row_order :
  ~ (forall df',
       schema df' = schema Examples.ledger ->
       Permutation (rows Examples.ledger) (rows df') ->
       kpi_cards df' 0 ["amount"] = kpi_cards Examples.ledger 0 ["amount"]).
Proof.
  intros Hall.
  specialize (Hall Examples.ledger_reordered eq_refl ledger_reordered_Permutation).
  apply (f_equal (fun m : M unit =>
                    match fst m with
                    | [Within _ (Metric _ (MFixed2 _ _ (SFloat x)) _)] =>
                        (x =? 2)%float
                    | _ => false
                    end)) in Hall.
  vm_compute in Hall. discriminate Hall.
Qed.

(** C3, amended. In the KPI loop, the card of a numeric column [col] of the
    table - rendered first, before the cards of the columns [rest] selected
    after it - shows as its total the sum of the column's non-missing values
    as pandas adds them (in int64 for an integer column; in binary64, in
    numpy's order of addition, for a float column) and as its average their
    float64 sum over the number of non-missing values, NaN when there is
    none.  For an integer column the total is the exact sum where that fits
    64 bits, and the card of the table with its rows in any other order shows
    the same total. *)
Theorem kpi_total_and_average (df : DataFrame) (i : Z) (col : string) (s : Series) :
  NoDup (columns df) ->
  In col (numeric_columns df) ->
  getitem df col = Ok s ->
  let d := dtype_at df col in
  exists total avg,
    (forall rest,
       kpi_cards df i (col :: rest)
       = (kpi_card i col total avg :: fst (kpi_cards df (i + 1) rest),
          snd (kpi_cards df (i + 1) rest))) /\
    (d = Int64 \/ d = Float64) /\
    total = total_of_present d s /\
    avg = mean_of_present s /\
    (d = Int64 ->
       ((- 9223372036854775808 <= int_total s < 9223372036854775808)%Z ->
        total = SInt (int_total s)) /\
       forall df',
         schema df' = schema df ->
         Permutation (rows df) (rows df') ->
         exists avg',
           forall rest,
             kpi_cards df' i (col :: rest)
             = (kpi_card i col total avg' :: fst (kpi_cards df' (i + 1) rest),
                snd (kpi_cards df' (i + 1) rest))).
Proof.
  intros Hn Hcol H d.
  pose proof (dtype_at_numeric df col Hn Hcol) as Hd. fold d in Hd.
  pose proof (sum_numeric d s Hd) as Hsum.
  exists (total_of_present d s), (mean s).
  split; [intros rest; apply (kpi_cards_cons df i col s);
          [assumption | assumption | now apply series_mean_numeric] |].
  split; [destruct d; try discriminate Hd; tauto |].
  split; [reflexivity |].
  split; [apply mean_of_present_correct |].
  intros Hint. rewrite Hint. cbn [total_of_present]. split.
  - intros Hfit. now rewrite wrap64_small.
  - intros df' Hs Hp.
    destruct (getitem_Permutation df df' col s Hs Hp H) as [s' [H' Hperm]].
    exists (mean s'). intros rest.
    rewrite (int_total_Permutation s s' Hperm).
    apply (kpi_cards_cons df' i col s'); [exact H' | |];
      rewrite (dtype_at_schema df df' col Hs); fold d; rewrite Hint;
      [unfold sum; now rewrite int_sum_total | reflexivity].
Qed.

Lemma sales_shuffled_Permutation :
  Permutation (rows Examples.sales) (rows Examples.sales_shuffled).
Proof.
  unfold Examples.sales, Examples.sales_shuffled. cbn [rows].
  apply (Permutation_cons_app [_; _] [_]).
  apply (Permutation_cons_app [_; _] []).
  apply perm_swap.
Defined.

Lemma kpi_total_and_average_witness :
  exists avg avg',
    kpi_cards Examples.sales 1 ["units"]
    = ([kpi_card 1 "units" (SInt 42) avg], Ok tt) /\
    kpi_cards Examples.sales_shuffled 1 ["units"]
    = ([kpi_card 1 "units" (SInt 42) avg'], Ok tt).
Proof.
  destruct (kpi_total_and_average Examples.sales 1 "units"
              [Int 10; Int 20; Int 5; Int 7] sales_columns_distinct)
    as (total & avg & Hk & _ & Ht & _ & Hint).
  - vm_compute. now left.
  - reflexivity.
  - destruct (Hint eq_refl) as [_ Hperm].
    destruct (Hperm Examples.sales_shuffled eq_refl sales_shuffled_Permutation)
      as [avg' Hk'].
    exists avg, avg'. subst total. split; [apply (Hk []) | apply (Hk' [])].
Defined.

(** ** Binary64: numbers and their order *)








Lemma Prim2SF_nan (f : float) : Prim2SF f = S754_nan <-> is_nan f = true.
Proof.
  unfold Prim2SF. destruct (is_nan f); [tauto |].
  split; [| discriminate].
  destruct (is_zero f); [discriminate |].
  destruct (is_infinity f); [discriminate |].
  destruct (Z.frexp f) as [r exp].
  destruct (shr_fexp _ _ _ _ _) as [shr e'].
  destruct (shr_m shr); discriminate.
Qed.



Lemma SFcompare_place (x y : float) :
  is_nan x = false -> is_nan y = false ->
  SFcompare (Prim2SF x) (Prim2SF y) = Some (place_compare (place x) (place y)).
Proof.
  intros Hx Hy. unfold place.
  assert (Nx : Prim2SF x <> S754_nan) by (rewrite Prim2SF_nan; congruence).
  assert (Ny : Prim2SF y <> S754_nan) by (rewrite Prim2SF_nan; congruence).
  destruct (Prim2SF x) as [s | s | | s m e]; [| | congruence |];
    (destruct (Prim2SF y) as [s' | s' | | s' m' e']; [| | congruence |]);
    try (destruct s); try (destruct s'); try reflexivity.
  cbn [SFcompare place_compare]. cbn [Z.compare].
  rewrite Z.compare_opp. rewrite (Z.compare_antisym e e').
  destruct (e ?= e')%Z; reflexivity.
Qed.

Lemma place_compare_Lt (p q : Z * Z * Z) : place_compare p q = Lt <-> before p q.
Proof.
  destruct p as [[a b] c], q as [[a' b'] c']. cbn [place_compare before].
  destruct (Z.compare_spec a a'); [| intuition lia | split; [discriminate | lia]].
  destruct (Z.compare_spec b b'); [| intuition lia | split; [discriminate | lia]].
  rewrite Z.compare_lt_iff. lia.
Qed.

Lemma place_compare_Eq (p q : Z * Z * Z) : place_compare p q = Eq <-> p = q.
Proof.
  destruct p as [[a b] c], q as [[a' b'] c']. cbn [place_compare].
  destruct (Z.compare_spec a a');
    [| split; [discriminate | intros E; injection E; lia] ..].
  destruct (Z.compare_spec b b');
    [| split; [discriminate | intros E; injection E; lia] ..].
  rewrite Z.compare_eq_iff.
  split; [intros ->; subst; reflexivity | intros E; injection E; auto].
Qed.

Lemma place_compare_Gt (p q : Z * Z * Z) : place_compare p q = Gt <-> before q p.
Proof.
  destruct p as [[a b] c], q as [[a' b'] c']. cbn [place_compare before].
  destruct (Z.compare_spec a a'); [| split; [discriminate | lia] | intuition lia].
  destruct (Z.compare_spec b b'); [| split; [discriminate | lia] | intuition lia].
  rewrite Z.compare_gt_iff. lia.
Qed.

Lemma before_trans (p q r : Z * Z * Z) : before p q -> before q r -> before p r.
Proof.
  destruct p as [[a b] c], q as [[a' b'] c'], r as [[a'' b''] c''].
  cbn [before]. lia.
Qed.

Section NumberOrder.
Variables x y : float.
Hypothesis Hx : is_nan x = false.
Hypothesis Hy : is_nan y = false.

Lemma ltb_before : (x <? y)%float = true <-> before (place x) (place y).
Proof.
  rewrite FloatAxioms.ltb_spec. unfold SFltb. rewrite (SFcompare_place x y Hx Hy).
  rewrite <- place_compare_Lt.
  destruct (place_compare (place x) (place y)); intuition discriminate.
Qed.

Lemma eqb_place : (x =? y)%float = true <-> place x = place y.
Proof.
  rewrite FloatAxioms.eqb_spec. unfold SFeqb. rewrite (SFcompare_place x y Hx Hy).
  rewrite <- place_compare_Eq.
  destruct (place_compare (place x) (place y)); intuition discriminate.
Qed.

Lemma leb_place :
  (x <=? y)%float = true <-> before (place x) (place y) \/ place x = place y.
Proof.
  rewrite FloatAxioms.leb_spec. unfold SFleb. rewrite (SFcompare_place x y Hx Hy).
  rewrite <- place_compare_Lt, <- place_compare_Eq.
  destruct (place_compare (place x) (place y)); intuition discriminate.
Qed.

Lemma leb_false_before : (x <=? y)%float = false -> before (place y) (place x).
Proof.
  rewrite FloatAxioms.leb_spec. unfold SFleb. rewrite (SFcompare_place x y Hx Hy).
  rewrite <- place_compare_Gt.
  destruct (place_compare (place x) (place y)); intuition discriminate.
Qed.

End NumberOrder.


Lemma fle_trans (x y z : float) :
  is_nan x = false -> is_nan y = false -> is_nan z = false ->
  fle x y -> fle y z -> fle x z.
Proof.
  unfold fle. intros Hx Hy Hz.
  rewrite (leb_place x y Hx Hy), (leb_place y z Hy Hz), (leb_place x z Hx Hz).
  intros [H1 | H1] [H2 | H2].
  - left. eapply before_trans; eassumption.
  - left. now rewrite <- H2.
  - left. now rewrite H1.
  - right. congruence.
Qed.



(** ** Sorting *)

Section Sorted.
Context {V : Type} (leb : V -> V -> bool) (ok : V -> Prop).
Hypothesis leb_total : forall x y, ok x -> ok y -> leb x y = false -> leb y x = true.
Hypothesis leb_trans :
  forall x y z, ok x -> ok y -> ok z -> leb x y = true -> leb y z = true -> leb x z = true.





End Sorted.



(** ** Minimum and maximum *)




(** ** C4: descriptive statistics *)








(** ** C2: the pie aggregation *)

Lemma number_compare_antisym (p q : Z * Q) :
  number_compare p q = CompOpp (number_compare q p).
Proof.
  unfold number_compare. rewrite (Z.compare_antisym (fst p) (fst q)).
  destruct (fst p ?= fst q)%Z; cbn [CompOpp]; try reflexivity.
  symmetry. apply Qcompare_antisym.
Qed.

Lemma number_compare_refl (p : Z * Q) : number_compare p p = Eq.
Proof.
  unfold number_compare. rewrite Z.compare_refl. apply Qeq_alt. reflexivity.
Qed.

Lemma number_compare_Lt (p q : Z * Q) :
  number_compare p q = Lt <->
  (fst p < fst q)%Z \/ (fst p = fst q /\ (snd p < snd q)%Q).
Proof.
  unfold number_compare. destruct (Z.compare_spec (fst p) (fst q)).
  - rewrite <- Qlt_alt. intuition lia.
  - intuition lia.
  - split; [discriminate | lia].
Qed.

Lemma number_compare_Eq (p q : Z * Q) :
  number_compare p q = Eq <-> fst p = fst q /\ (snd p == snd q)%Q.
Proof.
  unfold number_compare. destruct (Z.compare_spec (fst p) (fst q)).
  - rewrite <- Qeq_alt. intuition lia.
  - split; [discriminate | lia].
  - split; [discriminate | lia].
Qed.

Lemma number_compare_trans (p q r : Z * Q) :
  number_compare p q = Lt -> number_compare q r = Lt -> number_compare p r = Lt.
Proof.
  rewrite !number_compare_Lt. intros [H1 | [H1 H1']] [H2 | [H2 H2']];
    try (left; lia).
  right. split; [lia |]. eapply Qlt_trans; eassumption.
Qed.

Lemma number_compare_Eq_l (p q r : Z * Q) :
  number_compare p q = Eq -> number_compare p r = number_compare q r.
Proof.
  intros H. apply number_compare_Eq in H. destruct H as [H1 H2].
  unfold number_compare. rewrite H1.
  destruct (fst q ?= fst r)%Z; try reflexivity. now rewrite H2.
Qed.

Lemma number_of_None (a : cell) :
  number_of a = None -> (exists s, a = Str s) \/ a = NaN.
Proof.
  destruct a; simpl; try discriminate; eauto.
Qed.

Lemma key_compare_antisym (a b : cell) :
  key_compare a b = CompOpp (key_compare b a).
Proof.
  unfold key_compare.
  destruct (number_of a) as [p |] eqn:Ea, (number_of b) as [q |] eqn:Eb;
    try reflexivity; [apply number_compare_antisym |].
  destruct (number_of_None a Ea) as [[s ->] | ->],
           (number_of_None b Eb) as [[t ->] | ->]; try reflexivity.
  apply String.compare_antisym.
Qed.

Lemma key_lt_trans (a b c : cell) : key_lt a b -> key_lt b c -> key_lt a c.
Proof.
  unfold key_lt, key_compare.
  destruct (number_of a) as [p |] eqn:Ea, (number_of b) as [q |] eqn:Eb,
           (number_of c) as [r |] eqn:Ec;
    try discriminate; try reflexivity; [apply number_compare_trans |].
  destruct (number_of_None a Ea) as [[s ->] | ->],
           (number_of_None b Eb) as [[t ->] | ->],
           (number_of_None c Ec) as [[u ->] | ->];
    try discriminate; try reflexivity.
  intros H1 H2. apply String_as_OT.cmp_lt.
  apply String_as_OT.cmp_lt in H1, H2.
  eapply String_as_OT.lt_trans; eassumption.
Qed.

Lemma key_compare_refl (a : cell) : key_compare a a = Eq.
Proof.
  unfold key_compare. destruct (number_of a) as [p |] eqn:Ea;
    [apply number_compare_refl |].
  destruct (number_of_None a Ea) as [[s ->] | ->]; [| reflexivity].
  apply String_as_OT.cmp_eq. reflexivity.
Qed.

Lemma key_compare_Eq_l (a b c : cell) :
  key_compare a b = Eq -> key_compare a c = key_compare b c.
Proof.
  unfold key_compare.
  destruct (number_of a) as [p |] eqn:Ea, (number_of b) as [q |] eqn:Eb;
    try discriminate.
  - intros H. destruct (number_of c); [| reflexivity].
    now apply number_compare_Eq_l.
  - destruct (number_of_None a Ea) as [[s ->] | ->],
             (number_of_None b Eb) as [[t ->] | ->]; try discriminate.
    + intros H. apply String.compare_eq_iff in H. now subst.
    + reflexivity.
Qed.

Lemma key_Gt_lt (a b : cell) : key_compare a b = Gt -> key_lt b a.
Proof.
  unfold key_lt. intros H. rewrite key_compare_antisym, H. reflexivity.
Qed.

Lemma key_lt_not_same (a b : cell) : key_lt a b -> same_key b a = false.
Proof.
  unfold key_lt, same_key. intros H. rewrite key_compare_antisym, H. reflexivity.
Qed.

Lemma key_lt_not_same_l (a b : cell) : key_lt a b -> same_key a b = false.
Proof. unfold key_lt, same_key. now intros ->. Qed.

Lemma same_key_Eq_l (a b c : cell) :
  key_compare a b = Eq -> same_key a c = same_key b c.
Proof.
  intros H. unfold same_key. now rewrite (key_compare_Eq_l a b c H).
Qed.

Lemma same_key_NaN (k : cell) : k <> NaN -> same_key NaN k = false.
Proof. destruct k; try reflexivity. congruence. Qed.

Section Groups.
Context {A : Type} (start : A) (step : A -> cell -> A).

Lemma group_add_keys (k v : cell) (acc : list (cell * A)) (x : cell) :
  In x (map fst (group_add start step k v acc)) -> x = k \/ In x (map fst acc).
Proof.
  induction acc as [| [k' t] acc IH]; simpl.
  - intros [<- | []]. now left.
  - destruct (key_compare k k'); simpl.
    + tauto.
    + intros [<- | H]; tauto.
    + intros [<- | H]; [tauto |]. destruct (IH H); tauto.
Qed.

Lemma group_add_keeps (k v : cell) (acc : list (cell * A)) (x : cell) :
  In x (map fst acc) -> In x (map fst (group_add start step k v acc)).
Proof.
  induction acc as [| [k' t] acc IH]; simpl; [intros [] |].
  destruct (key_compare k k'); simpl; tauto.
Qed.

Lemma group_add_has (k v : cell) (acc : list (cell * A)) :
  exists k', In k' (map fst (group_add start step k v acc)) /\ key_compare k k' = Eq.
Proof.
  induction acc as [| [k' t] acc IH]; simpl.
  - exists k. split; [now left | apply key_compare_refl].
  - destruct (key_compare k k') eqn:E; simpl.
    + exists k'. split; [now left | exact E].
    + exists k. split; [now left | apply key_compare_refl].
    + destruct IH as [k'' [Hin He]]. exists k''. split; [now right | exact He].
Qed.

Lemma group_add_sorted (k v : cell) (acc : list (cell * A)) :
  StronglySorted key_lt (map fst acc) ->
  StronglySorted key_lt (map fst (group_add start step k v acc)).
Proof.
  induction acc as [| [k' t] acc IH]; simpl; intros Hs.
  - repeat constructor.
  - inversion Hs as [| ? ? Hs' Hall]; subst.
    destruct (key_compare k k') eqn:E; simpl.
    + constructor; assumption.
    + constructor; [exact Hs |]. constructor; [exact E |].
      eapply Forall_impl; [| exact Hall]. intros z Hz.
      eapply key_lt_trans; [exact E | exact Hz].
    + constructor; [apply IH, Hs' |].
      apply Forall_forall. intros z Hz. apply group_add_keys in Hz.
      destruct Hz as [-> | Hz]; [apply key_Gt_lt, E |].
      rewrite Forall_forall in Hall. apply Hall, Hz.
Qed.

Lemma state_of_above (k : cell) (acc : list (cell * A)) :
  Forall (key_lt k) (map fst acc) -> state_of start k acc = start.
Proof.
  unfold state_of. induction acc as [| [k0 t] acc IH]; simpl; intros H.
  - reflexivity.
  - inversion H as [| ? ? Hk Hl]; subst.
    rewrite (key_lt_not_same _ _ Hk). apply IH, Hl.
Qed.

Lemma state_of_cons (k : cell) (g : cell * A) (acc : list (cell * A)) :
  state_of start k (g :: acc)
  = if same_key (fst g) k then snd g else state_of start k acc.
Proof.
  unfold state_of. cbn [find]. destruct (same_key (fst g) k); reflexivity.
Qed.

Lemma state_of_group_add (k k' v : cell) (acc : list (cell * A)) :
  StronglySorted key_lt (map fst acc) ->
  state_of start k (group_add start step k' v acc)
  = if same_key k' k then step (state_of start k acc) v
    else state_of start k acc.
Proof.
  induction acc as [| [k0 t] acc IH]; cbn [group_add map]; intros Hs.
  - rewrite state_of_cons. reflexivity.
  - inversion Hs as [| ? ? Hs' Hall]; subst. cbn [fst] in Hall.
    destruct (key_compare k' k0) eqn:E.
    + rewrite !state_of_cons. cbn [fst snd].
      rewrite (same_key_Eq_l k' k0 k E).
      destruct (same_key k0 k); reflexivity.
    + rewrite !state_of_cons. cbn [fst snd].
      destruct (same_key k' k) eqn:Ek; [| reflexivity].
      assert (Hk : key_compare k' k = Eq).
      { unfold same_key in Ek. destruct (key_compare k' k); congruence. }
      assert (Hlt : key_lt k k0).
      { unfold key_lt. now rewrite <- (key_compare_Eq_l k' k k0 Hk). }
      rewrite (key_lt_not_same _ _ Hlt).
      rewrite state_of_above; [reflexivity |].
      eapply Forall_impl; [| exact Hall]. intros z Hz.
      eapply key_lt_trans; eassumption.
    + rewrite !state_of_cons. cbn [fst snd].
      destruct (same_key k0 k) eqn:E0.
      * assert (Hk : key_compare k0 k = Eq).
        { unfold same_key in E0. destruct (key_compare k0 k); congruence. }
        assert (Hne : same_key k' k = false).
        { unfold same_key.
          rewrite key_compare_antisym, <- (key_compare_Eq_l k0 k k' Hk).
          rewrite key_compare_antisym, E. reflexivity. }
        now rewrite Hne.
      * apply IH, Hs'.
Qed.

Lemma fold_group_sorted (kvs : list (cell * cell)) (acc : list (cell * A)) :
  StronglySorted key_lt (map fst acc) ->
  StronglySorted key_lt (map fst (fold_left (group_step start step) kvs acc)).
Proof.
  revert acc. induction kvs as [| [k v] kvs IH]; intros acc Hs; simpl; [exact Hs |].
  apply IH. unfold group_step. simpl.
  destruct k; try (apply group_add_sorted, Hs). exact Hs.
Qed.

Lemma state_of_fold (k : cell) (kvs : list (cell * cell)) (acc : list (cell * A)) :
  k <> NaN ->
  StronglySorted key_lt (map fst acc) ->
  state_of start k (fold_left (group_step start step) kvs acc)
  = fold_left step (values_of k kvs) (state_of start k acc).
Proof.
  intros Hk. revert acc. induction kvs as [| [k' v] kvs IH]; intros acc Hs;
    cbn [fold_left]; [reflexivity |].
  assert (Hs' : StronglySorted key_lt
                  (map fst (group_step start step acc (k', v)))).
  { unfold group_step. cbn [fst snd].
    destruct k'; try (apply group_add_sorted, Hs). exact Hs. }
  rewrite (IH _ Hs'). unfold values_of. cbn [filter fst].
  unfold group_step. cbn [fst snd].
  destruct k' as [z | x | t |].
  - rewrite (state_of_group_add _ _ _ _ Hs).
    destruct (same_key (Int z) k); reflexivity.
  - rewrite (state_of_group_add _ _ _ _ Hs).
    destruct (same_key (Float x) k); reflexivity.
  - rewrite (state_of_group_add _ _ _ _ Hs).
    destruct (same_key (Str t) k); reflexivity.
  - now rewrite (same_key_NaN k Hk).
Qed.

Lemma state_of_sorted (k : cell) (t : A) (l : list (cell * A)) :
  StronglySorted key_lt (map fst l) -> In (k, t) l -> state_of start k l = t.
Proof.
  induction l as [| [k0 t0] l IH]; simpl; intros Hs Hin; [destruct Hin |].
  inversion Hs as [| ? ? Hs' Hall]; subst. rewrite state_of_cons. cbn [fst snd].
  destruct Hin as [Hin | Hin].
  - injection Hin as -> ->. unfold same_key. now rewrite key_compare_refl.
  - assert (Hlt : key_lt k0 k).
    { rewrite Forall_forall in Hall. apply Hall. apply in_map_iff.
      exists (k, t). split; [reflexivity | exact Hin]. }
    rewrite (key_lt_not_same_l _ _ Hlt). apply IH; assumption.
Qed.

Lemma fold_group_keys (kvs : list (cell * cell)) (acc : list (cell * A)) (x : cell) :
  In x (map fst (fold_left (group_step start step) kvs acc)) ->
  In x (map fst acc) \/ (x <> NaN /\ In x (map fst kvs)).
Proof.
  revert acc. induction kvs as [| [k v] kvs IH]; intros acc; simpl; [tauto |].
  intros H. apply IH in H. destruct H as [H | H]; [| tauto].
  unfold group_step in H. simpl in H.
  destruct k; try tauto; apply group_add_keys in H;
    (destruct H as [-> | H]; [right; split; [discriminate | now left] | tauto]).
Qed.

Lemma fold_group_keeps (kvs : list (cell * cell)) (acc : list (cell * A)) (x : cell) :
  In x (map fst acc) -> In x (map fst (fold_left (group_step start step) kvs acc)).
Proof.
  revert acc. induction kvs as [| [k v] kvs IH]; intros acc H; simpl; [exact H |].
  apply IH. unfold group_step. simpl.
  destruct k; try (apply group_add_keeps, H). exact H.
Qed.

Lemma fold_group_covers (kvs : list (cell * cell)) (acc : list (cell * A))
    (k v : cell) :
  In (k, v) kvs -> k <> NaN ->
  exists k', In k' (map fst (fold_left (group_step start step) kvs acc))
             /\ key_compare k k' = Eq.
Proof.
  revert acc. induction kvs as [| [k0 v0] kvs IH]; intros acc Hin Hk; [destruct Hin |].
  simpl. destruct Hin as [Hin | Hin].
  - injection Hin as -> ->. unfold group_step at 2. simpl.
    destruct (group_add_has k v acc) as [k' [H1 H2]].
    exists k'. split; [| exact H2].
    destruct k; try (apply fold_group_keeps, H1). congruence.
  - apply IH; assumption.
Qed.

(** A group of the result holds the state its rows leave, in row order. *)
Lemma group_fold_state (kvs : list (cell * cell)) (k : cell) (t : A) :
  In (k, t) (group_fold start step kvs) ->
  k <> NaN /\ In k (map fst kvs) /\ t = fold_left step (values_of k kvs) start.
Proof.
  intros Hin. unfold group_fold in *.
  assert (Hsorted : StronglySorted key_lt
                      (map fst (fold_left (group_step start step) kvs []))).
  { apply fold_group_sorted. constructor. }
  assert (Hkey : In k (map fst (fold_left (group_step start step) kvs []))).
  { apply in_map_iff. exists (k, t). split; [reflexivity | exact Hin]. }
  apply fold_group_keys in Hkey. destruct Hkey as [[] | [Hnan Hkv]].
  split; [exact Hnan |]. split; [exact Hkv |].
  rewrite <- (state_of_sorted k t _ Hsorted Hin).
  now rewrite (state_of_fold k kvs [] Hnan) by constructor.
Qed.

End Groups.

Lemma ranks_at_least (a b : cell * scalar) :
  nan_total (snd b) = false -> ranks_before a b -> at_least (snd a) (snd b).
Proof.
  intros Hb [H | [[_ H] | [H _]]]; [now left | congruence | now right].
Qed.

Lemma ranks_sum_order (a b : cell * scalar) : ranks_before a b -> sum_order a b.
Proof.
  intros [H | [[_ H] | [H _]]]; [left; now left | now right | left; now right].
Qed.

Lemma at_least_ranks (x z : cell * scalar) :
  at_least (snd x) (snd z) -> key_lt (fst x) (fst z) -> ranks_before x z.
Proof.
  intros [H | H] Hk; [now left | right; right; now split].
Qed.

Section Ranking.
Context {B : Type} (leb : B -> B -> bool) (inj : B -> scalar) (ok : B -> Prop).
Hypothesis ok_number : forall x, ok x -> nan_total (inj x) = false.
Hypothesis leb_at_least :
  forall x y, ok x -> ok y -> leb y x = true -> at_least (inj x) (inj y).
Hypothesis leb_larger :
  forall x y, ok x -> ok y -> leb y x = false -> larger (inj y) (inj x).
Hypothesis at_least_trans :
  forall x y z, ok x -> ok y -> ok z ->
    at_least (inj x) (inj y) -> at_least (inj y) (inj z) -> at_least (inj x) (inj z).

Lemma insert_desc_Permutation (x : cell * B) (l : list (cell * B)) :
  Permutation (x :: l) (insert_desc leb x l).
Proof.
  induction l as [| y l IH]; simpl; [reflexivity |].
  destruct (leb (snd y) (snd x)); [reflexivity |].
  rewrite perm_swap. now apply perm_skip.
Qed.

Lemma sort_desc_Permutation (l : list (cell * B)) : Permutation l (sort_desc leb l).
Proof.
  induction l as [| x l IH]; simpl; [reflexivity |].
  rewrite <- insert_desc_Permutation. now apply perm_skip.
Qed.

Lemma insert_desc_ranked (x : cell * B) (l : list (cell * B)) :
  ok (snd x) -> Forall (fun y => ok (snd y)) l ->
  StronglySorted ranks_before (map (fun g => (fst g, inj (snd g))) l) ->
  Forall (fun y => key_lt (fst x) (fst y)) l ->
  StronglySorted ranks_before
    (map (fun g => (fst g, inj (snd g))) (insert_desc leb x l)).
Proof.
  intros Hx. induction l as [| y l IH]; intros Hok Hs Hk; cbn [insert_desc map].
  - repeat constructor.
  - inversion Hok as [| ? ? Hy Hl]; subst.
    inversion Hk as [| ? ? Hky Hkl]; subst.
    cbn [map] in Hs. inversion Hs as [| ? ? Hs' Hall]; subst.
    destruct (leb (snd y) (snd x)) eqn:E; cbn [map].
    + constructor; [exact Hs |].
      constructor; [apply at_least_ranks; [now apply leb_at_least | exact Hky] |].
      apply Forall_forall. intros z' Hz. apply in_map_iff in Hz.
      destruct Hz as [z [<- Hz]].
      rewrite Forall_forall in Hkl, Hl, Hall.
      apply at_least_ranks; [| now apply Hkl]. cbn [snd].
      apply at_least_trans with (snd y);
        [exact Hx | exact Hy | now apply Hl | now apply leb_at_least |].
      apply (ranks_at_least (fst y, inj (snd y)) (fst z, inj (snd z)));
        [cbn [snd]; now apply ok_number, Hl |].
      apply Hall. apply in_map_iff. exists z. split; [reflexivity | exact Hz].
    + constructor; [now apply IH |].
      apply Forall_forall. intros z' Hz. apply in_map_iff in Hz.
      destruct Hz as [z [<- Hz]].
      apply (Permutation_in _ (Permutation_sym (insert_desc_Permutation x l))) in Hz.
      destruct Hz as [<- | Hz].
      * left. cbn [snd]. now apply leb_larger.
      * rewrite Forall_forall in Hall. apply Hall. apply in_map_iff.
        exists z. split; [reflexivity | exact Hz].
Qed.

Lemma sort_desc_ranked (l : list (cell * B)) :
  Forall (fun y => ok (snd y)) l ->
  StronglySorted key_lt (map fst l) ->
  StronglySorted ranks_before (map (fun g => (fst g, inj (snd g))) (sort_desc leb l)).
Proof.
  induction l as [| x l IH]; simpl; intros Hok Hs; [constructor |].
  inversion Hs as [| ? ? Hs' Hall]; subst.
  inversion Hok as [| ? ? Hx Hl]; subst.
  apply insert_desc_ranked; [exact Hx | | now apply IH |].
  - rewrite <- sort_desc_Permutation. exact Hl.
  - rewrite <- sort_desc_Permutation. rewrite Forall_map in Hall. exact Hall.
Qed.

End Ranking.

Lemma StronglySorted_app {X : Type} (R : X -> X -> Prop) (l1 l2 : list X) :
  StronglySorted R (l1 ++ l2) ->
  StronglySorted R l1 /\ forall a b, In a l1 -> In b l2 -> R a b.
Proof.
  induction l1 as [| x l1 IH]; simpl; intros Hs.
  - split; [constructor | intros a b []].
  - inversion Hs as [| ? ? Hs' Hall]; subst. destruct (IH Hs') as [H1 H2].
    split.
    + constructor; [exact H1 |]. apply Forall_app in Hall. tauto.
    + intros a b [<- | Ha] Hb; [| now apply H2].
      rewrite Forall_forall in Hall. apply Hall, in_or_app. now right.
Qed.

Lemma StronglySorted_join {X : Type} (R : X -> X -> Prop) (l1 l2 : list X) :
  StronglySorted R l1 -> StronglySorted R l2 ->
  (forall a b, In a l1 -> In b l2 -> R a b) ->
  StronglySorted R (l1 ++ l2).
Proof.
  induction 1 as [| x l1 Hs IH Hx]; simpl; intros H2 Hc; [exact H2 |].
  constructor; [apply IH; auto |].
  apply Forall_app. split; [exact Hx |].
  apply Forall_forall. intros b Hb. apply Hc; [now left | exact Hb].
Qed.

Lemma filter_keys_sorted {B : Type} (p : cell * B -> bool) (l : list (cell * B)) :
  StronglySorted key_lt (map fst l) ->
  StronglySorted key_lt (map fst (filter p l)).
Proof.
  induction l as [| x l IH]; simpl; intros Hs; [constructor |].
  inversion Hs as [| ? ? Hs' Hall]; subst.
  destruct (p x); simpl; [| now apply IH].
  constructor; [now apply IH |].
  apply Forall_forall. intros k Hk. apply in_map_iff in Hk.
  destruct Hk as [g [<- Hg]]. apply filter_In in Hg.
  rewrite Forall_forall in Hall. apply Hall. apply in_map_iff.
  exists g. split; [reflexivity | apply Hg].
Qed.

Lemma filter_split {X : Type} (p : X -> bool) (l : list X) :
  Permutation l (filter (fun x => negb (p x)) l ++ filter p l).
Proof.
  induction l as [| x l IH]; simpl; [reflexivity |].
  destruct (p x); simpl.
  - apply Permutation_cons_app. exact IH.
  - now apply perm_skip.
Qed.

(** The sums that are NaN, in key order, rank after one another. *)
Lemma nan_totals_ranked (l : list (cell * float)) :
  StronglySorted key_lt (map fst l) ->
  Forall (fun g => is_nan (snd g) = true) l ->
  StronglySorted ranks_before (map (fun g => (fst g, SFloat (snd g))) l).
Proof.
  induction l as [| x l IH]; simpl; intros Hs Hn; [constructor |].
  inversion Hs as [| ? ? Hs' Hall]; subst.
  inversion Hn as [| ? ? Hx Hl]; subst.
  constructor; [now apply IH |].
  apply Forall_forall. intros z' Hz. apply in_map_iff in Hz.
  destruct Hz as [z [<- Hz]]. right. right. cbn [fst snd]. split.
  - right. split; [exact Hx |]. rewrite Forall_forall in Hl. now apply Hl.
  - rewrite Forall_forall in Hall. apply Hall. apply in_map_iff.
    exists z. split; [reflexivity | exact Hz].
Qed.

Lemma float_at_least (x y : float) :
  is_nan x = false -> is_nan y = false ->
  (at_least (SFloat x) (SFloat y) <-> fle y x).
Proof.
  intros Hx Hy. unfold at_least, larger, equal_sum, fle.
  rewrite (ltb_before y x Hy Hx), (eqb_place x y Hx Hy), (leb_place y x Hy Hx).
  split.
  - intros [H | [H | [H _]]]; [now left | right; congruence | congruence].
  - intros [H | H]; [now left | right; left; congruence].
Qed.

(** The rows [nlargest] returns are the first rows of a ranking of the
    groups. *)
Lemma nlargest_ranked (n : Z) (t : totals) :
  StronglySorted key_lt (map fst (entries t)) ->
  exists ranked,
    Permutation (entries t) ranked /\ StronglySorted ranks_before ranked /\
    entries (nlargest n t) = firstn (Z.to_nat n) ranked.
Proof.
  destruct t as [l | l]; cbn [entries nlargest]; rewrite map_map; cbn [fst];
    change (map (fun x : cell * _ => fst x) l) with (map fst l); intros Hs.
  - exists (map (fun g => (fst g, SInt (snd g))) (sort_desc Z.leb l)).
    split; [apply Permutation_map, sort_desc_Permutation |].
    split; [| now rewrite firstn_map].
    apply (sort_desc_ranked Z.leb SInt (fun _ => True)); auto.
    + intros x y _ _ H. apply Z.leb_le in H. unfold at_least. simpl.
      destruct (Z.eq_dec x y); [now right | left; lia].
    + intros x y _ _ H. apply Z.leb_gt in H. exact H.
    + intros x y z _ _ _. unfold at_least. simpl. lia.
    + apply Forall_forall. intros; exact I.
  - set (numbers := filter (fun g : cell * float => negb (is_nan (snd g))) l).
    set (nans := filter (fun g : cell * float => is_nan (snd g)) l).
    exists (map (fun g => (fst g, SFloat (snd g)))
                (sort_desc PrimFloat.leb numbers ++ nans)).
    assert (Hnum : Forall (fun g : cell * float => is_nan (snd g) = false) numbers).
    { apply Forall_forall. intros g Hg. apply filter_In in Hg.
      destruct Hg as [_ Hg]. now apply Bool.negb_true_iff in Hg. }
    assert (Hnan : Forall (fun g : cell * float => is_nan (snd g) = true) nans).
    { apply Forall_forall. intros g Hg. apply filter_In in Hg. apply Hg. }
    split; [| split; [| now rewrite firstn_map]].
    + apply Permutation_map. rewrite <- sort_desc_Permutation.
      apply (filter_split (fun g : cell * float => is_nan (snd g))).
    + rewrite map_app. apply StronglySorted_join.
      * apply (sort_desc_ranked PrimFloat.leb SFloat (fun f => is_nan f = false));
          [auto | | | | exact Hnum | apply filter_keys_sorted, Hs].
        -- intros x y Hx Hy H. now apply float_at_least.
        -- intros x y Hx Hy H. simpl.
           apply (ltb_before x y Hx Hy). now apply leb_false_before.
        -- intros x y z Hx Hy Hz.
           rewrite !float_at_least by assumption. intros H1 H2.
           eapply fle_trans; [| | | exact H2 | exact H1]; assumption.
      * apply nan_totals_ranked; [apply filter_keys_sorted, Hs | exact Hnan].
      * intros a b Ha Hb. apply in_map_iff in Ha, Hb.
        destruct Ha as [ga [<- Ha]], Hb as [gb [<- Hb]].
        right. left. cbn [snd nan_total].
        apply (Permutation_in _ (Permutation_sym (sort_desc_Permutation _ _))) in Ha.
        rewrite Forall_forall in Hnum, Hnan. split; [now apply Hnum | now apply Hnan].
Qed.

Lemma in_combine_keys {X Y : Type} (l : list X) (l' : list Y) (x : X) :
  In x (map fst (combine l l')) -> In x l.
Proof.
  intros H. apply in_map_iff in H. destruct H as [[a b] [E H]].
  simpl in E. subst a. eapply in_combine_l, H.
Qed.

(** The groups of [groupby_sum]: ascending keys, one group for every key met,
    each with the sum of its rows. *)
Lemma groupby_sum_groups (d : dtype) (kvs : list (cell * cell)) :
  StronglySorted key_lt (map fst (entries (groupby_sum d kvs))) /\
  (forall k v, In (k, v) kvs -> k <> NaN ->
     exists k', In k' (map fst (entries (groupby_sum d kvs)))
                /\ key_compare k k' = Eq) /\
  (forall k total, In (k, total) (entries (groupby_sum d kvs)) ->
     k <> NaN /\ In k (map fst kvs) /\ total = group_total d k kvs).
Proof.
  assert (Hf : map fst (entries (groupby_sum Float64 kvs))
               = map fst (group_fold (0%float, 0%float) kahan_step kvs)).
  { cbn [groupby_sum entries]. now rewrite !map_map. }
  assert (Hi : forall d', d' <> Float64 ->
               map fst (entries (groupby_sum d' kvs))
               = map fst (group_fold 0%Z int_step kvs) /\
               entries (groupby_sum d' kvs)
               = map (fun g => (fst g, SInt (snd g))) (group_fold 0%Z int_step kvs) /\
               forall k, group_total d' k kvs
                         = SInt (fold_left int_step (values_of k kvs) 0%Z)).
  { intros d' Hd. destruct d'; try congruence;
      (split; [cbn [groupby_sum entries]; now rewrite map_map |]);
      split; try reflexivity. }
  destruct (dtype_eqb d Float64) eqn:Ed.
  - assert (d = Float64) by (destruct d; try discriminate; reflexivity). subst d.
    rewrite Hf. split; [apply fold_group_sorted; constructor |].
    split; [intros k v Hin Hk; now apply (fold_group_covers _ _ kvs [] k v) |].
    intros k total Hin. cbn [groupby_sum entries] in Hin. rewrite map_map in Hin.
    apply in_map_iff in Hin. destruct Hin as [[k' st] [E Hin]].
    cbn [fst snd] in E. injection E as -> <-.
    destruct (group_fold_state _ _ kvs k st Hin) as [H1 [H2 H3]].
    split; [exact H1 |]. split; [exact H2 |].
    cbn [group_total]. now rewrite H3.
  - assert (Hd : d <> Float64) by (intros ->; discriminate).
    destruct (Hi d Hd) as [H1 [H2 H3]]. rewrite H1, H2.
    split; [apply fold_group_sorted; constructor |].
    split; [intros k v Hin Hk; now apply (fold_group_covers _ _ kvs [] k v) |].
    intros k total Hin.
    apply in_map_iff in Hin. destruct Hin as [[k' st] [E Hin]].
    cbn [fst snd] in E. injection E as -> <-.
    destruct (group_fold_state _ _ kvs k st Hin) as [H4 [H5 H6]].
    split; [exact H4 |]. split; [exact H5 |].
    rewrite H3. now rewrite H6.
Qed.

(** The claim as stated fails: with eleven categories of equal sum, "z" met
    first, the category kept by first encounter would be "z"; the pie keeps
    "a" to "j" and drops "z". *)
Lemma pie_ties_follow_key_order :
  ~ (forall fig,
       create_pie_chart Examples.eleven_ties "cat" "val" = Ok fig ->
       forall k,
         In k (map fst (top_by_encounter 10 Int64
                          (combine (column_at 0 Examples.eleven_ties)
                                   (column_at 1 Examples.eleven_ties)))) ->
         In k (map fst (slices fig))).
Proof.
  intros Hall.
  specialize (Hall _ eq_refl (Str "z")).
  assert (Hin : In (Str "z")
                   (map fst (top_by_encounter 10 Int64
                               (combine (column_at 0 Examples.eleven_ties)
                                        (column_at 1 Examples.eleven_ties))))).
  { vm_compute. now left. }
  specialize (Hall Hin). vm_compute in Hall.
  repeat (destruct Hall as [Hall | Hall]; [discriminate Hall |]).
  exact Hall.
Qed.

(** C2, amended. For a table with distinct column names, an object column
    [cat_col] and a numeric column [val_col], the pie builder returns a
    figure whose slices come from grouping the rows by the category (rows
    with a missing category form no group), the groups in ascending key
    order, each group with the sum of its non-missing values as pandas adds
    them, in row order: in int64 for an integer column, by compensated
    summation in binary64 for a float column.  The slices are at most 10,
    in descending order of sum, namely the min(10, number of groups) groups
    that rank first when groups are ranked by larger sum, a sum that is NaN
    after every number, and, among equal sums, by smaller key, not by first
    encounter; every other group is dropped, and where a group is dropped the
    slices are in the order of that ranking. *)
Theorem pie_top_groups (df : DataFrame) (cat_col val_col : string) :
  NoDup (columns df) ->
  In cat_col (categorical_cols df) ->
  In val_col (numeric_columns df) ->
  exists keys vals d groups dropped fig,
    getitem df cat_col = Ok keys /\
    getitem df val_col = Ok vals /\
    dtype_of df val_col = Some d /\
    grouped_sums df cat_col val_col = Ok groups /\
    create_pie_chart df cat_col val_col = Ok fig /\
    fig = Pie (slices fig) val_col cat_col (val_col ++ " by " ++ cat_col) /\
    StronglySorted key_lt (map fst (entries groups)) /\
    (forall k v, In (k, v) (combine keys vals) -> k <> NaN ->
       exists k', In k' (map fst (entries groups)) /\ key_compare k k' = Eq) /\
    (forall k total, In (k, total) (entries groups) ->
       k <> NaN /\ In k keys /\ total = group_total d k (combine keys vals)) /\
    Permutation (entries groups) (slices fig ++ dropped) /\
    length (slices fig) = Nat.min 10 (length (entries groups)) /\
    (length (slices fig) <= 10)%nat /\
    StronglySorted sum_order (slices fig) /\
    (dropped <> [] -> StronglySorted ranks_before (slices fig)) /\
    (forall a b, In a (slices fig) -> In b dropped -> ranks_before a b).
Proof.
  intros Hn Hc Hv.
  destruct (grouped_sums_ok df cat_col val_col Hn Hc Hv)
    as [keys [vals [d [Hk [Hvs [Hd [Hnum Hg]]]]]]].
  set (kvs := combine keys vals) in *.
  set (groups := groupby_sum d kvs) in *.
  destruct (groupby_sum_groups d kvs) as [Hsorted [Hcover Htotal]].
  fold groups in Hsorted, Hcover, Htotal.
  destruct (nlargest_ranked 10 groups Hsorted) as [ranked [Hperm [Hranked Hfirst]]].
  rewrite <- (firstn_skipn (Z.to_nat 10) ranked) in Hranked.
  apply StronglySorted_app in Hranked. destruct Hranked as [Hkept Hcut].
  exists keys, vals, d, groups, (skipn (Z.to_nat 10) ranked).
  eexists.
  split; [exact Hk |]. split; [exact Hvs |]. split; [exact Hd |].
  split; [exact Hg |].
  split; [unfold create_pie_chart; rewrite Hg; reflexivity |].
  cbn [slices px_pie]. rewrite Hfirst.
  split; [reflexivity |]. split; [exact Hsorted |].
  split; [exact Hcover |].
  split; [| split; [| split; [| split; [| split; [| split]]]]].
  - intros k total Hin. destruct (Htotal k total Hin) as [H1 [H2 H3]].
    split; [exact H1 |]. split; [| exact H3].
    now apply in_combine_keys in H2.
  - rewrite firstn_skipn. exact Hperm.
  - rewrite length_firstn, (Permutation_length Hperm). reflexivity.
  - rewrite length_firstn. change (Z.to_nat 10) with 10%nat. lia.
  - clear -Hkept. induction Hkept as [| a l _ IH Ha]; constructor; [exact IH |].
    eapply Forall_impl; [| exact Ha]. intros b. apply ranks_sum_order.
  - intros _. exact Hkept.
  - exact Hcut.
Qed.

Lemma float_groups_columns_distinct : NoDup (columns Examples.float_groups).
Proof.
  repeat constructor; simpl; intuition discriminate.
Defined.

Lemma pie_top_groups_witness :
  exists fig dropped,
    create_pie_chart Examples.float_groups "cat" "val" = Ok fig /\
    length (slices fig) = 10%nat /\
    length dropped = 1%nat /\
    (forall a b, In a (slices fig) -> In b dropped -> ranks_before a b).
Proof.
  destruct (pie_top_groups Examples.float_groups "cat" "val"
              float_groups_columns_distinct)
    as (keys & vals & d & groups & dropped & fig
        & _ & _ & _ & Hg & Hf & _ & _ & _ & _ & Hp & Hl & _ & _ & _ & Hcut).
  - vm_compute. now left.
  - vm_compute. now left.
  - exists fig, dropped.
    vm_compute in Hg. injection Hg as <-.
    split; [exact Hf |]. split; [exact Hl |]. split; [| exact Hcut].
    apply Permutation_length in Hp. rewrite length_app, Hl in Hp.
    cbn [entries length map Nat.min] in Hp. lia.
Defined.

(** ** Worked examples *)

Example pie_of_sales :
  create_pie_chart Examples.sales "region" "units"
  = Ok (Pie [(Str "south", SInt 20); (Str "north", SInt 15)]
            "units" "region" "units by region").
Proof. reflexivity. Qed.

Example pie_of_eleven_ties :
  exists fig,
    create_pie_chart Examples.eleven_ties "cat" "val" = Ok fig /\
    map fst (slices fig)
    = [Str "a"; Str "b"; Str "c"; Str "d"; Str "e";
       Str "f"; Str "g"; Str "h"; Str "i"; Str "j"].
Proof. eexists. split; reflexivity. Qed.

(** The category "a" holds 1e16, 1.5 and -1e16: its sum is 2 in binary64, a
    tie with the ten categories of sum 2, and the pie keeps "a" to "j". *)
Example pie_of_float_groups :
  exists fig,
    create_pie_chart Examples.float_groups "cat" "val" = Ok fig /\
    slices fig
    = [(Str "a", SFloat 2); (Str "b", SFloat 2); (Str "c", SFloat 2);
       (Str "d", SFloat 2); (Str "e", SFloat 2); (Str "f", SFloat 2);
       (Str "g", SFloat 2); (Str "h", SFloat 2); (Str "i", SFloat 2);
       (Str "j", SFloat 2)].
Proof. eexists. split; vm_compute; reflexivity. Qed.

Example pie_on_a_datetime_column_raises :
  create_pie_chart Examples.sales "region" "day"
  = Raise (TypeError "datetime64 type does not support sum operations").
Proof. reflexivity. Qed.

Example bar_on_an_unknown_column_raises :
  create_bar_chart Examples.sales "profit" bar_limit
  = Raise (not_a_column "y" "profit").
Proof. reflexivity. Qed.

(** The KPI loop on a text column: the card of the numeric column before it
    is rendered, then the sum raises. *)
Example kpi_card_of_a_text_column_raises :
  exists msg,
    kpi_cards Examples.sales 0 ["units"; "region"]
    = ([kpi_card 0 "units" (SInt 42) 10.5], Raise (TypeError msg)).
Proof. eexists. vm_compute. reflexivity. Qed.

(** On an object column without text the loop renders a card: the sum of no
    value is 0 and the mean is NaN. *)
Example kpi_card_of_a_blank_column :
  kpi_cards Examples.blank_notes 0 ["note"]
  = ([kpi_card 0 "note" (SInt 0) nan], Ok tt).
Proof. vm_compute. reflexivity. Qed.

Example page_of_a_failed_load :
  main (fun _ => Raise (ValueError "Excel file format cannot be determined"))
       Examples.untouched (Some Examples.some_upload)
  = (header ++
     [ Error "❌ Error reading the Excel file: Excel file format cannot be determined";
       Info "Please make sure your file is a valid Excel format (.xlsx or .xls)" ],
     Ok tt).
Proof. reflexivity. Qed.

Example page_without_a_file :
  fst (main (Examples.reads Examples.sales) Examples.untouched None)
  = header ++ [ Info "👆 Please upload an Excel file to get started";
                Markdown instructions ].
Proof. reflexivity. Qed.

Example quartile_of_six_values :
  quartile 1 [Int 6; Int 1; NaN; Int 3; Int 2; Int 5; Int 4] = 2.25%float.
Proof. vm_compute. reflexivity. Qed.

(** In binary64 the mean of three equal values can lie above all of them:
    three times one tenth, over three. *)
Example mean_of_three_tenths :
  let tenth := Examples.F (1 / 10) eq_refl in
  let s := [tenth; tenth; tenth] in
  (mean s <=? Numpy.max (dropna s))%float = false.
Proof. vm_compute. reflexivity. Qed.

Example kpi_selection_by_the_user :
  snd (multiselect (mkSession (fun _ => None) (Some [1; 0]%nat))
                   "Select columns for KPI cards:" ["units"; "price"] ["units"; "price"])
  = Ok ["price"; "units"].
Proof. reflexivity. Qed.

(* ================================================================= *)
(** * Further properties of the script *)

(** ** The line chart *)

(** X1. For a table and one of its columns, the line-chart builder, with its
    default limit, builds the figure on the first 50 rows of the table in
    table order: its points are the first 50 cells of the column, and a table
    of at most 50 rows is used in full. *)
Theorem line_chart_first_rows (df : DataFrame) (column : string) (s : Series) :
  getitem df column = Ok s ->
  create_line_chart df column line_limit
  = Ok (Line (mkDataFrame (schema df) (firstn 50 (rows df)))
             column (column ++ " - Trend Analysis") true) /\
  forall fig, create_line_chart df column line_limit = Ok fig ->
    marks fig = firstn 50 s /\
    length (marks fig) = Nat.min 50 (length (rows df)) /\
    ((len df <= 50)%Z -> marks fig = s).
Proof.
  intros H. split.
  - rewrite (create_line_chart_ok df column line_limit (getitem_is_column _ _ _ H)).
    reflexivity.
  - intros fig Hfig. apply create_line_chart_inv in Hfig. subst fig.
    cbn [marks]. rewrite (getitem_head df column s line_limit H).
    change (slice_head line_limit s) with (firstn 50 s).
    split; [reflexivity |]. split.
    + rewrite length_firstn, (getitem_length _ _ _ H). reflexivity.
    + intros Hle. apply firstn_all2. rewrite (getitem_length _ _ _ H).
      unfold len in Hle. lia.
Qed.

Lemma line_chart_first_rows_witness :
  create_line_chart Examples.sales "price" line_limit
  = Ok (Line (mkDataFrame (schema Examples.sales) (firstn 50 (rows Examples.sales)))
             "price" "price - Trend Analysis" true).
Proof.
  exact (proj1 (line_chart_first_rows Examples.sales "price"
                  [Examples.F 0.5 eq_refl; NaN; Examples.F 1.5 eq_refl;
                   Examples.F 1.5 eq_refl] eq_refl)).
Defined.


(** ** The cap, the first rows and the preview *)

Lemma slice_head_twice {X : Type} (n m : Z) (l : list X) :
  (0 <= n <= m)%Z -> slice_head n (slice_head m l) = slice_head n l.
Proof.
  intros [Hn Hm]. unfold slice_head.
  assert (E1 : (0 <=? n)%Z = true) by (apply Z.leb_le; lia).
  assert (E2 : (0 <=? m)%Z = true) by (apply Z.leb_le; lia).
  rewrite E1, E2, firstn_firstn. f_equal. lia.
Qed.

Lemma head_twice (n m : Z) (df : DataFrame) :
  (0 <= n <= m)%Z -> head n (head m df) = head n df.
Proof.
  intros H. unfold head. cbn [schema rows]. now rewrite slice_head_twice.
Qed.

Lemma head_capped (n : Z) (df : DataFrame) :
  (0 <= n <= 10000)%Z -> head n (capped df) = head n df.
Proof.
  intros H. unfold capped. destruct (row_limit <? len df)%Z; [| reflexivity].
  apply head_twice. exact H.
Qed.

(** X4. The 10,000-row cap never shows in what is built from the first rows:
    for a limit of at most 10,000 rows - the 20 of the bar chart, the 50 of
    the line chart, the 10 of the preview - the bar chart and the line chart
    of the capped table are those of the table as loaded, and so are its
    first rows. *)
Theorem cap_leaves_first_rows (df : DataFrame) (c : string) (limit : Z) :
  (0 <= limit <= 10000)%Z ->
  create_bar_chart (capped df) c limit = create_bar_chart df c limit /\
  create_line_chart (capped df) c limit = create_line_chart df c limit /\
  head limit (capped df) = head limit df.
Proof.
  intros H. unfold create_bar_chart, create_line_chart.
  rewrite (head_capped limit df H). repeat split.
Qed.

Lemma cap_leaves_first_rows_witness :
  create_bar_chart (capped Examples.over_the_ceiling) "x" bar_limit
  = create_bar_chart Examples.over_the_ceiling "x" bar_limit.
Proof.
  refine (proj1 (cap_leaves_first_rows Examples.over_the_ceiling "x" bar_limit _)).
  unfold bar_limit. lia.
Defined.

(** X5. For a successfully loaded table the data preview shows the first 10
    rows of the table as loaded, with every column of the table - also the
    columns that are neither numeric nor object, which no later stage
    offers. *)
Theorem preview_shows_every_column
    (read_excel : UploadedFile -> Outcome DataFrame) (ss : Session)
    (f : UploadedFile) (df : DataFrame) :
  read_excel f = Ok df ->
  In (Within "📋 Data Preview"
        (Dataframe (Frame (mkDataFrame (schema df) (firstn 10 (rows df))))))
     (fst (main read_excel ss (Some f))).
Proof.
  intros H. rewrite main_unfold, (pipeline_loaded _ _ _ _ H). cbn [fst].
  apply in_or_app. right. apply in_or_app. left. apply in_or_app. right.
  apply In_dashboard_prefix. unfold dashboard_prefix.
  assert (E : head 10 (capped df) = mkDataFrame (schema df) (firstn 10 (rows df))).
  { rewrite head_capped by lia. reflexivity. }
  rewrite E. simpl. tauto.
Qed.

Lemma preview_shows_every_column_witness :
  In (Within "📋 Data Preview"
        (Dataframe (Frame (mkDataFrame (schema Examples.sales)
                                       (firstn 10 (rows Examples.sales))))))
     (fst (main (Examples.reads Examples.sales) Examples.untouched
                (Some Examples.some_upload))).
Proof.
  exact (preview_shows_every_column (Examples.reads Examples.sales)
           Examples.untouched Examples.some_upload Examples.sales eq_refl).
Defined.

(** ** Where the charts of a page come from, and their sizes *)

Lemma renders_impl {A : Type} (P Q : element -> Prop) (m : M A) :
  (forall e, P e -> Q e) -> renders P m -> renders Q m.
Proof. intros H. unfold renders. apply Forall_impl, H. Qed.

Ltac panel_leaf_selectbox :=
  apply selectbox_renders; right; right; left;
  eexists; eexists; eexists; eexists; reflexivity.

Ltac panel_leaf_chart :=
  apply renders_emit; right; right; right;
  eexists; eexists; split; [reflexivity |].

Lemma charts_section_panels (ss : Session) (df : DataFrame) (num : list string) :
  renders (panel_element df) (charts_section ss df num).
Proof.
  unfold charts_section.
  apply renders_bind; [apply renders_emit; left; eexists; reflexivity | intros _ _].
  apply renders_bind;
    [apply renders_emit; right; left; eexists; reflexivity | intros _ _].
  apply renders_bind.
  { apply renders_within.
    destruct (1 <=? _)%Z; [| apply renders_ret].
    apply renders_bind; [panel_leaf_selectbox |].
    intros bar_col _. apply renders_if_truthy. intros c _.
    apply renders_bind; [apply renders_pure |]. intros fig Hfig.
    panel_leaf_chart. left. exists c. exact Hfig. }
  intros _ _.
  apply renders_bind.
  { apply renders_within.
    destruct (1 <=? _)%Z; [| apply renders_ret].
    apply renders_bind; [panel_leaf_selectbox |].
    intros line_col _. apply renders_if_truthy. intros c _.
    apply renders_bind; [apply renders_pure |]. intros fig Hfig.
    panel_leaf_chart. right. left. exists c. exact Hfig. }
  intros _ _.
  apply renders_bind;
    [apply renders_emit; right; left; eexists; reflexivity | intros _ _].
  apply renders_bind.
  { apply renders_within.
    destruct (1 <=? _)%Z; [| apply renders_ret].
    apply renders_bind; [panel_leaf_selectbox |].
    intros hist_col _. apply renders_if_truthy. intros c _.
    apply renders_bind; [apply renders_pure |]. intros fig Hfig.
    panel_leaf_chart. right. right. left. exists c. exact Hfig. }
  intros _ _.
  apply renders_within.
  match goal with |- renders _ (if ?b then _ else _) => destruct b end;
    [| apply renders_ret].
  apply renders_bind; [panel_leaf_selectbox |]. intros cat_col _.
  apply renders_bind; [panel_leaf_selectbox |]. intros val_col _.
  apply renders_if_truthy. intros c _. apply renders_if_truthy. intros v _.
  apply renders_bind; [apply renders_pure |]. intros fig Hfig.
  panel_leaf_chart. right. right. right. exists c, v. exact Hfig.
Qed.

Lemma kpi_section_no_chart (ss : Session) (df : DataFrame) (num : list string) :
  renders (fun e => chart_of e = None) (kpi_section ss df num).
Proof.
  unfold kpi_section.
  apply renders_bind; [apply renders_emit; reflexivity | intros _ _].
  apply renders_bind; [constructor; [reflexivity | constructor] |].
  intros selected _. destruct selected as [| c0 rest]; [apply renders_ret |].
  apply renders_bind; [apply renders_emit; reflexivity | intros _ _].
  apply kpi_cards_renders. reflexivity.
Qed.

Lemma summary_statistics_no_chart (df : DataFrame) (num : list string) :
  renders (fun e => chart_of e = None) (summary_statistics df num).
Proof.
  unfold summary_statistics.
  apply renders_bind; [apply renders_emit; reflexivity | intros _ _].
  apply renders_bind; [apply renders_pure |]. intros frame _.
  apply renders_emit. reflexivity.
Qed.

Lemma panel_element_chart (df : DataFrame) (e : element) (fig : Figure) :
  panel_element df e -> chart_of e = Some fig -> built_on df fig.
Proof.
  intros [[b ->] | [[n ->] | [(c & l & o & k & ->) | (c & g & -> & Hb)]]];
    simpl; intros H; try discriminate.
  injection H as <-. exact Hb.
Qed.

Lemma dashboard_charts (ss : Session) (df : DataFrame) :
  renders (fun e => forall fig, chart_of e = Some fig -> built_on df fig)
          (dashboard ss df).
Proof.
  unfold renders. rewrite dashboard_unfold. cbn zeta. cbn [fst].
  apply Forall_app. split.
  - apply Forall_forall. intros e He fig H. unfold dashboard_prefix in He.
    simpl in He. repeat (destruct He as [<- | He]; [discriminate H |]).
    destruct He.
  - destruct (0 <? _)%Z.
    + unfold kpi_and_charts. apply renders_bind.
      { eapply renders_impl; [| apply kpi_section_no_chart].
        intros e He fig H. congruence. }
      intros _ _. apply renders_bind.
      { eapply renders_impl; [| apply charts_section_panels].
        intros e He fig H. eapply panel_element_chart; eassumption. }
      intros _ _. eapply renders_impl; [| apply summary_statistics_no_chart].
      intros e He fig H. congruence.
    + constructor; [intros fig H; discriminate H | constructor].
Qed.

Lemma len_capped (df : DataFrame) : (len (capped df) <= 10000)%Z.
Proof.
  unfold capped. destruct (row_limit <? len df)%Z eqn:E.
  - unfold head, len, slice_head. cbn [rows].
    change (0 <=? row_limit)%Z with true. cbn iota.
    rewrite length_firstn. unfold row_limit. lia.
  - apply Z.ltb_ge in E. exact E.
Qed.

Lemma len_head (n : Z) (df : DataFrame) : (0 <= n)%Z -> (len (head n df) <= n)%Z.
Proof.
  intros H. unfold head, len, slice_head. cbn [rows].
  assert (E : (0 <=? n)%Z = true) by (apply Z.leb_le; exact H).
  rewrite E, length_firstn. lia.
Qed.

Lemma built_on_within_limits (df : DataFrame) (fig : Figure) :
  (len df <= 10000)%Z -> built_on df fig -> within_limits fig.
Proof.
  intros Hlen [[c H] | [[c H] | [[c H] | [c [v H]]]]].
  - apply create_bar_chart_inv in H. subst fig. simpl.
    apply (len_head 20). lia.
  - apply create_line_chart_inv in H. subst fig. simpl.
    apply (len_head 50). lia.
  - apply create_histogram_inv in H. subst fig. exact Hlen.
  - apply create_pie_chart_inv in H. destruct H as [groups [_ ->]]. simpl.
    destruct groups as [l | l]; cbn [nlargest entries];
      rewrite length_map, length_firstn; change (Z.to_nat 10) with 10%nat; lia.
Qed.

(** X6. Every chart on the page of a successfully loaded table is what one of
    the four builders returns on the capped table, and is within its size
    cap, whatever the table and the widget state: a bar chart is built on at
    most 20 rows, a line chart on at most 50, a histogram on at most 10,000
    (all rows of the capped table), and a pie has at most 10 slices. *)
Theorem chart_sizes_bounded
    (read_excel : UploadedFile -> Outcome DataFrame) (ss : Session)
    (f : UploadedFile) (df : DataFrame) :
  read_excel f = Ok df ->
  forall e fig,
    In e (fst (main read_excel ss (Some f))) ->
    chart_of e = Some fig ->
    built_on (capped df) fig /\ within_limits fig.
Proof.
  intros H e fig Hin Hc.
  rewrite main_unfold, (pipeline_loaded _ _ _ _ H) in Hin. cbn [fst snd] in Hin.
  apply in_app_or in Hin. destruct Hin as [Hin | Hin].
  { simpl in Hin. destruct Hin as [<- | [<- | [<- | []]]]; discriminate. }
  apply in_app_or in Hin. destruct Hin as [Hin | Hin].
  - apply in_app_or in Hin. destruct Hin as [Hin | Hin].
    + apply In_advisory in Hin. subst e. discriminate.
    + pose proof (dashboard_charts ss (capped df)) as Hr.
      unfold renders in Hr. rewrite Forall_forall in Hr.
      split; [exact (Hr e Hin fig Hc) |].
      apply (built_on_within_limits (capped df)); [apply len_capped |].
      exact (Hr e Hin fig Hc).
  - destruct (snd (dashboard ss (capped df))); simpl in Hin; [destruct Hin |].
    destruct Hin as [<- | [<- | []]]; discriminate.
Qed.

Lemma chart_sizes_bounded_witness :
  within_limits (Histogram Examples.sales "units" "units - Distribution" 20).
Proof.
  refine (proj2 (chart_sizes_bounded (Examples.reads Examples.sales)
            Examples.untouched Examples.some_upload Examples.sales eq_refl
            (Within "chart_col3"
               (PlotlyChart (Histogram Examples.sales "units"
                                       "units - Distribution" 20)))
            _ _ eq_refl)).
  vm_compute. repeat (first [left; reflexivity | right]).
Defined.


(** ** The KPI loop *)





(** ** The pie without slices *)

Lemma grouped_sums_inv (df : DataFrame) (c v : string) (groups : totals) :
  grouped_sums df c v = Ok groups ->
  exists keys vals d,
    getitem df c = Ok keys /\ getitem df v = Ok vals /\
    groups = groupby_sum d (combine keys vals).
Proof.
  unfold grouped_sums.
  destruct (getitem df c) as [keys | e]; [| discriminate].
  destruct (getitem df v) as [vals | e]; [| discriminate].
  destruct (dtype_of df v) as [d |]; [| discriminate].
  destruct (dtype_eqb d Datetime64); [discriminate |].
  destruct (String.eqb c v); [discriminate |].
  destruct (np_object d); [discriminate |].
  intros H. injection H as <-. exists keys, vals, d. repeat split.
Qed.

Lemma in_combine_exists {X Y : Type} (l : list X) (l' : list Y) (x : X) :
  length l = length l' -> In x l -> exists y, In (x, y) (combine l l').
Proof.
  revert l'. induction l as [| a l IH]; intros [| b l'] Hlen Hin;
    try discriminate; [destruct Hin |].
  destruct Hin as [-> | Hin].
  - exists b. now left.
  - destruct (IH l' (eq_add_S _ _ Hlen) Hin) as [y Hy]. exists y. now right.
Qed.

Lemma fold_group_all_missing {A : Type} (start : A) (step : A -> cell -> A)
    (kvs : list (cell * cell)) (acc : list (cell * A)) :
  (forall k v, In (k, v) kvs -> k = NaN) ->
  fold_left (group_step start step) kvs acc = acc.
Proof.
  revert acc. induction kvs as [| [k v] kvs IH]; intros acc H; [reflexivity |].
  cbn [fold_left]. rewrite (H k v (or_introl eq_refl)). unfold group_step at 2.
  cbn [fst]. apply IH. intros k' v' Hin. apply (H k' v'). now right.
Qed.

Lemma firstn_nil_iff {X : Type} (n : nat) (l : list X) :
  (0 < n)%nat -> (firstn n l = [] <-> l = []).
Proof.
  intros Hn. destruct n; [lia |]. destruct l; simpl; split; congruence.
Qed.

(** X10. A pie the builder returns has no slice exactly when no row of the
    table has a category - the table is empty or every cell of the category
    column is missing. *)
Theorem pie_without_slices (df : DataFrame) (c v : string) (fig : Figure)
    (keys : Series) :
  create_pie_chart df c v = Ok fig ->
  getitem df c = Ok keys ->
  (slices fig = [] <-> forall k, In k keys -> k = NaN).
Proof.
  intros Hfig Hk. apply create_pie_chart_inv in Hfig.
  destruct Hfig as [groups [Hg ->]]. cbn [slices].
  apply grouped_sums_inv in Hg. destruct Hg as [keys' [vals [d [Hk' [Hv ->]]]]].
  rewrite Hk in Hk'. injection Hk' as <-.
  assert (Hlen : length keys = length vals).
  { now rewrite (getitem_length _ _ _ Hk), (getitem_length _ _ _ Hv). }
  destruct (groupby_sum_groups d (combine keys vals)) as [Hsorted [Hcover _]].
  destruct (nlargest_ranked 10 _ Hsorted) as [ranked [Hperm [_ ->]]].
  rewrite firstn_nil_iff by (change (Z.to_nat 10) with 10%nat; lia).
  split.
  - intros Hnil k Hin. subst ranked. apply Permutation_sym, Permutation_nil in Hperm.
    destruct (in_combine_exists keys vals _ Hlen Hin) as [y Hy].
    destruct k as [z | x | t |]; [| | | reflexivity]; exfalso;
      (destruct (Hcover _ _ Hy) as [k' [Hin' _]]; [discriminate |]);
      rewrite Hperm in Hin'; destruct Hin'.
  - intros Hall.
    assert (E : entries (groupby_sum d (combine keys vals)) = []).
    { assert (Hm : forall k y, In (k, y) (combine keys vals) -> k = NaN).
      { intros k y Hin. apply Hall. eapply in_combine_l, Hin. }
      destruct d; cbn [groupby_sum entries]; unfold group_fold;
        rewrite (fold_group_all_missing _ _ _ [] Hm); reflexivity. }
    rewrite E in Hperm. now apply Permutation_nil in Hperm.
Qed.

Lemma pie_without_slices_witness :
  slices (Pie [(Str "south", SInt 20); (Str "north", SInt 15)]
              "units" "region" "units by region") = []
  <-> forall k, In k [Str "north"; Str "south"; Str "north"; NaN] -> k = NaN.
Proof.
  exact (pie_without_slices Examples.sales "region" "units" _ _ eq_refl eq_refl).
Defined.

(** ** Each chart panel follows its own selector *)

Lemma selectbox_ext (ss ss' : Session) (label : string) (options : list string)
    (key : string) :
  selectbox_state ss key = selectbox_state ss' key ->
  selectbox ss label options key = selectbox ss' label options key.
Proof. intros H. unfold selectbox. now rewrite H. Qed.

Lemma panel_of_app (c : string) (p q : Page) :
  panel_of c (p ++ q) = panel_of c p ++ panel_of c q.
Proof. apply filter_app. Qed.

Lemma panel_of_within {A : Type} (c c' : string) (m : M A) :
  panel_of c (fst (within c' m)) = if String.eqb c c' then fst (within c' m) else [].
Proof.
  unfold within, panel_of. cbn [fst]. induction (fst m) as [| e p IH]; simpl.
  - destruct (String.eqb c c'); reflexivity.
  - rewrite IH. destruct (String.eqb c c'); reflexivity.
Qed.

(** X15. The four chart panels are keyed by independent selector state: for
    numeric options that are columns of the table, what the page shows in the
    bar panel is the same in two sessions that agree on the selectbox "bar"
    - whatever else differs between them - and likewise the line panel for
    "line", the histogram panel for "hist", and the pie panel for "pie_cat"
    and "pie_val". *)
Theorem panels_follow_their_own_selectors
    (ss ss' : Session) (df : DataFrame) (num : list string) :
  incl num (columns df) ->
  let page := fst (charts_section ss df num) in
  let page' := fst (charts_section ss' df num) in
  (selectbox_state ss "bar" = selectbox_state ss' "bar" ->
   panel_of "chart_col1" page = panel_of "chart_col1" page') /\
  (selectbox_state ss "line" = selectbox_state ss' "line" ->
   panel_of "chart_col2" page = panel_of "chart_col2" page') /\
  (selectbox_state ss "hist" = selectbox_state ss' "hist" ->
   panel_of "chart_col3" page = panel_of "chart_col3" page') /\
  (selectbox_state ss "pie_cat" = selectbox_state ss' "pie_cat" ->
   selectbox_state ss "pie_val" = selectbox_state ss' "pie_val" ->
   panel_of "chart_col4" page = panel_of "chart_col4" page').
Proof.
  intros Hincl page page'.
  pose (B := fun s : Session =>
    within "chart_col1"
      (if (1 <=? Z.of_nat (length num))%Z then
         bind (selectbox s "Select column for bar chart:" num "bar") (fun x =>
           if_truthy x (fun c =>
             bind (lift (create_bar_chart df c bar_limit))
                  (fun fig => emit (PlotlyChart fig))))
       else ret tt)).
  pose (L := fun s : Session =>
    within "chart_col2"
      (if (1 <=? Z.of_nat (length num))%Z then
         bind (selectbox s "Select column for trend line:" num "line") (fun x =>
           if_truthy x (fun c =>
             bind (lift (create_line_chart df c line_limit))
                  (fun fig => emit (PlotlyChart fig))))
       else ret tt)).
  pose (H := fun s : Session =>
    within "chart_col3"
      (if (1 <=? Z.of_nat (length num))%Z then
         bind (selectbox s "Select column for distribution:" num "hist") (fun x =>
           if_truthy x (fun c =>
             bind (lift (create_histogram df c))
                  (fun fig => emit (PlotlyChart fig))))
       else ret tt)).
  pose (P := fun s : Session =>
    within "chart_col4"
      (if ((0 <? Z.of_nat (length (columns (select_dtypes np_object df))))%Z
           && (0 <? Z.of_nat (length num))%Z)%bool then
         bind (selectbox s "Select category for pie chart:"
                         (columns (select_dtypes np_object df)) "pie_cat")
           (fun cat_col =>
              bind (selectbox s "Select value for pie chart:" num "pie_val")
                (fun val_col =>
                   if_truthy cat_col (fun c =>
                     if_truthy val_col (fun v =>
                       bind (lift (create_pie_chart df c v))
                            (fun fig => emit (PlotlyChart fig))))))
       else ret tt)).
  assert (Hdec : forall s,
            fst (charts_section s df num)
            = Subheader "📊 Visualizations" :: Columns 2
              :: fst (B s) ++ fst (L s) ++ Columns 2 :: fst (H s) ++ fst (P s)).
  { intros s.
    pose proof (numeric_panel_succeeds "chart_col1" "Select column for bar chart:"
                  "bar" num (fun c => create_bar_chart df c bar_limit) s) as SB.
    pose proof (numeric_panel_succeeds "chart_col2" "Select column for trend line:"
                  "line" num (fun c => create_line_chart df c line_limit) s) as SL.
    pose proof (numeric_panel_succeeds "chart_col3" "Select column for distribution:"
                  "hist" num (fun c => create_histogram df c) s) as SH.
    cbv beta zeta in SB, SL, SH.
    unfold charts_section, B, L, H, P. rewrite !bind_emit. cbn [fst snd].
    rewrite (bind_ok _ _ tt (SB (fun c Hc =>
               ex_intro _ _ (create_bar_chart_ok df c bar_limit (Hincl c Hc))))).
    cbn [fst snd].
    rewrite (bind_ok _ _ tt (SL (fun c Hc =>
               ex_intro _ _ (create_line_chart_ok df c line_limit (Hincl c Hc))))).
    cbn [fst snd].
    rewrite (bind_ok _ _ tt (SH (fun c Hc =>
               ex_intro _ _ (create_histogram_ok df c (Hincl c Hc))))).
    cbn [fst snd]. reflexivity. }
  assert (Hpanel : forall c s,
            panel_of c (fst (charts_section s df num))
            = (if String.eqb c "chart_col1" then fst (B s) else [])
              ++ (if String.eqb c "chart_col2" then fst (L s) else [])
              ++ (if String.eqb c "chart_col3" then fst (H s) else [])
              ++ (if String.eqb c "chart_col4" then fst (P s) else [])).
  { intros c s. rewrite Hdec.
    change (panel_of c (Subheader "📊 Visualizations" :: Columns 2
                        :: fst (B s) ++ fst (L s) ++ Columns 2 :: fst (H s) ++ fst (P s)))
      with (panel_of c (fst (B s) ++ fst (L s) ++ Columns 2 :: fst (H s) ++ fst (P s))).
    rewrite !panel_of_app.
    change (panel_of c (Columns 2 :: fst (H s) ++ fst (P s)))
      with (panel_of c (fst (H s) ++ fst (P s))).
    rewrite panel_of_app. unfold B, L, H, P. rewrite !panel_of_within. reflexivity. }
  unfold page, page'. rewrite !Hpanel.
  repeat split.
  - intros E. simpl String.eqb. cbn iota. rewrite !app_nil_r. unfold B.
    now rewrite (selectbox_ext ss ss' _ num "bar" E).
  - intros E. simpl String.eqb. cbn iota. rewrite !app_nil_r. unfold L.
    now rewrite (selectbox_ext ss ss' _ num "line" E).
  - intros E. simpl String.eqb. cbn iota. rewrite !app_nil_r. unfold H.
    now rewrite (selectbox_ext ss ss' _ num "hist" E).
  - intros E1 E2. simpl String.eqb. cbn iota. unfold P.
    now rewrite (selectbox_ext ss ss' _ _ "pie_cat" E1),
                (selectbox_ext ss ss' _ num "pie_val" E2).
Qed.

Lemma panels_follow_their_own_selectors_witness :
  panel_of "chart_col1"
    (fst (charts_section (mkSession (fun k => if String.eqb k "line" then Some 1%nat
                                              else None) None)
                         Examples.sales ["units"; "price"]))
  = panel_of "chart_col1"
      (fst (charts_section Examples.untouched Examples.sales ["units"; "price"])).
Proof.
  refine (proj1 (panels_follow_their_own_selectors _ Examples.untouched
                   Examples.sales ["units"; "price"] _) eq_refl).
  intros c Hc. simpl in Hc. simpl. destruct Hc as [<- | [<- | []]]; tauto.
Defined.

Lemma len_capped_min (df : DataFrame) : len (capped df) = Z.min (len df) 10000.
Proof.
  unfold capped. destruct (row_limit <? len df)%Z eqn:E.
  - apply Z.ltb_lt in E. unfold head, len, slice_head in *. cbn [rows].
    change (0 <=? row_limit)%Z with true. cbn iota.
    rewrite length_firstn. unfold row_limit in *. lia.
  - apply Z.ltb_ge in E. unfold row_limit in E. lia.
Qed.


(** ** The capped table *)

(** X16. The truncation guard of the script always returns a table: the
    first 10,000 rows of the loaded table, with its schema, min(rows, 10,000)
    rows in all.  It shows the truncation advisory exactly when the loaded
    table has more than 10,000 rows and renders nothing otherwise, and on the
    table it returned it changes nothing and shows no advisory. *)
Theorem capped_table_invariants (df : DataFrame) :
  exists df',
    snd (truncate df) = Ok df' /\
    len df' = Z.min (len df) 10000 /\
    schema df' = schema df /\
    rows df' = firstn (Z.to_nat 10000) (rows df) /\
    ((10000 < len df)%Z ->
       fst (truncate df) = [Warning (truncation_advisory (len df))]) /\
    ((len df <= 10000)%Z -> fst (truncate df) = [] /\ df' = df) /\
    truncate df' = ([], Ok df').
Proof.
  exists (capped df). rewrite truncate_unfold. cbn [fst snd].
  pose proof (len_capped df) as Hlen.
  assert (Hno : (row_limit <? len (capped df))%Z = false).
  { apply Z.ltb_ge. exact Hlen. }
  split; [reflexivity |]. split; [apply len_capped_min |].
  split; [apply schema_capped |].
  split; [| split; [| split]].
  - unfold capped. destruct (row_limit <? len df)%Z eqn:E.
    + unfold head, slice_head. cbn [rows].
      change (0 <=? row_limit)%Z with true. reflexivity.
    + apply Z.ltb_ge in E. symmetry. apply firstn_all2.
      unfold len, row_limit in E. lia.
  - intros Hgt. unfold advisory.
    assert (E : (row_limit <? len df)%Z = true) by (apply Z.ltb_lt; exact Hgt).
    now rewrite E.
  - intros Hle. unfold advisory, capped.
    assert (E : (row_limit <? len df)%Z = false) by (apply Z.ltb_ge; exact Hle).
    now rewrite E.
  - assert (Hidem : capped (capped df) = capped df)
      by (unfold capped at 1; now rewrite Hno).
    rewrite truncate_unfold, Hidem. unfold advisory. now rewrite Hno.
Qed.

Lemma capped_table_invariants_witness :
  exists df',
    snd (truncate Examples.over_the_ceiling) = Ok df' /\
    len df' = 10000%Z /\
    fst (truncate Examples.over_the_ceiling)
    = [Warning (truncation_advisory 10001)].
Proof.
  destruct (capped_table_invariants Examples.over_the_ceiling)
    as (df' & Hr & Hlen & _ & _ & Hadv & _).
  exists df'. split; [exact Hr |]. split; [exact Hlen |].
  apply Hadv. vm_compute. reflexivity.
Defined.

(** ** The counts on the page *)

Lemma In_loaded_prefix (read_excel : UploadedFile -> Outcome DataFrame)
    (ss : Session) (f : UploadedFile) (df : DataFrame) (x : element) :
  read_excel f = Ok df ->
  In x (dashboard_prefix (capped df)) ->
  In x (fst (main read_excel ss (Some f))).
Proof.
  intros H Hx. rewrite main_unfold, (pipeline_loaded _ _ _ _ H). cbn [fst snd].
  apply in_or_app. right. apply in_or_app. left. apply in_or_app. right.
  apply In_dashboard_prefix, Hx.
Qed.

(** X18. For a successfully loaded table the success message and the three
    metrics report the table after the cap: the message and "Total Rows" show
    min(rows, 10,000), the message and "Total Columns" the number of columns
    of the table as loaded, and "Numeric Columns" the number of numeric
    columns, which is at most the number of columns and is the number of
    options every KPI multiselect on the page offers. *)
Theorem loaded_counts
    (read_excel : UploadedFile -> Outcome DataFrame) (ss : Session)
    (f : UploadedFile) (df : DataFrame) :
  read_excel f = Ok df ->
  let n := Z.min (len df) 10000 in
  let k := Z.of_nat (length (columns df)) in
  let m := Z.of_nat (length (numeric_columns df)) in
  let page := fst (main read_excel ss (Some f)) in
  In (Success ("✅ File uploaded successfully! Found " ++ str_of_int n
               ++ " rows and " ++ str_of_int k ++ " columns.")) page /\
  In (Within "col1" (Metric "Total Rows" (MInt n) None)) page /\
  In (Within "col2" (Metric "Total Columns" (MInt k) None)) page /\
  In (Within "col3" (Metric "Numeric Columns" (MInt m) None)) page /\
  (0 <= m <= k)%Z /\
  (forall label options default,
     In (Multiselect label options default) page ->
     Z.of_nat (length options) = m).
Proof.
  intros H n k m page.
  assert (Hp : forall x, In x (dashboard_prefix (capped df)) -> In x page)
    by (intros x; apply In_loaded_prefix, H).
  unfold dashboard_prefix in Hp.
  rewrite len_capped_min, columns_capped, numeric_columns_capped in Hp.
  fold n k m in Hp.
  split; [apply Hp; simpl; tauto |]. split; [apply Hp; simpl; tauto |].
  split; [apply Hp; simpl; tauto |]. split; [apply Hp; simpl; tauto |].
  split.
  - unfold m, k, numeric_columns. rewrite columns_select_dtypes. unfold columns.
    rewrite !length_map. pose proof (filter_length_le (fun c => np_number (snd c)) (schema df)).
    lia.
  - intros label options default Hin. unfold page in Hin.
    rewrite main_unfold, (pipeline_loaded _ _ _ _ H) in Hin. cbn [fst snd] in Hin.
    apply in_app_or in Hin. destruct Hin as [Hin | Hin].
    { simpl in Hin. destruct Hin as [E | [E | [E | []]]]; discriminate E. }
    apply in_app_or in Hin. destruct Hin as [Hin | Hin].
    + apply in_app_or in Hin. destruct Hin as [Hin | Hin].
      * apply In_advisory in Hin. discriminate Hin.
      * pose proof (dashboard_renders ss (capped df)) as Hr.
        unfold renders in Hr. rewrite Forall_forall in Hr.
        destruct (Hr _ Hin) as [-> _]. unfold m.
        now rewrite numeric_columns_capped.
    + destruct (snd (dashboard ss (capped df))) as [[] | e]; [destruct Hin |].
      simpl in Hin. destruct Hin as [E | [E | []]]; discriminate E.
Qed.

Lemma loaded_counts_witness :
  In (Success "✅ File uploaded successfully! Found 10000 rows and 1 columns.")
     (fst (main (Examples.reads Examples.over_the_ceiling) Examples.untouched
                (Some Examples.some_upload))) /\
  In (Within "col3" (Metric "Numeric Columns" (MInt 1) None))
     (fst (main (Examples.reads Examples.over_the_ceiling) Examples.untouched
                (Some Examples.some_upload))).
Proof.
  destruct (loaded_counts (Examples.reads Examples.over_the_ceiling)
              Examples.untouched Examples.some_upload Examples.over_the_ceiling
              eq_refl) as (Hs & _ & _ & Hm & _).
  split; [exact Hs | exact Hm].
Defined.
